(** * Bookshelf view: the server-wake banner, colour assignment and CRUD calls

    A shallow embedding of the script of the bookshelf view (the component
    that owns [fetchBooks], [startServerWakeBanner], [saveBook], ...).

    The component is event driven.  Its state is a handful of reactive
    references and module-level variables; it registers timers with the
    browser ([setTimeout], [setInterval]) and issues HTTP requests whose
    answers arrive later.  The embedding therefore has three layers:

    - the component's variables ([Shelf], [BannerState], [Handles]);
    - the part of the browser the code relies on: a clock, the table of armed
      timers and the table of requests that are awaiting an answer, each with
      the continuation the code stopped in ([World]);
    - an event loop [step] that fires the earliest timer, delivers the answer
      of a request, or runs a handler of the template.

    An [async] function runs synchronously up to its first [await]; what
    follows the [await] is a separate function here (for instance [fetchBooks]
    and [fetchBooks_resume]).  Awaiting an already settled promise resumes in
    a microtask of the same job, before any other timer or answer, so such a
    continuation is composed directly.  The two awaits of a request
    ([await fetch(...)] and [await response.json()]) are one suspension:
    between them the code only tests [response.ok], so an answer is delivered
    as one event when the function next touches the state.

    Modelling conventions:
    - item ids are integers ([Z]); an id used as an object key is that integer;
    - a string of the program is a sequence of UTF-16 code units
      ([ustring]), as in ECMAScript; the literals of the source are ASCII
      and are written [lit "..."];
    - hues are kept in thousandths of a degree, so that [137.508] and the
      remainder by [360] are exact; the rounding of IEEE doubles and the
      printing of a hue inside the CSS text are not modelled;
    - time is in milliseconds; a timer fires exactly when it is due. *)

From stdpp Require Import gmap strings list.
From Stdlib Require Import ZArith Lia Ascii String.

Local Open Scope string_scope.
Local Open Scope list_scope.
Local Open Scope Z_scope.

(** ** Strings *)

(** A string value: its UTF-16 code units, each a number below 65536. *)
Definition ustring : Type := list N.

(** A literal of the source; every character of it is ASCII, and its code
    unit is its character code. *)
Definition lit (s : string) : ustring := map N_of_ascii (list_ascii_of_string s).
Arguments lit : simpl never.

(** [a === b] on strings. *)
Fixpoint ustring_eqb (a b : ustring) : bool :=
  match a, b with
  | [], [] => true
  | x :: a', y :: b' => N.eqb x y && ustring_eqb a' b'
  | _, _ => false
  end.

Definition dquote : ustring := [34%N].

(** What [trim] strips: the code points of the WhiteSpace production of
    ECMAScript (TAB, VT, FF, SP, NBSP, U+FEFF and the space separators of
    Unicode: U+1680, U+2000 to U+200A, U+202F, U+205F, U+3000) and of its
    LineTerminator production (LF, CR, U+2028, U+2029).  Each is one code
    unit. *)
Definition is_space (c : N) : bool :=
  existsb (N.eqb c) [9; 11; 12; 32; 160; 5760; 8239; 8287; 12288; 65279]%N
  || (N.leb 8192 c && N.leb c 8202)
  || existsb (N.eqb c) [10; 13; 8232; 8233]%N.

Fixpoint trimStart (s : ustring) : ustring :=
  match s with
  | [] => []
  | c :: r => if is_space c then trimStart r else s
  end.

Fixpoint trimEnd (s : ustring) : ustring :=
  match s with
  | [] => []
  | c :: r =>
      match trimEnd r with
      | [] => if is_space c then [] else [c]
      | r' => c :: r'
      end
  end.

(** [String.prototype.trim] *)
Definition trim (s : ustring) : ustring := trimEnd (trimStart s).

Fixpoint whitespace_only (s : ustring) : bool :=
  match s with
  | [] => true
  | c :: r => is_space c && whitespace_only r
  end.

(** A string is falsy exactly when it is empty. *)
Definition truthy_string (s : ustring) : bool :=
  match s with [] => false | _ => true end.

(** ** The API address *)

(** The code unit of [/]. *)
Definition slash : N := 47.

(** [s.replace(/\/$/, '')]: the pattern matches a slash at the very end of
    the input only, so at most one code unit is removed. *)
Fixpoint strip_trailing_slash (s : ustring) : ustring :=
  match s with
  | [] => []
  | [c] => if N.eqb c slash then [] else s
  | c :: r => c :: strip_trailing_slash r
  end.

(** [(import.meta.env.VITE_API_URL ?? '').replace(/\/$/, '')]; [None] is an
    unset variable. *)
Definition apiBaseUrl (env : option ustring) : ustring :=
  strip_trailing_slash (default [] env).

Definition apiUrl (env : option ustring) : ustring := apiBaseUrl env ++ lit "/items".

(** ** Data *)

Record Item := { item_id : Z; item_name : ustring }.

(** One colour stop [hsl(h s% l%)]; the hue is in thousandths of a degree. *)
Record Stop := { stop_hue : Z; stop_saturation : Z; stop_lightness : Z }.

(** [linear-gradient(135deg, s1, s2, s3)] *)
Record Gradient := { g_first : Stop; g_mid : Stop; g_last : Stop }.

Definition GOLDEN_ANGLE : Z := 137508.   (* 137.508 degrees *)
Definition BASE_SATURATION : Z := 78.
Definition BASE_LIGHTNESS : Z := 56.
Definition GRADIENT_STEP : Z := 22.
Definition FULL_TURN : Z := 360000.       (* 360 degrees *)
Definition degrees (d : Z) : Z := d * 1000.

Definition gradientFromIndex (index : Z) : Gradient :=
  let hue := Z.rem (index * GOLDEN_ANGLE) FULL_TURN in
  let midHue := Z.rem (hue + degrees GRADIENT_STEP) FULL_TURN in
  let endHue := Z.rem (hue + degrees (GRADIENT_STEP * 2)) FULL_TURN in
  {| g_first := {| stop_hue := hue; stop_saturation := BASE_SATURATION;
                   stop_lightness := BASE_LIGHTNESS + 8 |};
     g_mid := {| stop_hue := midHue; stop_saturation := BASE_SATURATION;
                 stop_lightness := BASE_LIGHTNESS |};
     g_last := {| stop_hue := endHue; stop_saturation := BASE_SATURATION - 6;
                  stop_lightness := BASE_LIGHTNESS - 10 |} |}.

Inductive Phase := Idle | Countdown | Grace | Failed.

(** The value of [bannerPhase] in the source. *)
Definition phase_name (p : Phase) : string :=
  match p with
  | Idle => EmptyString
  | Countdown => "countdown"
  | Grace => "grace"
  | Failed => "failed"
  end.

#[global] Instance Phase_eq_dec : EqDecision Phase.
Proof. solve_decision. Defined.

(** The reactive references of the shelf. *)
Record Shelf := {
  books : list Item;
  colorMap : gmap Z Gradient;
  formName : ustring;
  editingId : option Z;
  statusMessage : ustring;
  loading : bool
}.

(** The reactive references of the banner. *)
Record BannerState := {
  bannerVisible : bool;
  bannerMessage : ustring;
  bannerCountdown : option Z;
  bannerPhase : Phase;
  bannerFailureMessage : ustring
}.

(** The module-level [let] variables.  A timer handle is a positive number,
    hence truthy; [None] is [null]. *)
Record Handles := {
  bannerDelayTimer : option nat;
  countdownTimer : option nat;
  graceTimer : option nat;
  finalTimer : option nat;
  bannerFetchInFlight : bool
}.

(** ** The browser side *)

(** What an armed timer runs. *)
Inductive Callback :=
| KickoffBanner (call : nat)  (* the 1200 ms timeout of the [fetchBooks] call [call] *)
| CountdownTick               (* the interval of [startServerWakeBanner] *)
| GraceTick (g : nat)         (* the interval of the [startGracePeriod] call [g] *)
| FinalHide.                  (* [() => hideBanner()] *)

Record Timer := {
  t_handle : nat;
  t_due : Z;
  t_every : option Z;    (* [Some p] for [setInterval], [None] for [setTimeout] *)
  t_run : Callback
}.

(** Who awaits a [fetchBooks] call: nobody that does anything afterwards
    ([initializeBooks], the refresh button), or [tryFetchDuringBanner], itself
    awaited by a grace tick ([Some g]) or by nothing that continues ([None]:
    a countdown tick or [startServerWakeBanner]). *)
Inductive Caller :=
| TopLevel
| FromRetry (grace : option nat).

(** The parameters and the local variable of a suspended [fetchBooks] call. *)
Record FetchCall := {
  fc_silent : bool;
  fc_triggerBannerOnFailure : bool;
  fc_allowImmediateFailure : bool;
  fc_bannerKickoffPending : bool;
  fc_caller : Caller
}.

(** A request awaiting its answer, with what the suspended function captured. *)
Inductive Request :=
| ReqBooks (c : FetchCall)                                   (* GET /items *)
| ReqSave (isEditing : bool) (target : option Z) (name : ustring) (* POST or PATCH *)
| ReqRemove (id : Z).                                        (* DELETE /items/id *)

Definition request_method (r : Request) : string :=
  match r with
  | ReqBooks _ => "GET"
  | ReqSave isEditing _ _ => if isEditing then "PATCH" else "POST"
  | ReqRemove _ => "DELETE"
  end.

(** How a request ends: [fetch] rejects (no response object), or a response
    arrives, whose body parses to [A] or fails to with an error message. *)
Inductive Outcome (A : Type) :=
| Rejected (message : ustring)
| Responded (status : Z) (body : ustring + A).
Arguments Rejected {A} message.
Arguments Responded {A} status body.

(** [response.ok] *)
Definition ok (status : Z) : bool := (200 <=? status) && (status <=? 299).

Inductive Lifecycle := Created | Mounted | Unmounted.

Record World := {
  shelf : Shelf;
  banner : BannerState;
  handles : Handles;
  secondsLeft : gmap nat Z;          (* the local of each [startGracePeriod] call *)
  now : Z;
  timers : list Timer;
  nextHandle : nat;
  pending : list (nat * Request);
  nextCall : nat;
  lifecycle : Lifecycle
}.

(** ** Assignments to the variables *)

Definition set_books (v : list Item) (s : Shelf) : Shelf :=
  {| books := v; colorMap := colorMap s; formName := formName s;
     editingId := editingId s; statusMessage := statusMessage s; loading := loading s |}.
Definition set_colorMap (v : gmap Z Gradient) (s : Shelf) : Shelf :=
  {| books := books s; colorMap := v; formName := formName s;
     editingId := editingId s; statusMessage := statusMessage s; loading := loading s |}.
Definition set_formName (v : ustring) (s : Shelf) : Shelf :=
  {| books := books s; colorMap := colorMap s; formName := v;
     editingId := editingId s; statusMessage := statusMessage s; loading := loading s |}.
Definition set_editingId (v : option Z) (s : Shelf) : Shelf :=
  {| books := books s; colorMap := colorMap s; formName := formName s;
     editingId := v; statusMessage := statusMessage s; loading := loading s |}.
Definition set_statusMessage (v : ustring) (s : Shelf) : Shelf :=
  {| books := books s; colorMap := colorMap s; formName := formName s;
     editingId := editingId s; statusMessage := v; loading := loading s |}.
Definition set_loading (v : bool) (s : Shelf) : Shelf :=
  {| books := books s; colorMap := colorMap s; formName := formName s;
     editingId := editingId s; statusMessage := statusMessage s; loading := v |}.

Definition set_bannerVisible (v : bool) (b : BannerState) : BannerState :=
  {| bannerVisible := v; bannerMessage := bannerMessage b;
     bannerCountdown := bannerCountdown b; bannerPhase := bannerPhase b;
     bannerFailureMessage := bannerFailureMessage b |}.
Definition set_bannerMessage (v : ustring) (b : BannerState) : BannerState :=
  {| bannerVisible := bannerVisible b; bannerMessage := v;
     bannerCountdown := bannerCountdown b; bannerPhase := bannerPhase b;
     bannerFailureMessage := bannerFailureMessage b |}.
Definition set_bannerCountdown (v : option Z) (b : BannerState) : BannerState :=
  {| bannerVisible := bannerVisible b; bannerMessage := bannerMessage b;
     bannerCountdown := v; bannerPhase := bannerPhase b;
     bannerFailureMessage := bannerFailureMessage b |}.
Definition set_bannerPhase (v : Phase) (b : BannerState) : BannerState :=
  {| bannerVisible := bannerVisible b; bannerMessage := bannerMessage b;
     bannerCountdown := bannerCountdown b; bannerPhase := v;
     bannerFailureMessage := bannerFailureMessage b |}.
Definition set_bannerFailureMessage (v : ustring) (b : BannerState) : BannerState :=
  {| bannerVisible := bannerVisible b; bannerMessage := bannerMessage b;
     bannerCountdown := bannerCountdown b; bannerPhase := bannerPhase b;
     bannerFailureMessage := v |}.

Definition set_bannerDelayTimer (v : option nat) (h : Handles) : Handles :=
  {| bannerDelayTimer := v; countdownTimer := countdownTimer h;
     graceTimer := graceTimer h; finalTimer := finalTimer h;
     bannerFetchInFlight := bannerFetchInFlight h |}.
Definition set_countdownTimer (v : option nat) (h : Handles) : Handles :=
  {| bannerDelayTimer := bannerDelayTimer h; countdownTimer := v;
     graceTimer := graceTimer h; finalTimer := finalTimer h;
     bannerFetchInFlight := bannerFetchInFlight h |}.
Definition set_graceTimer (v : option nat) (h : Handles) : Handles :=
  {| bannerDelayTimer := bannerDelayTimer h; countdownTimer := countdownTimer h;
     graceTimer := v; finalTimer := finalTimer h;
     bannerFetchInFlight := bannerFetchInFlight h |}.
Definition set_finalTimer (v : option nat) (h : Handles) : Handles :=
  {| bannerDelayTimer := bannerDelayTimer h; countdownTimer := countdownTimer h;
     graceTimer := graceTimer h; finalTimer := v;
     bannerFetchInFlight := bannerFetchInFlight h |}.
Definition set_bannerFetchInFlight (v : bool) (h : Handles) : Handles :=
  {| bannerDelayTimer := bannerDelayTimer h; countdownTimer := countdownTimer h;
     graceTimer := graceTimer h; finalTimer := finalTimer h;
     bannerFetchInFlight := v |}.

Definition upd_shelf (f : Shelf -> Shelf) (w : World) : World :=
  {| shelf := f (shelf w); banner := banner w; handles := handles w;
     secondsLeft := secondsLeft w; now := now w; timers := timers w;
     nextHandle := nextHandle w; pending := pending w; nextCall := nextCall w;
     lifecycle := lifecycle w |}.
Definition upd_banner (f : BannerState -> BannerState) (w : World) : World :=
  {| shelf := shelf w; banner := f (banner w); handles := handles w;
     secondsLeft := secondsLeft w; now := now w; timers := timers w;
     nextHandle := nextHandle w; pending := pending w; nextCall := nextCall w;
     lifecycle := lifecycle w |}.
Definition upd_handles (f : Handles -> Handles) (w : World) : World :=
  {| shelf := shelf w; banner := banner w; handles := f (handles w);
     secondsLeft := secondsLeft w; now := now w; timers := timers w;
     nextHandle := nextHandle w; pending := pending w; nextCall := nextCall w;
     lifecycle := lifecycle w |}.
Definition set_secondsLeft (v : gmap nat Z) (w : World) : World :=
  {| shelf := shelf w; banner := banner w; handles := handles w;
     secondsLeft := v; now := now w; timers := timers w;
     nextHandle := nextHandle w; pending := pending w; nextCall := nextCall w;
     lifecycle := lifecycle w |}.
Definition set_now (v : Z) (w : World) : World :=
  {| shelf := shelf w; banner := banner w; handles := handles w;
     secondsLeft := secondsLeft w; now := v; timers := timers w;
     nextHandle := nextHandle w; pending := pending w; nextCall := nextCall w;
     lifecycle := lifecycle w |}.
Definition set_timers (v : list Timer) (w : World) : World :=
  {| shelf := shelf w; banner := banner w; handles := handles w;
     secondsLeft := secondsLeft w; now := now w; timers := v;
     nextHandle := nextHandle w; pending := pending w; nextCall := nextCall w;
     lifecycle := lifecycle w |}.
Definition set_nextHandle (v : nat) (w : World) : World :=
  {| shelf := shelf w; banner := banner w; handles := handles w;
     secondsLeft := secondsLeft w; now := now w; timers := timers w;
     nextHandle := v; pending := pending w; nextCall := nextCall w;
     lifecycle := lifecycle w |}.
Definition set_pending (v : list (nat * Request)) (w : World) : World :=
  {| shelf := shelf w; banner := banner w; handles := handles w;
     secondsLeft := secondsLeft w; now := now w; timers := timers w;
     nextHandle := nextHandle w; pending := v; nextCall := nextCall w;
     lifecycle := lifecycle w |}.
Definition set_nextCall (v : nat) (w : World) : World :=
  {| shelf := shelf w; banner := banner w; handles := handles w;
     secondsLeft := secondsLeft w; now := now w; timers := timers w;
     nextHandle := nextHandle w; pending := pending w; nextCall := v;
     lifecycle := lifecycle w |}.
Definition set_lifecycle (v : Lifecycle) (w : World) : World :=
  {| shelf := shelf w; banner := banner w; handles := handles w;
     secondsLeft := secondsLeft w; now := now w; timers := timers w;
     nextHandle := nextHandle w; pending := pending w; nextCall := nextCall w;
     lifecycle := v |}.

(** ** Timers and requests *)

(** [setTimeout(cb, delay)] and [setInterval(cb, delay)]: the new timer is due
    [delay] ms from now; the handle is returned. *)
Definition arm (cb : Callback) (delay : Z) (every : option Z) (w : World) : nat * World :=
  let h := nextHandle w in
  (h, set_nextHandle (S h)
        (set_timers (timers w ++ [{| t_handle := h; t_due := now w + delay;
                                     t_every := every; t_run := cb |}]) w)).

Definition setTimeout (cb : Callback) (delay : Z) (w : World) : nat * World :=
  arm cb delay None w.
Definition setInterval (cb : Callback) (delay : Z) (w : World) : nat * World :=
  arm cb delay (Some delay) w.

Fixpoint drop_timer (h : nat) (l : list Timer) : list Timer :=
  match l with
  | [] => []
  | t :: r => if Nat.eqb (t_handle t) h then drop_timer h r else t :: drop_timer h r
  end.

(** [clearTimeout(h)], [clearInterval(h)] *)
Definition clearTimer (h : nat) (w : World) : World :=
  set_timers (drop_timer h (timers w)) w.

(** The request is sent; the calling function is suspended under a fresh id. *)
Definition issue (r : Request) (w : World) : World :=
  set_nextCall (S (nextCall w)) (set_pending (pending w ++ [(nextCall w, r)]) w).

Fixpoint take_request (rid : nat) (l : list (nat * Request))
  : option (Request * list (nat * Request)) :=
  match l with
  | [] => None
  | (i, r) :: rest =>
      if Nat.eqb i rid then Some (r, rest)
      else match take_request rid rest with
           | Some (r', rest') => Some (r', (i, r) :: rest')
           | None => None
           end
  end.

(** The timeout of [fetchBooks] writes the local [bannerKickoffPending] of its
    own call; the write is visible only while that call is suspended. *)
Definition clear_kickoff (call : nat) (l : list (nat * Request)) : list (nat * Request) :=
  map (fun p : nat * Request =>
         match p with
         | (i, ReqBooks c) =>
             if Nat.eqb i call then
               (i, ReqBooks {| fc_silent := fc_silent c;
                               fc_triggerBannerOnFailure := fc_triggerBannerOnFailure c;
                               fc_allowImmediateFailure := fc_allowImmediateFailure c;
                               fc_bannerKickoffPending := false;
                               fc_caller := fc_caller c |})
             else p
         | _ => p
         end) l.

(** ** The component's functions *)

Definition nextColorIndex (w : World) : Z := Z.of_nat (size (colorMap (shelf w))).

(** The [forEach] of [assignColors], with its running [colorIndex]. *)
Fixpoint assignColors_loop (items : list Item) (colorIndex : Z) (m : gmap Z Gradient)
  : gmap Z Gradient :=
  match items with
  | [] => m
  | item :: rest =>
      match m !! item_id item with
      | Some _ => assignColors_loop rest colorIndex m
      | None =>
          assignColors_loop rest (colorIndex + 1)
            (<[item_id item := gradientFromIndex colorIndex]> m)
      end
  end.

Definition assignColors (items : list Item) (w : World) : World :=
  upd_shelf (set_colorMap (assignColors_loop items (nextColorIndex w) (colorMap (shelf w)))) w.

Definition resetForm (w : World) : World :=
  upd_shelf (set_editingId None) (upd_shelf (set_formName []) w).

Definition setMessage (text : ustring) (w : World) : World :=
  upd_shelf (set_statusMessage text) w.

Definition clearBannerTimers (w : World) : World :=
  let w := match countdownTimer (handles w) with
           | Some h => upd_handles (set_countdownTimer None) (clearTimer h w)
           | None => w
           end in
  let w := match graceTimer (handles w) with
           | Some h => upd_handles (set_graceTimer None) (clearTimer h w)
           | None => w
           end in
  match finalTimer (handles w) with
  | Some h => upd_handles (set_finalTimer None) (clearTimer h w)
  | None => w
  end.

Definition hideBanner (w : World) : World :=
  let w := upd_banner (set_bannerVisible false) w in
  let w := upd_banner (set_bannerCountdown None) w in
  let w := upd_banner (set_bannerMessage []) w in
  let w := upd_banner (set_bannerPhase Idle) w in
  clearBannerTimers w.

(** [clearTimeout(x)] / [clearInterval(x)] on a variable that may hold [null]. *)
Definition clear_if_set (h : option nat) (w : World) : World :=
  match h with Some n => clearTimer n w | None => w end.

(** The grace interval's callback after its [await tryFetchDuringBanner()]. *)
Definition grace_after_retry (g : nat) (w : World) : World :=
  if (default 0 (secondsLeft w !! g) <=? 0) && bannerVisible (banner w) then
    let w := clear_if_set (graceTimer (handles w)) w in
    let w := upd_handles (set_graceTimer None) w in
    let w := upd_banner (set_bannerPhase Failed) w in
    let w := upd_banner (set_bannerMessage (bannerFailureMessage (banner w))) w in
    let '(h, w) := setTimeout FinalHide 3000 w in
    upd_handles (set_finalTimer (Some h)) w
  else w.

(** What the awaiter of [tryFetchDuringBanner] does once it returns. *)
Definition after_retry (grace : option nat) (w : World) : World :=
  match grace with
  | Some g => grace_after_retry g w
  | None => w
  end.

(** [fetchBooks] up to [await fetch(apiUrl)]. *)
Definition fetchBooks (silent triggerBannerOnFailure allowImmediateFailure : bool)
    (caller : Caller) (w : World) : World :=
  let call := nextCall w in
  let w := if silent then w
           else setMessage (lit "Fetching your reading list...")
                  (upd_shelf (set_loading true) w) in
  let w := if triggerBannerOnFailure then
             let '(h, w) := setTimeout (KickoffBanner call) 1200 w in
             upd_handles (set_bannerDelayTimer (Some h)) w
           else w in
  issue (ReqBooks {| fc_silent := silent;
                     fc_triggerBannerOnFailure := triggerBannerOnFailure;
                     fc_allowImmediateFailure := allowImmediateFailure;
                     fc_bannerKickoffPending := triggerBannerOnFailure;
                     fc_caller := caller |}) w.

(** [tryFetchDuringBanner], with what its awaiter does when the guard returns
    at once; otherwise the awaiter is recorded with the suspended call. *)
Definition tryFetchDuringBanner (grace : option nat) (w : World) : World :=
  if bannerFetchInFlight (handles w) then after_retry grace w
  else fetchBooks true false true (FromRetry grace)
         (upd_handles (set_bannerFetchInFlight true) w).

Definition startGracePeriod (w : World) : World :=
  let g := nextHandle w in
  let w := set_secondsLeft (<[g := 10]> (secondsLeft w)) w in
  let w := upd_banner (set_bannerPhase Grace) w in
  let w := upd_banner (set_bannerMessage (lit "The server is starting...")) w in
  let '(h, w) := setInterval (GraceTick g) 1000 w in
  upd_handles (set_graceTimer (Some h)) w.

Definition startServerWakeBanner (immediateFailure : bool) (failureMessage : ustring)
    (w : World) : World :=
  let w := upd_banner (set_bannerVisible true) w in
  let w := upd_banner (set_bannerFailureMessage failureMessage) w in
  if immediateFailure then
    let w := upd_banner (set_bannerPhase Failed) w in
    let w := upd_banner (set_bannerMessage (bannerFailureMessage (banner w))) w in
    let w := upd_banner (set_bannerCountdown None) w in
    let '(h, w) := setTimeout FinalHide 3000 w in
    upd_handles (set_finalTimer (Some h)) w
  else
    let w := upd_banner (set_bannerPhase Countdown) w in
    let w := upd_banner (set_bannerMessage (lit "Starting server, it usually takes")) w in
    let w := upd_banner (set_bannerCountdown (Some 25)) w in
    let w := tryFetchDuringBanner None w in
    let '(h, w) := setInterval CountdownTick 1000 w in
    upd_handles (set_countdownTimer (Some h)) w.

(** The countdown interval's callback; [null > 1] is false. *)
Definition countdown_tick (w : World) : World :=
  let over_one := match bannerCountdown (banner w) with
                  | Some k => 1 <? k
                  | None => false
                  end in
  if over_one then
    let w := upd_banner (set_bannerCountdown
                           (option_map (fun k => k - 1) (bannerCountdown (banner w)))) w in
    tryFetchDuringBanner None w
  else
    let w := clear_if_set (countdownTimer (handles w)) w in
    let w := upd_handles (set_countdownTimer None) w in
    let w := upd_banner (set_bannerCountdown None) w in
    startGracePeriod w.

(** The grace interval's callback up to its [await]. *)
Definition grace_tick (g : nat) (w : World) : World :=
  let w := set_secondsLeft (<[g := default 0 (secondsLeft w !! g) - 1]> (secondsLeft w)) w in
  tryFetchDuringBanner (Some g) w.

(** The 1200 ms timeout armed by [fetchBooks]. *)
Definition kickoff_banner (call : nat) (w : World) : World :=
  let w := if negb (bannerVisible (banner w)) && loading (shelf w)
           then startServerWakeBanner false (lit "Unable to load books") w
           else w in
  let w := set_pending (clear_kickoff call (pending w)) w in
  upd_handles (set_bannerDelayTimer None) w.

Definition run_callback (cb : Callback) (w : World) : World :=
  match cb with
  | KickoffBanner call => kickoff_banner call w
  | CountdownTick => countdown_tick w
  | GraceTick g => grace_tick g w
  | FinalHide => hideBanner w
  end.

(** How the [try] block of [fetchBooks] ends: the parsed list, or the caught
    error as (is [response] defined, [error.message]). *)
Definition settle_books (o : Outcome (list Item)) : (bool * ustring) + list Item :=
  match o with
  | Rejected m => inl (false, m)
  | Responded status body =>
      if ok status then
        match body with
        | inl m => inl (true, m)
        | inr data => inr data
        end
      else inl (true, lit "Unable to load books")
  end.

(** [fetchBooks] from the answer on: [try] or [catch], [finally], and then
    what the awaiter does. *)
Definition fetchBooks_resume (c : FetchCall) (o : Outcome (list Item)) (w : World) : World :=
  let w :=
    match settle_books o with
    | inr data =>
        let w := upd_shelf (set_books data) w in
        let w := assignColors data w in
        let w := setMessage (lit "Reading list refreshed. Ready for more stories!") w in
        hideBanner w
    | inl (has_response, message) =>
        let w := if fc_silent c then w else setMessage message w in
        if fc_triggerBannerOnFailure c && negb (bannerVisible (banner w)) then
          let w := match bannerDelayTimer (handles w) with
                   | Some h => upd_handles (set_bannerDelayTimer None) (clearTimer h w)
                   | None => w
                   end in
          let immediateFailure :=
            fc_allowImmediateFailure c
            && (negb has_response || ustring_eqb message (lit "Failed to fetch")) in
          let bannerAlreadyStarted := negb (fc_bannerKickoffPending c) in
          startServerWakeBanner immediateFailure
            (if bannerAlreadyStarted then bannerFailureMessage (banner w) else message) w
        else w
    end in
  let w := match bannerDelayTimer (handles w) with
           | Some h => upd_handles (set_bannerDelayTimer None) (clearTimer h w)
           | None => w
           end in
  let w := if fc_silent c then w else upd_shelf (set_loading false) w in
  match fc_caller c with
  | TopLevel => w
  | FromRetry grace => after_retry grace (upd_handles (set_bannerFetchInFlight false) w)
  end.

(** The parts of [fetchBooks_resume], one by one. *)

(** The rest of the [try] block, the answer being a list. *)
Definition fetchBooks_try (data : list Item) (w : World) : World :=
  let w := upd_shelf (set_books data) w in
  let w := assignColors data w in
  let w := setMessage (lit "Reading list refreshed. Ready for more stories!") w in
  hideBanner w.

(** The [catch] block; [has_response] tells whether [response] is defined. *)
Definition fetchBooks_catch (c : FetchCall) (has_response : bool) (message : ustring)
    (w : World) : World :=
  let w := if fc_silent c then w else setMessage message w in
  if fc_triggerBannerOnFailure c && negb (bannerVisible (banner w)) then
    let w := match bannerDelayTimer (handles w) with
             | Some h => upd_handles (set_bannerDelayTimer None) (clearTimer h w)
             | None => w
             end in
    let immediateFailure :=
      fc_allowImmediateFailure c
      && (negb has_response || ustring_eqb message (lit "Failed to fetch")) in
    let bannerAlreadyStarted := negb (fc_bannerKickoffPending c) in
    startServerWakeBanner immediateFailure
      (if bannerAlreadyStarted then bannerFailureMessage (banner w) else message) w
  else w.

(** The [finally] block. *)
Definition fetchBooks_finally (c : FetchCall) (w : World) : World :=
  let w := match bannerDelayTimer (handles w) with
           | Some h => upd_handles (set_bannerDelayTimer None) (clearTimer h w)
           | None => w
           end in
  if fc_silent c then w else upd_shelf (set_loading false) w.

(** What the awaiter of the call does when it returns. *)
Definition fetchBooks_return (c : FetchCall) (w : World) : World :=
  match fc_caller c with
  | TopLevel => w
  | FromRetry grace => after_retry grace (upd_handles (set_bannerFetchInFlight false) w)
  end.

(** [Boolean(editingId.value)]: [null] and [0] are falsy. *)
Definition is_editing (e : option Z) : bool :=
  match e with
  | Some n => negb (n =? 0)
  | None => false
  end.

(** [saveBook] up to [await fetch(url, ...)]; nothing is sent for a blank title. *)
Definition saveBook (w : World) : World :=
  if negb (truthy_string (trim (formName (shelf w)))) then
    setMessage (lit "Give the book a title before saving.") w
  else
    let name := trim (formName (shelf w)) in
    let isEditing := is_editing (editingId (shelf w)) in
    let w := setMessage (if isEditing then lit "Updating that book note..."
                         else lit "Adding a new book to the shelf...") w in
    issue (ReqSave isEditing (if isEditing then editingId (shelf w) else None) name) w.

(** [books.value.findIndex((book) => book.id === editingId.value)] *)
Fixpoint findIndex (e : option Z) (l : list Item) : option nat :=
  match l with
  | [] => None
  | b :: r =>
      if decide (Some (item_id b) = e) then Some O
      else option_map S (findIndex e r)
  end.

Definition saveBook_resume (isEditing : bool) (o : Outcome Item) (w : World) : World :=
  match o with
  | Rejected m => setMessage m w
  | Responded status body =>
      if ok status then
        match body with
        | inl m => setMessage m w
        | inr data =>
            let w :=
              if negb isEditing then
                let w := upd_shelf (set_books (books (shelf w) ++ [data])) w in
                let w := upd_shelf (set_colorMap
                           (<[item_id data := gradientFromIndex (nextColorIndex w)]>
                              (colorMap (shelf w)))) w in
                setMessage (dquote ++ item_name data ++ dquote
                            ++ lit " added. Keep the reading streak alive!") w
              else
                let w := match findIndex (editingId (shelf w)) (books (shelf w)) with
                         | Some index =>
                             upd_shelf (set_books (<[index := data]> (books (shelf w)))) w
                         | None => w
                         end in
                setMessage (lit "Book note updated. Turn the next page!") w in
            resetForm w
        end
      else setMessage (lit "Request failed. Check the API and try again.") w
  end.

Definition startEdit (book : Item) (w : World) : World :=
  let w := upd_shelf (set_editingId (Some (item_id book))) w in
  let w := upd_shelf (set_formName (item_name book)) w in
  setMessage (lit "Editing " ++ dquote ++ item_name book ++ dquote
              ++ lit ". Make your changes and save.") w.

(** [removeBook] up to [await fetch(..., { method: 'DELETE' })]. *)
Definition removeBook (id : Z) (w : World) : World :=
  issue (ReqRemove id) (setMessage (lit "Sending this book back to the library...") w).

Definition removeBook_resume (id : Z) (o : Outcome unit) (w : World) : World :=
  match o with
  | Rejected m => setMessage m w
  | Responded status _ =>
      if negb (ok status) && negb (status =? 204) then
        setMessage (lit "Could not remove the book. Is the API running?") w
      else
        let w := upd_shelf (set_books
                   (filter (fun book => item_id book <> id) (books (shelf w)))) w in
        let w := upd_shelf (set_colorMap (delete id (colorMap (shelf w)))) w in
        let w := setMessage (lit "Book removed. Shelf is a little lighter now.") w in
        if decide (editingId (shelf w) = Some id) then resetForm w else w
  end.

(** [onMounted(initializeBooks)] *)
Definition initializeBooks (w : World) : World := fetchBooks false true true TopLevel w.

(** The refresh button:
    [fetchBooks({ triggerBannerOnFailure: true, allowImmediateFailure: false })] *)
Definition refreshList (w : World) : World := fetchBooks false true false TopLevel w.

(** ** The event loop *)

#[global] Instance Item_eq_dec : EqDecision Item.
Proof. solve_decision. Defined.

(** What can happen to the component besides a timer: its life-cycle hooks,
    the handlers bound in the template, and the answers of its requests. *)
Inductive Action :=
| Mount
| Unmount
| ClickRefresh
| SubmitForm
| ClickCancelEdit
| ClickEdit (book : Item)
| ClickDelete (id : Z)
| TypeTitle (text : ustring)
| BooksAnswer (call : nat) (o : Outcome (list Item))
| SaveAnswer (call : nat) (o : Outcome Item)
| RemoveAnswer (call : nat) (o : Outcome unit).

Inductive Event :=
| Fire (h : nat)            (* the timer with handle [h] fires, at its due time *)
| At (t : Z) (a : Action).  (* [a] happens at time [t] *)

(** The controls of the template are rendered while the component is mounted
    and are disabled while [loading]. *)
Definition usable (w : World) : bool :=
  match lifecycle w with
  | Mounted => negb (loading (shelf w))
  | _ => false
  end.

Definition act (a : Action) (w : World) : option World :=
  match a with
  | Mount =>
      match lifecycle w with
      | Created => Some (initializeBooks (set_lifecycle Mounted w))
      | _ => None
      end
  | Unmount =>
      match lifecycle w with
      | Mounted => Some (clearBannerTimers (set_lifecycle Unmounted w))
      | _ => None
      end
  | ClickRefresh => if usable w then Some (refreshList w) else None
  | SubmitForm => if usable w then Some (saveBook w) else None
  | ClickCancelEdit =>
      if usable w && is_editing (editingId (shelf w)) then Some (resetForm w) else None
  | ClickEdit book =>
      if usable w && bool_decide (book ∈ books (shelf w)) then Some (startEdit book w)
      else None
  | ClickDelete id =>
      if usable w && bool_decide (id ∈ map item_id (books (shelf w)))
      then Some (removeBook id w) else None
  | TypeTitle text =>
      if usable w then Some (upd_shelf (set_formName text) w) else None
  | BooksAnswer call o =>
      match take_request call (pending w) with
      | Some (ReqBooks c, rest) => Some (fetchBooks_resume c o (set_pending rest w))
      | _ => None
      end
  | SaveAnswer call o =>
      match take_request call (pending w) with
      | Some (ReqSave isEditing _ _, rest) =>
          Some (saveBook_resume isEditing o (set_pending rest w))
      | _ => None
      end
  | RemoveAnswer call o =>
      match take_request call (pending w) with
      | Some (ReqRemove id, rest) => Some (removeBook_resume id o (set_pending rest w))
      | _ => None
      end
  end.

(** No armed timer is due before [t]. *)
Definition none_due_before (t : Z) (l : list Timer) : bool :=
  forallb (fun x => t <=? t_due x) l.

(** An interval that fired is due again one period later. *)
Definition rearm (h : nat) (period : Z) (l : list Timer) : list Timer :=
  map (fun x => if Nat.eqb (t_handle x) h
                then {| t_handle := t_handle x; t_due := t_due x + period;
                        t_every := t_every x; t_run := t_run x |}
                else x) l.

(** The timer the event loop runs next: the one due first, and among timers
    due at the same time the one armed first. *)
Fixpoint earliest (l : list Timer) : option Timer :=
  match l with
  | [] => None
  | x :: r =>
      match earliest r with
      | Some y => if t_due y <? t_due x then Some y else Some x
      | None => Some x
      end
  end.

(** One job of the event loop.  The clock never passes an armed timer: the
    timer that fires is the earliest one, and anything else happens no later
    than the earliest timer.  [None]: the event cannot happen in this state. *)
Definition step (w : World) (e : Event) : option World :=
  match e with
  | At t a =>
      if (now w <=? t) && none_due_before t (timers w) then act a (set_now t w)
      else None
  | Fire h =>
      match earliest (timers w) with
      | Some x =>
          if Nat.eqb (t_handle x) h && (now w <=? t_due x) then
            let w := set_now (t_due x) w in
            let w := set_timers (match t_every x with
                                 | Some p => rearm h p (timers w)
                                 | None => drop_timer h (timers w)
                                 end) w in
            Some (run_callback (t_run x) w)
          else None
      | None => None
      end
  end.

Fixpoint run (w : World) (evs : list Event) : option World :=
  match evs with
  | [] => Some w
  | e :: rest =>
      match step w e with
      | Some w' => run w' rest
      | None => None
      end
  end.

(** The component as [setup] leaves it, at time 0. *)
Definition init : World :=
  {| shelf := {| books := []; colorMap := ∅; formName := [];
                 editingId := None;
                 statusMessage := lit "Use this shelf to exercise the API while dreaming about books to read next.";
                 loading := false |};
     banner := {| bannerVisible := false; bannerMessage := [];
                  bannerCountdown := None; bannerPhase := Idle;
                  bannerFailureMessage := lit "Failed to fetch" |};
     handles := {| bannerDelayTimer := None; countdownTimer := None;
                   graceTimer := None; finalTimer := None;
                   bannerFetchInFlight := false |};
     secondsLeft := ∅;
     now := 0;
     timers := [];
     nextHandle := 1;
     pending := [];
     nextCall := 0;
     lifecycle := Created |}.

Definition reachable (w : World) : Prop := exists evs, run init evs = Some w.

(** ** Vocabulary of the statements *)

(** The DELETE request failed: it was rejected, or its status is neither in
    200..299 nor 204. *)
Definition delete_failed (o : Outcome unit) : Prop :=
  match o with
  | Rejected _ => True
  | Responded status _ => ~ (200 <= status <= 299) /\ status <> 204
  end.

(** The status text shown for a failed DELETE. *)
Definition delete_failure_message (o : Outcome unit) : ustring :=
  match o with
  | Rejected m => m
  | Responded _ _ => lit "Could not remove the book. Is the API running?"
  end.

(** The [fetchBooks] call made by [initializeBooks] (defaults:
    [allowImmediateFailure = true]) and the one made by the refresh button
    ([allowImmediateFailure: false]); the local [bannerKickoffPending] is
    whatever the kickoff timeout has left it. *)
Definition initial_call (kickoffPending : bool) : FetchCall :=
  {| fc_silent := false; fc_triggerBannerOnFailure := true;
     fc_allowImmediateFailure := true;
     fc_bannerKickoffPending := kickoffPending; fc_caller := TopLevel |}.

Definition refresh_call (kickoffPending : bool) : FetchCall :=
  {| fc_silent := false; fc_triggerBannerOnFailure := true;
     fc_allowImmediateFailure := false;
     fc_bannerKickoffPending := kickoffPending; fc_caller := TopLevel |}.

(** The call made by [tryFetchDuringBanner]. *)
Definition retry_call (grace : option nat) : FetchCall :=
  {| fc_silent := true; fc_triggerBannerOnFailure := false;
     fc_allowImmediateFailure := true;
     fc_bannerKickoffPending := false; fc_caller := FromRetry grace |}.

(** The answer makes [fetchBooks] enter its [catch]. *)
Definition fetch_failed (o : Outcome (list Item)) : Prop :=
  match settle_books o with inl _ => True | inr _ => False end.

(** [error.message] in the [catch] of [fetchBooks]. *)
Definition error_message (o : Outcome (list Item)) : ustring :=
  match settle_books o with inl (_, m) => m | inr _ => [] end.

(** The hard failure the shortcut looks for: no response object, or the
    literal message of a rejected [fetch]. *)
Definition hard_failure (o : Outcome (list Item)) : Prop :=
  match settle_books o with
  | inl (has_response, m) => has_response = false \/ m = lit "Failed to fetch"
  | inr _ => False
  end.

(** The banner is not showing: hidden, idle, nothing displayed. *)
Definition hidden (w : World) : Prop :=
  bannerVisible (banner w) = false
  /\ bannerPhase (banner w) = Idle
  /\ bannerCountdown (banner w) = None
  /\ bannerMessage (banner w) = [].

(** The three handles that [clearBannerTimers] looks at are [null]. *)
Definition handles_cleared (w : World) : Prop :=
  countdownTimer (handles w) = None
  /\ graceTimer (handles w) = None
  /\ finalTimer (handles w) = None.

(** The timer is a one-shot [hideBanner] due at [due]. *)
Definition final_timer (h : nat) (due : Z) : Timer :=
  {| t_handle := h; t_due := due; t_every := None; t_run := FinalHide |}.

Definition countdown_timer (h : nat) (due : Z) : Timer :=
  {| t_handle := h; t_due := due; t_every := Some 1000; t_run := CountdownTick |}.

Definition grace_timer (h : nat) (due : Z) : Timer :=
  {| t_handle := h; t_due := due; t_every := Some 1000; t_run := GraceTick h |}.

(** The banner as [startServerWakeBanner] shows it on its two paths. *)
Definition countdown_banner (failureMessage : ustring) : BannerState :=
  {| bannerVisible := true; bannerMessage := lit "Starting server, it usually takes";
     bannerCountdown := Some 25; bannerPhase := Countdown;
     bannerFailureMessage := failureMessage |}.

Definition failed_banner (failureMessage : ustring) : BannerState :=
  {| bannerVisible := true; bannerMessage := failureMessage;
     bannerCountdown := None; bannerPhase := Failed;
     bannerFailureMessage := failureMessage |}.

(** A suspended silent [fetchBooks] call: a retry of the banner. *)
Definition is_retry (p : nat * Request) : bool :=
  match snd p with
  | ReqBooks c => fc_silent c
  | _ => false
  end.

Fixpoint count_retries (l : list (nat * Request)) : nat :=
  match l with
  | [] => O
  | p :: r => ((if is_retry p then 1 else 0) + count_retries r)%nat
  end.

(** The number of silent retries in flight. *)
Definition retries_in_flight (w : World) : nat := count_retries (pending w).

(** A silent call is awaited by [tryFetchDuringBanner] and any other call by
    nothing that continues. *)
Definition call_wf (p : nat * Request) : Prop :=
  match snd p with
  | ReqBooks c =>
      if fc_silent c then exists g, fc_caller c = FromRetry g
      else fc_caller c = TopLevel
  | _ => True
  end.

(** The guard flag is set exactly while one retry is in flight. *)
Definition retry_guard (w : World) : Prop :=
  Forall call_wf (pending w)
  /\ retries_in_flight w = (if bannerFetchInFlight (handles w) then 1 else 0)%nat.

(** How a piece of the component's code may change the requests in flight:
    not at all, or by issuing one retry while none was in flight. *)
Inductive calls_change (w w' : World) : Prop :=
| calls_kept :
    pending w' = pending w ->
    bannerFetchInFlight (handles w') = bannerFetchInFlight (handles w) ->
    nextCall w' = nextCall w ->
    calls_change w w'
| calls_retry (g : option nat) :
    bannerFetchInFlight (handles w) = false ->
    bannerFetchInFlight (handles w') = true ->
    pending w' = pending w ++ [(nextCall w, ReqBooks (retry_call g))] ->
    nextCall w' = S (nextCall w) ->
    calls_change w w'.

(** *** A banner run in which no fetch succeeds *)

(** Only timers fire and answers to [fetchBooks] arrive, all of them failures. *)
Definition event_fails (e : Event) : Prop :=
  match e with
  | Fire _ => True
  | At _ (BooksAnswer _ o) => fetch_failed o
  | At _ _ => False
  end.

(** The ticks of the banner: firings of an interval. *)
Definition is_tick (w : World) (e : Event) : bool :=
  match e with
  | Fire _ =>
      match earliest (timers w) with
      | Some x => match t_every x with Some _ => true | None => false end
      | None => false
      end
  | At _ _ => false
  end.

Fixpoint run_ticks (w : World) (evs : list Event) : nat :=
  match evs with
  | [] => O
  | e :: rest =>
      match step w e with
      | Some w' => ((if is_tick w e then 1 else 0) + run_ticks w' rest)%nat
      | None => O
      end
  end.

(** The requests in flight during a banner run: the calls that are not silent
    are awaited by nobody; there is one silent call if the guard flag is set
    and none otherwise, and its awaiter satisfies [G]. *)
Definition run_calls (G : option nat -> Prop) (w : World) : Prop :=
  Forall (fun p : nat * Request =>
            match snd p with
            | ReqBooks c =>
                if fc_silent c then exists g, fc_caller c = FromRetry g /\ G g
                else fc_caller c = TopLevel
            | _ => True
            end) (pending w)
  /\ count_retries (pending w)
     = (if bannerFetchInFlight (handles w) then 1 else 0)%nat.

(** What the banner shows. *)
Definition showing (p : Phase) (cd : option Z) (w : World) : Prop :=
  bannerVisible (banner w) = true
  /\ bannerPhase (banner w) = p
  /\ bannerCountdown (banner w) = cd.

(** The timer handles held by the component and the timers armed. *)
Definition armed (cd gr fn : option nat) (l : list Timer) (w : World) : Prop :=
  bannerDelayTimer (handles w) = None
  /\ countdownTimer (handles w) = cd
  /\ graceTimer (handles w) = gr
  /\ finalTimer (handles w) = fn
  /\ timers w = l.

(** The banner has shown the failure since [tf]: the failure message is
    displayed, and the one-shot that hides it is due at [tf + 3000].  A second
    one-shot, armed later, may be pending as well (a retry that was in flight
    when the grace period ran out re-enters the failed phase on its failure). *)
Definition failed_since (t0 tf : Z) (w : World) : Prop :=
  showing Failed None w
  /\ bannerMessage (banner w) = bannerFailureMessage (banner w)
  /\ t0 + 35000 <= tf <= t0 + 36000
  /\ tf <= now w <= tf + 3000
  /\ ((exists h, armed None None (Some h) [final_timer h (tf + 3000)] w
                 /\ run_calls (fun _ => True) w)
      \/ (exists h1 h2 d2,
             tf + 3000 <= d2
             /\ armed None None (Some h2)
                  [final_timer h1 (tf + 3000); final_timer h2 d2] w
             /\ bannerFetchInFlight (handles w) = false
             /\ run_calls (fun _ => True) w)).

(** Where a banner started at [t0] stands after [n] ticks. *)
Inductive stage (t0 : Z) : nat -> World -> Prop :=
| stage_countdown (k : nat) (h : nat) (w : World) :
    (k < 25)%nat ->
    showing Countdown (Some (25 - Z.of_nat k)) w ->
    armed (Some h) None None [countdown_timer h (t0 + 1000 * (Z.of_nat k + 1))] w ->
    t0 + 1000 * Z.of_nat k <= now w <= t0 + 1000 * (Z.of_nat k + 1) ->
    run_calls (fun g => g = None) w ->
    stage t0 k w
| stage_grace (j : nat) (g : nat) (w : World) :
    (j < 10)%nat ->
    showing Grace None w ->
    armed None (Some g) None
      [grace_timer g (t0 + 25000 + 1000 * (Z.of_nat j + 1))] w ->
    secondsLeft w !! g = Some (10 - Z.of_nat j) ->
    t0 + 25000 + 1000 * Z.of_nat j <= now w <= t0 + 25000 + 1000 * (Z.of_nat j + 1) ->
    run_calls (fun x => x = None \/ x = Some g) w ->
    stage t0 (25 + j) w
| stage_waiting (g : nat) (w : World) :
    showing Grace None w ->
    armed None (Some g) None [grace_timer g (t0 + 36000)] w ->
    secondsLeft w !! g = Some 0 ->
    t0 + 35000 <= now w <= t0 + 36000 ->
    bannerFetchInFlight (handles w) = true ->
    run_calls (fun x => x = Some g) w ->
    stage t0 35 w
| stage_failed (n : nat) (tf : Z) (w : World) :
    (n = 35 \/ n = 36)%nat ->
    (n = 35%nat \/ tf = t0 + 36000) ->
    failed_since t0 tf w ->
    stage t0 n w
| stage_over (n : nat) (w : World) :
    (35 <= n)%nat ->
    t0 + 38000 <= now w ->
    stage t0 n w.

(** The banner has just been started on the countdown path, at [t0], with
    nothing left over from an earlier banner: the only timer is the countdown
    interval, and the only silent call in flight is the one that
    [startServerWakeBanner] has just made. *)
Definition banner_started (t0 : Z) (w : World) : Prop :=
  now w = t0
  /\ showing Countdown (Some 25) w
  /\ (exists h, armed (Some h) None None [countdown_timer h (t0 + 1000)] w)
  /\ run_calls (fun g => g = None) w
  /\ bannerFetchInFlight (handles w) = true.

Definition only_failures (evs : list Event) : Prop := Forall event_fails evs.

(** *** A retry that succeeds *)

Definition drop_opt (h : option nat) (l : list Timer) : list Timer :=
  match h with
  | Some n => drop_timer n l
  | None => l
  end.

(** The armed timers without those held in the four handle variables. *)
Definition drop_held (hd : Handles) (l : list Timer) : list Timer :=
  drop_opt (bannerDelayTimer hd)
    (drop_opt (finalTimer hd)
       (drop_opt (graceTimer hd)
          (drop_opt (countdownTimer hd) l))).




(** *** Colour assignment *)

(** The elements of a list in the order of their first occurrence. *)
Fixpoint first_seen (l : list Z) : list Z :=
  match l with
  | [] => []
  | x :: r => x :: filter (fun y => y <> x) (first_seen r)
  end.

(** The ids of [items] that have no colour in [m], in first-seen order. *)
Definition new_ids (m : gmap Z Gradient) (items : list Item) : list Z :=
  first_seen (filter (fun id => m !! id = None) (map item_id items)).

(** *** What holds in every state the component can reach *)

(** The timer is one of the two intervals of the banner. *)
Definition is_interval (x : Timer) : bool :=
  match t_run x with
  | CountdownTick | GraceTick _ => true
  | _ => false
  end.

Definition intervals (l : list Timer) : list Timer := List.filter is_interval l.

(** No interval is armed. *)
Definition quiet (l : list Timer) : Prop := Forall (fun x => is_interval x = false) l.

(** An armed interval is the one whose handle the component holds, in the
    variable of its kind, and the variable of the other kind is [null]. *)
Definition held (hd : Handles) (x : Timer) : Prop :=
  match t_run x with
  | CountdownTick => countdownTimer hd = Some (t_handle x) /\ graceTimer hd = None
  | GraceTick _ => graceTimer hd = Some (t_handle x) /\ countdownTimer hd = None
  | _ => True
  end.

Definition countdown_in_range (b : BannerState) : Prop :=
  match bannerCountdown b with
  | Some k => 1 <= k <= 25
  | None => True
  end.

Definition banner_inv (w : World) : Prop :=
  Forall (held (handles w)) (timers w)
  /\ (List.length (intervals (timers w)) <= 1)%nat
  /\ (bannerVisible (banner w) = false -> hidden w /\ handles_cleared w)
  /\ countdown_in_range (banner w).

(** *** Loads and the kickoff timeout *)

(** A suspended [fetchBooks] call that is not silent: a load started by
    [initializeBooks] or by the refresh button. *)
Definition is_load (p : nat * Request) : bool :=
  match snd p with
  | ReqBooks c => negb (fc_silent c)
  | _ => false
  end.

(** The number of such loads in flight. *)
Definition loads_in_flight (w : World) : nat := List.length (List.filter is_load (pending w)).

(** Code of the banner: it leaves the shelf, the life cycle, the kickoff
    handle and the clock alone. *)
Definition banner_side (w w' : World) : Prop :=
  shelf w' = shelf w /\ lifecycle w' = lifecycle w
  /\ bannerDelayTimer (handles w') = bannerDelayTimer (handles w).

(** The requests in flight are the same, or one request that is not a load
    has been issued. *)
Definition requests_grow (w w' : World) : Prop :=
  (pending w' = pending w /\ nextCall w' = nextCall w)
  \/ (exists r, is_load (nextCall w, r) = false
        /\ pending w' = pending w ++ [(nextCall w, r)]
        /\ nextCall w' = S (nextCall w)).

Definition load_inv (w : World) : Prop :=
  loads_in_flight w = (if loading (shelf w) then 1 else 0)%nat
  /\ Forall (fun p : nat * Request => (fst p < nextCall w)%nat) (pending w)
  /\ (lifecycle w = Created -> loading (shelf w) = false).

(** The timer is the 1200 ms timeout of a [fetchBooks] call. *)
Definition is_kickoff (x : Timer) : bool :=
  match t_run x with
  | KickoffBanner _ => true
  | _ => false
  end.

Definition kickoffs (l : list Timer) : list Timer := List.filter is_kickoff l.

(** An armed kickoff timeout is a one-shot whose handle is in
    [bannerDelayTimer]; there is at most one, and none unless [loading]. *)
Definition kickoff_inv (w : World) : Prop :=
  Forall (fun x => bannerDelayTimer (handles w) = Some (t_handle x) /\ t_every x = None)
         (kickoffs (timers w))
  /\ (List.length (kickoffs (timers w)) <= 1)%nat
  /\ (loading (shelf w) = false -> kickoffs (timers w) = []).

(** The code arms no kickoff timeout: the ones armed afterwards were armed
    before. *)
Definition arms_no_kickoff (w w' : World) : Prop :=
  (forall P : Timer -> Prop,
     Forall P (kickoffs (timers w)) -> Forall P (kickoffs (timers w')))
  /\ (List.length (kickoffs (timers w')) <= List.length (kickoffs (timers w)))%nat.

(** ** Worlds and runs used as examples *)

(** The form holds white space only: two spaces, TAB, NBSP, U+1680, U+2003
    (EM SPACE), U+2028 (LINE SEPARATOR), U+3000 and U+FEFF. *)
Definition blank_form : World :=
  upd_shelf (set_formName (lit "  " ++ [9; 160; 5760; 8195; 8232; 12288; 65279]%N)) init.

(** The world a run ends in (the starting world if the run is not possible). *)
Definition after (w : World) (evs : list Event) : World := default w (run w evs).

Definition net_error : Outcome (list Item) := Rejected (lit "Failed to fetch").
Definition http_503 : Outcome (list Item) := Responded 503 (inl (lit "Service Unavailable")).
Definition dune : Item := {| item_id := 1; item_name := lit "Dune" |}.
Definition emma : Item := {| item_id := 2; item_name := lit "Emma" |}.
Definition two_books : Outcome (list Item) := Responded 200 (inr [dune; emma]).

(** The component is mounted and torn down half a second later, while the
    initial load is still pending; the kickoff timeout fires at 1200 ms. *)
Definition teardown_run : list Event := [At 0 Mount; At 500 Unmount].

(** The initial load hangs, so the kickoff timeout shows the banner at
    1200 ms (timer 1); calls: 0 is the initial load, 1 the first retry. *)
Definition kickoff_run : list Event := [At 0 Mount; Fire 1%nat].
Definition kicked_off : World := after init kickoff_run.

(** Every fetch fails.  The first retry fails at once, the retry of the first
    tick hangs through the countdown (timer 2) and fails early in the grace
    period, whose ticks (timer 3) issue retries that fail within the second,
    except the one issued by the 35th tick, which is slower than a second. *)
Definition slow_last_retry : list Event :=
  [At 1300 (BooksAnswer 1 net_error)]
  ++ repeat (Fire 2%nat) 25
  ++ [At 26300 (BooksAnswer 2 net_error); Fire 3%nat;
      At 27300 (BooksAnswer 3 net_error)]
  ++ repeat (Fire 3%nat) 8
  ++ [At 35300 (BooksAnswer 4 net_error); Fire 3%nat].

(** The initial load hangs for 40 s and then answers 503; a retry issued by
    the first grace tick (call 3) hangs until after a second banner has been
    started by that 503. *)
Definition stale_retry_run : list Event :=
  [At 0 Mount; Fire 1%nat; At 1300 (BooksAnswer 1 net_error)]
  ++ repeat (Fire 2%nat) 25
  ++ [At 26300 (BooksAnswer 2 net_error)]
  ++ repeat (Fire 3%nat) 10
  ++ [Fire 4%nat; At 40000 (BooksAnswer 0 http_503);
      At 40500 (BooksAnswer 3 net_error)].

(** The first retry takes 2.5 s to fail, so two ticks pass without a retry;
    the third tick issues the second retry, which takes 2.1 s to succeed. *)
Definition slow_first_retry : list Event :=
  [At 0 Mount; Fire 1%nat; Fire 2%nat; Fire 2%nat;
   At 3700 (BooksAnswer 1 net_error); Fire 2%nat; Fire 2%nat; Fire 2%nat].


(** The list is loaded, then reloaded empty (the server lost its store), and
    a book is added, for which the server reuses id 1. *)
Definition reused_id_run : list Event :=
  [At 0 Mount; At 100 (BooksAnswer 0 two_books);
   At 5000 ClickRefresh; At 5100 (BooksAnswer 1 (Responded 200 (inr [])));
   At 6000 (TypeTitle (lit "Persuasion")); At 6100 SubmitForm].
Definition reused_id_answer : Event :=
  At 6200 (SaveAnswer 2 (Responded 201 (inr {| item_id := 1; item_name := lit "Persuasion" |}))).

(** A loaded shelf on which the delete button of a book is pressed. *)
Definition delete_run : list Event :=
  [At 0 Mount; At 100 (BooksAnswer 0 two_books); At 900 (ClickDelete 1)].

(** The initial load hangs, the banner is kicked off, and its first retry
    succeeds at 2000 ms. *)
Definition shown_then_hidden : list Event :=
  kickoff_run ++ [At 2000 (BooksAnswer 1 two_books)].

(** The banner is counting down when the component is torn down. *)
Definition teardown_in_countdown : list Event := kickoff_run ++ [Fire 2%nat].

(** The list is loaded and the first book is being edited, with a new title
    typed in. *)
Definition edit_run : list Event :=
  [At 0 Mount; At 100 (BooksAnswer 0 two_books); At 900 (ClickEdit dune);
   At 1500 (TypeTitle (lit "Dune Messiah"))].

(** The title typed has white space around it and inside it. *)
Definition padded_form : World :=
  upd_shelf (set_formName ([12288; 32]%N ++ lit "War and Peace" ++ [9; 8232]%N)) init.

(** A shelf of two books with their colours. *)
Definition loaded_shelf : World := after init [At 0 Mount; At 100 (BooksAnswer 0 two_books)].

(** * Properties *)

(** ** Blank titles *)

Lemma trimStart_blank (s : ustring) :
  whitespace_only s = true -> trimStart s = [].
Proof.
  induction s as [|c r IH]; simpl; [done|].
  destruct (is_space c); simpl; [exact IH | discriminate].
Qed.

Lemma trimEnd_empty (s : ustring) :
  trimEnd s = [] -> whitespace_only s = true.
Proof.
  induction s as [|c r IH]; simpl; [done|].
  destruct (trimEnd r); [|discriminate].
  destruct (is_space c); [intros _; simpl; auto | discriminate].
Qed.

Lemma trimStart_whitespace_only (s : ustring) :
  whitespace_only (trimStart s) = true -> whitespace_only s = true.
Proof.
  induction s as [|c r IH]; simpl; [done|].
  destruct (is_space c) eqn:E; simpl; [exact IH|].
  rewrite E. discriminate.
Qed.

(** [trim] returns the empty string exactly on the empty and the
    whitespace-only strings. *)
Lemma trim_blank_iff (s : ustring) :
  trim s = [] <-> whitespace_only s = true.
Proof.
  unfold trim. split.
  - intros H. apply trimStart_whitespace_only, trimEnd_empty, H.
  - intros H. rewrite (trimStart_blank s H). reflexivity.
Qed.

Lemma ustring_eqb_eq (a b : ustring) : ustring_eqb a b = true <-> a = b.
Proof.
  revert b. induction a as [|x a IH]; intros [|y b]; simpl; try (split; congruence).
  rewrite andb_true_iff, N.eqb_eq, IH. split; [intros [-> ->]; reflexivity|].
  intros [= -> ->]. split; reflexivity.
Qed.

Lemma ustring_eqb_refl (a : ustring) : ustring_eqb a a = true.
Proof. apply ustring_eqb_eq. reflexivity. Qed.

(** C8. Saving a form whose title is empty or whitespace-only sends no
    request (the table of suspended requests and the call counter are
    unchanged), only replaces the status message by the validation text, and
    leaves the book list, the colour assignments, the editing state, the
    title field, the banner, the handles and the timers as they were.
    [saveBook] is total: nothing is thrown past it. *)
Theorem saveBook_blank_title (w : World) :
  whitespace_only (formName (shelf w)) = true ->
  saveBook w = setMessage (lit "Give the book a title before saving.") w
  /\ pending (saveBook w) = pending w
  /\ nextCall (saveBook w) = nextCall w
  /\ statusMessage (shelf (saveBook w)) = lit "Give the book a title before saving."
  /\ books (shelf (saveBook w)) = books (shelf w)
  /\ colorMap (shelf (saveBook w)) = colorMap (shelf w)
  /\ editingId (shelf (saveBook w)) = editingId (shelf w)
  /\ formName (shelf (saveBook w)) = formName (shelf w)
  /\ loading (shelf (saveBook w)) = loading (shelf w)
  /\ banner (saveBook w) = banner w
  /\ handles (saveBook w) = handles w
  /\ timers (saveBook w) = timers w.
Proof.
  intros H. apply trim_blank_iff in H.
  assert (E : saveBook w = setMessage (lit "Give the book a title before saving.") w).
  { unfold saveBook. rewrite H. reflexivity. }
  rewrite E. repeat split.
Qed.

Lemma saveBook_blank_title_witness :
  whitespace_only (formName (shelf blank_form)) = true
  /\ pending (saveBook blank_form) = pending blank_form.
Proof.
  split; [reflexivity|].
  apply (saveBook_blank_title blank_form). reflexivity.
Defined.

(** ** Removing a book *)

(** C10. When the answer to the DELETE request is a failure (the request
    rejects, or the status is neither 2xx nor 204), the books, the colour
    assignments, the editing state and the title field stay as they were and
    only the status message changes.  Otherwise the book and its colour entry
    are removed; so they are removed only on success. *)
Theorem removeBook_atomic (w w' : World) (t : Z) (call : nat) (o : Outcome unit) :
  step w (At t (RemoveAnswer call o)) = Some w' ->
  exists id rest,
    take_request call (pending w) = Some (ReqRemove id, rest)
    /\ (delete_failed o ->
        books (shelf w') = books (shelf w)
        /\ colorMap (shelf w') = colorMap (shelf w)
        /\ editingId (shelf w') = editingId (shelf w)
        /\ formName (shelf w') = formName (shelf w)
        /\ loading (shelf w') = loading (shelf w)
        /\ banner w' = banner w /\ handles w' = handles w /\ timers w' = timers w
        /\ pending w' = rest
        /\ statusMessage (shelf w') = delete_failure_message o)
    /\ (~ delete_failed o ->
        books (shelf w') = filter (fun book => item_id book <> id) (books (shelf w))
        /\ colorMap (shelf w') = delete id (colorMap (shelf w))
        /\ statusMessage (shelf w') = lit "Book removed. Shelf is a little lighter now.")
    /\ (books (shelf w') <> books (shelf w) \/ colorMap (shelf w') <> colorMap (shelf w) ->
        ~ delete_failed o).
Proof.
  unfold step. destruct (_ && _); [|discriminate].
  unfold act. simpl.
  destruct (take_request call (pending w)) as [[r rest]|] eqn:Ht; [|discriminate].
  destruct r as [c|e tg nm|id]; try discriminate.
  intros [= <-]. exists id, rest. split; [reflexivity|].
  assert (Hfail : delete_failed o ->
    removeBook_resume id o (set_pending rest (set_now t w))
    = setMessage (delete_failure_message o) (set_pending rest (set_now t w))).
  { unfold delete_failed, removeBook_resume, delete_failure_message.
    destruct o as [m|status body]; [reflexivity|].
    intros [Hnok H204].
    assert (ok status = false) as ->.
    { unfold ok. destruct (200 <=? status) eqn:E1; [|reflexivity].
      destruct (status <=? 299) eqn:E2; [|reflexivity]. lia. }
    assert ((status =? 204) = false) as -> by lia. reflexivity. }
  assert (Hok : ~ delete_failed o ->
    exists status body, o = Responded status body
      /\ (negb (ok status) && negb (status =? 204)) = false).
  { unfold delete_failed. destruct o as [m|status body]; [intros H; destruct H; exact I|].
    intros H. exists status, body. split; [reflexivity|].
    destruct (ok status) eqn:E; [reflexivity|]. simpl.
    destruct (status =? 204) eqn:E4; [reflexivity|].
    exfalso. apply H. unfold ok in E. split; lia. }
  split; [|split].
  - intros Hf. rewrite (Hfail Hf). repeat split.
  - intros Hs. destruct (Hok Hs) as (status & body & -> & E).
    unfold removeBook_resume. rewrite E.
    case_decide; repeat split.
  - intros Hch Hf. rewrite (Hfail Hf) in Hch. simpl in Hch. destruct Hch; congruence.
Qed.

(** ** Starting and hiding the banner *)

Lemma hideBanner_hidden (w : World) :
  hidden (hideBanner w) /\ handles_cleared (hideBanner w).
Proof.
  unfold hideBanner, clearBannerTimers, hidden, handles_cleared.
  destruct w as [sh bn [d c g f i] sl nw tm nh pd nc lc]; simpl.
  destruct c, g, f; simpl; repeat split.
Qed.

Lemma startServerWakeBanner_immediate (m : ustring) (w : World) :
  let w' := startServerWakeBanner true m w in
  banner w' = failed_banner m
  /\ countdownTimer (handles w') = countdownTimer (handles w)
  /\ finalTimer (handles w') = Some (nextHandle w)
  /\ timers w' = timers w ++ [final_timer (nextHandle w) (now w + 3000)]
  /\ pending w' = pending w /\ shelf w' = shelf w /\ now w' = now w.
Proof.
  destruct w as [sh bn hd sl nw tm nh pd nc lc]. simpl. repeat split.
Qed.

Lemma startServerWakeBanner_countdown (m : ustring) (w : World) :
  let w' := startServerWakeBanner false m w in
  banner w' = countdown_banner m
  /\ countdownTimer (handles w') = Some (nextHandle w)
  /\ finalTimer (handles w') = finalTimer (handles w)
  /\ timers w' = timers w ++ [countdown_timer (nextHandle w) (now w + 1000)]
  /\ shelf w' = shelf w /\ now w' = now w.
Proof.
  destruct w as [sh bn [d c g f i] sl nw tm nh pd nc lc].
  unfold startServerWakeBanner, tryFetchDuringBanner. simpl.
  destruct i; simpl; repeat split.
Qed.


(** What the [catch] and [finally] of a top-level, banner-triggering
    [fetchBooks] do, by whether the banner shows and whether the shortcut is
    taken. *)
Lemma fetchBooks_resume_failure (allow k : bool) (o : Outcome (list Item))
    (has_response : bool) (m : ustring) (w : World) :
  settle_books o = inl (has_response, m) ->
  let c := {| fc_silent := false; fc_triggerBannerOnFailure := true;
              fc_allowImmediateFailure := allow;
              fc_bannerKickoffPending := k; fc_caller := TopLevel |} in
  let w1 := clear_if_set (bannerDelayTimer (handles w)) w in
  let fm := if k then m else bannerFailureMessage (banner w) in
  fetchBooks_resume c o w =
    if bannerVisible (banner w) then
      upd_shelf (set_loading false)
        (upd_handles (set_bannerDelayTimer None) (setMessage m w1))
    else
      upd_shelf (set_loading false)
        (startServerWakeBanner
           (allow && (negb has_response || ustring_eqb m (lit "Failed to fetch"))) fm
           (upd_handles (set_bannerDelayTimer None) (setMessage m w1))).
Proof.
  intros E. unfold fetchBooks_resume. rewrite E.
  destruct w as [sh [v bm bc bp bf] [d c g f i] sl nw tm nh pd nc lc].
  generalize (ustring_eqb m (lit "Failed to fetch")). intros b.
  destruct v, d, k, allow, has_response, b, i; reflexivity.
Qed.

(** ** The immediate-failure shortcut *)

(** C4, as the code has it.  When the answer to the initial load is a hard
    failure (no response object, or the message [Failed to fetch]) and the
    banner is not showing yet, the banner goes straight to the failed phase
    with the failure message, no countdown is displayed and no countdown
    interval is armed; the only timer armed is a one-shot [hideBanner] due
    3000 ms later, and that callback leaves the banner hidden and idle.
    A failing answer that is not a hard failure (an HTTP error status)
    starts the countdown instead. *)
Theorem immediate_failure_shortcut (w : World) (k : bool) (o : Outcome (list Item)) :
  bannerVisible (banner w) = false ->
  fetch_failed o ->
  let w' := fetchBooks_resume (initial_call k) o w in
  let fm := if k then error_message o else bannerFailureMessage (banner w) in
  (hard_failure o ->
     banner w' = failed_banner fm
     /\ countdownTimer (handles w') = countdownTimer (handles w)
     /\ finalTimer (handles w') = Some (nextHandle w)
     /\ timers w' = timers (clear_if_set (bannerDelayTimer (handles w)) w)
                    ++ [final_timer (nextHandle w) (now w + 3000)]
     /\ forall w2, hidden (run_callback FinalHide w2))
  /\ (~ hard_failure o ->
     banner w' = countdown_banner fm
     /\ countdownTimer (handles w') = Some (nextHandle w)
     /\ timers w' = timers (clear_if_set (bannerDelayTimer (handles w)) w)
                    ++ [countdown_timer (nextHandle w) (now w + 1000)]).
Proof.
  intros Hv Hf. unfold fetch_failed, hard_failure, error_message in *.
  destruct (settle_books o) as [[has m]|data] eqn:E; [|destruct Hf].
  cbv zeta. unfold initial_call. rewrite (fetchBooks_resume_failure true k o has m w E).
  rewrite Hv. cbv zeta.
  set (w1 := upd_handles (set_bannerDelayTimer None)
               (setMessage m (clear_if_set (bannerDelayTimer (handles w)) w))).
  assert (Hw1 : banner w1 = banner w /\ now w1 = now w /\ nextHandle w1 = nextHandle w
                /\ countdownTimer (handles w1) = countdownTimer (handles w)
                /\ timers w1 = timers (clear_if_set (bannerDelayTimer (handles w)) w)).
  { subst w1. destruct (bannerDelayTimer (handles w)); repeat split. }
  destruct Hw1 as (Hb & Hn & Hh & Hc & Ht). clearbody w1.
  rewrite <- Hb, <- Hc, <- Ht, <- Hn, <- Hh.
  generalize (if k then m else bannerFailureMessage (banner w1)). intros fm.
  split.
  - intros Hhard.
    assert ((true && (negb has || ustring_eqb m (lit "Failed to fetch"))) = true) as ->.
    { destruct Hhard as [-> | ->]; [reflexivity|].
      rewrite ustring_eqb_refl. destruct has; reflexivity. }
    destruct (startServerWakeBanner_immediate fm w1) as (B & C & F & T & _).
    revert B C F T. generalize (startServerWakeBanner true fm w1). intros w2 B C F T.
    split; [exact B|]. split; [exact C|]. split; [exact F|]. split; [exact T|].
    intros w3. apply hideBanner_hidden.
  - intros Hsoft.
    assert ((true && (negb has || ustring_eqb m (lit "Failed to fetch"))) = false) as ->.
    { destruct has; simpl.
      - destruct (ustring_eqb m (lit "Failed to fetch")) eqn:Em; [|reflexivity].
        exfalso. apply Hsoft. right. apply ustring_eqb_eq, Em.
      - exfalso. apply Hsoft. left. reflexivity. }
    destruct (startServerWakeBanner_countdown fm w1) as (B & C & _ & T & _).
    revert B C T. generalize (startServerWakeBanner false fm w1). intros w2 B C T.
    split; [exact B|]. split; [exact C|]. exact T.
Qed.

(** ** The refresh button *)

(** C7. The refresh button calls [fetchBooks] with
    [allowImmediateFailure = false].  Whatever the answer, that call never
    takes the immediate-failure shortcut: on a failure (a rejected [fetch]
    included) with the banner not showing it starts the countdown at 25 with
    a 1000 ms interval and arms no hide timer; with the banner already
    showing it leaves the banner as it is; on success it hides the banner.
    The kickoff timeout of the call, when it shows the banner, starts the
    countdown as well. *)
Theorem refresh_takes_countdown_path (w : World) (t : Z) (w1 : World) :
  step w (At t ClickRefresh) = Some w1 ->
  pending w1 = pending w ++ [(nextCall w, ReqBooks (refresh_call true))]
  /\ (forall (k : bool) (o : Outcome (list Item)) (v : World),
        fetch_failed o ->
        let v' := fetchBooks_resume (refresh_call k) o v in
        let fm := if k then error_message o else bannerFailureMessage (banner v) in
        (bannerVisible (banner v) = false ->
           banner v' = countdown_banner fm
           /\ countdownTimer (handles v') = Some (nextHandle v)
           /\ finalTimer (handles v') = finalTimer (handles v)
           /\ timers v' = timers (clear_if_set (bannerDelayTimer (handles v)) v)
                          ++ [countdown_timer (nextHandle v) (now v + 1000)])
        /\ (bannerVisible (banner v) = true ->
           banner v' = banner v
           /\ finalTimer (handles v') = finalTimer (handles v)))
  /\ (forall (k : bool) (o : Outcome (list Item)) (v : World),
        ~ fetch_failed o -> hidden (fetchBooks_resume (refresh_call k) o v))
  /\ (forall (call : nat) (v : World),
        banner (kickoff_banner call v)
        = if negb (bannerVisible (banner v)) && loading (shelf v)
          then countdown_banner (lit "Unable to load books") else banner v).
Proof.
  intros Hstep. split; [|split; [|split]].
  - unfold step in Hstep. destruct (_ && _); [|discriminate].
    unfold act in Hstep. destruct (usable _); [|discriminate].
    injection Hstep as <-. reflexivity.
  - intros k o v Hf. unfold fetch_failed, error_message in *.
    destruct (settle_books o) as [[has m]|data] eqn:E; [|destruct Hf].
    cbv zeta. unfold refresh_call.
    rewrite (fetchBooks_resume_failure false k o has m v E). cbn [andb].
    set (v1 := upd_handles (set_bannerDelayTimer None)
                 (setMessage m (clear_if_set (bannerDelayTimer (handles v)) v))).
    assert (Hv1 : banner v1 = banner v /\ now v1 = now v /\ nextHandle v1 = nextHandle v
                  /\ finalTimer (handles v1) = finalTimer (handles v)
                  /\ timers v1 = timers (clear_if_set (bannerDelayTimer (handles v)) v)).
    { subst v1. destruct (bannerDelayTimer (handles v)); repeat split. }
    destruct Hv1 as (Hb & Hn & Hh & Hc & Ht). clearbody v1.
    rewrite <- Hb, <- Hc, <- Ht, <- Hn, <- Hh.
    generalize (if k then m else bannerFailureMessage (banner v1)). intros fm.
    split.
    + intros ->.
      destruct (startServerWakeBanner_countdown fm v1) as (B & C & F & T & _).
      revert B C F T. generalize (startServerWakeBanner false fm v1). intros v2 B C F T.
      split; [exact B|]. split; [exact C|]. split; [exact F|]. exact T.
    + intros ->. split; reflexivity.
  - intros k o v Hs. unfold fetch_failed in Hs. unfold fetchBooks_resume.
    destruct (settle_books o) as [[has m]|data]; [destruct Hs; exact I|].
    unfold refresh_call.
    cbn [fc_silent fc_triggerBannerOnFailure fc_caller].
    generalize (setMessage (lit "Reading list refreshed. Ready for more stories!")
                  (assignColors data (upd_shelf (set_books data) v))).
    intros v1. destruct (hideBanner_hidden v1) as [H _]. revert H.
    generalize (hideBanner v1). intros v2 H.
    destruct (bannerDelayTimer (handles v2)); exact H.
  - intros call v.
    destruct v as [sh [vis bm bc bp bf] [d c g f i] sl nw tm nh pd nc lc].
    destruct sh as [bk cm fn ed sm ld].
    destruct vis, ld, i; reflexivity.
Qed.

(** ** One retry at a time *)

Lemma count_retries_app (l1 l2 : list (nat * Request)) :
  count_retries (l1 ++ l2) = (count_retries l1 + count_retries l2)%nat.
Proof. induction l1 as [|p r IH]; simpl; [reflexivity|]. rewrite IH. lia. Qed.

Lemma count_retries_clear_kickoff (call : nat) (l : list (nat * Request)) :
  count_retries (clear_kickoff call l) = count_retries l.
Proof.
  induction l as [|[i r] l IH]; simpl; [reflexivity|]. rewrite IH. f_equal.
  destruct r as [c| |]; try reflexivity.
  destruct (Nat.eqb i call); reflexivity.
Qed.

Lemma call_wf_clear_kickoff (call : nat) (l : list (nat * Request)) :
  Forall call_wf l -> Forall call_wf (clear_kickoff call l).
Proof.
  induction 1 as [|[i r] l H _ IH]; simpl; constructor; [|exact IH].
  destruct r as [c| |]; try exact H.
  destruct (Nat.eqb i call); exact H.
Qed.

Lemma take_request_spec (rid : nat) (l rest : list (nat * Request)) (r : Request) :
  take_request rid l = Some (r, rest) ->
  (Forall call_wf l -> call_wf (rid, r) /\ Forall call_wf rest)
  /\ count_retries l = ((if is_retry (rid, r) then 1 else 0) + count_retries rest)%nat.
Proof.
  revert rest. induction l as [|[i q] l IH]; simpl; [discriminate|].
  intros rest. destruct (Nat.eqb i rid) eqn:E.
  - intros [= -> ->]. split; [|reflexivity].
    intros H. inversion H; subst. split; assumption.
  - destruct (take_request rid l) as [[r' rest']|]; [|discriminate].
    intros [= -> <-]. destruct (IH rest' eq_refl) as [W C]. split.
    + intros H. inversion H; subst. destruct (W H3) as [? ?].
      split; [assumption|]. constructor; assumption.
    + simpl. rewrite C. unfold is_retry. simpl. lia.
Qed.

Lemma calls_change_guard (w w' : World) :
  calls_change w w' -> retry_guard w -> retry_guard w'.
Proof.
  unfold retry_guard, retries_in_flight.
  intros [Hp Hi Hn | g Hi Hi' Hp Hn] [W C].
  - rewrite Hp, Hi. split; assumption.
  - rewrite Hp, Hi'. rewrite Hi in C. split.
    + apply Forall_app. split; [assumption|]. repeat constructor.
      unfold call_wf. simpl. eexists. reflexivity.
    + rewrite count_retries_app, C. reflexivity.
Qed.

Lemma calls_change_trans_kept (w w1 w2 : World) :
  calls_change w w1 ->
  pending w2 = pending w1 ->
  bannerFetchInFlight (handles w2) = bannerFetchInFlight (handles w1) ->
  nextCall w2 = nextCall w1 ->
  calls_change w w2.
Proof.
  intros [Hp Hi Hn | g Hi Hi' Hp Hn] P I N.
  - apply calls_kept; congruence.
  - apply (calls_retry _ _ g); congruence.
Qed.

Lemma grace_after_retry_calls (g : nat) (w : World) :
  pending (grace_after_retry g w) = pending w
  /\ bannerFetchInFlight (handles (grace_after_retry g w)) = bannerFetchInFlight (handles w)
  /\ nextCall (grace_after_retry g w) = nextCall w.
Proof.
  unfold grace_after_retry. destruct (_ && _); [|repeat split].
  destruct w as [sh bn [d c gt f i] sl nw tm nh pd nc lc].
  destruct gt; repeat split.
Qed.

Lemma after_retry_calls (g : option nat) (w : World) :
  pending (after_retry g w) = pending w
  /\ bannerFetchInFlight (handles (after_retry g w)) = bannerFetchInFlight (handles w)
  /\ nextCall (after_retry g w) = nextCall w.
Proof. destruct g; [apply grace_after_retry_calls | repeat split]. Qed.

Lemma hideBanner_calls (w : World) :
  pending (hideBanner w) = pending w
  /\ bannerFetchInFlight (handles (hideBanner w)) = bannerFetchInFlight (handles w)
  /\ nextCall (hideBanner w) = nextCall w.
Proof.
  destruct w as [sh bn [d c g f i] sl nw tm nh pd nc lc].
  destruct c, g, f; repeat split.
Qed.

Lemma clearBannerTimers_calls (w : World) :
  pending (clearBannerTimers w) = pending w
  /\ bannerFetchInFlight (handles (clearBannerTimers w)) = bannerFetchInFlight (handles w)
  /\ nextCall (clearBannerTimers w) = nextCall w.
Proof.
  destruct w as [sh bn [d c g f i] sl nw tm nh pd nc lc].
  destruct c, g, f; repeat split.
Qed.

Lemma tryFetchDuringBanner_calls (g : option nat) (w : World) :
  calls_change w (tryFetchDuringBanner g w).
Proof.
  unfold tryFetchDuringBanner.
  destruct (bannerFetchInFlight (handles w)) eqn:E.
  - destruct (after_retry_calls g w) as (P & I & N). apply calls_kept; assumption.
  - apply (calls_retry _ _ g); [exact E| | |];
      destruct w as [sh bn [d c gt f i] sl nw tm nh pd nc lc]; reflexivity.
Qed.

Lemma startServerWakeBanner_calls (imm : bool) (m : ustring) (w : World) :
  calls_change w (startServerWakeBanner imm m w).
Proof.
  destruct imm.
  - apply calls_kept; destruct w as [sh bn [d c g f i] sl nw tm nh pd nc lc]; reflexivity.
  - unfold startServerWakeBanner.
    set (w1 := upd_banner (set_bannerCountdown (Some 25)) _).
    assert (H : calls_change w (tryFetchDuringBanner None w1)).
    { destruct (tryFetchDuringBanner_calls None w1) as [P I N | g I I' P N].
      - apply calls_kept; [rewrite P | rewrite I | rewrite N]; reflexivity.
      - apply (calls_retry _ _ g); [exact I | exact I' | rewrite P | rewrite N];
          reflexivity. }
    revert H. generalize (tryFetchDuringBanner None w1). intros w2 H.
    eapply calls_change_trans_kept; [exact H | | |];
      destruct w2 as [sh bn [d c g f i] sl nw tm nh pd nc lc]; reflexivity.
Qed.

Lemma countdown_tick_calls (w : World) : calls_change w (countdown_tick w).
Proof.
  unfold countdown_tick. destruct (match bannerCountdown (banner w) with
                                    | Some k => 1 <? k | None => false end).
  - set (w1 := upd_banner _ w).
    destruct (tryFetchDuringBanner_calls None w1) as [P I N | g I I' P N].
    + apply calls_kept; [rewrite P | rewrite I | rewrite N]; reflexivity.
    + apply (calls_retry _ _ g); [exact I | exact I' | rewrite P | rewrite N];
        reflexivity.
  - apply calls_kept; destruct w as [sh bn [d c g f i] sl nw tm nh pd nc lc];
      destruct c; reflexivity.
Qed.

Lemma grace_tick_calls (g : nat) (w : World) : calls_change w (grace_tick g w).
Proof.
  unfold grace_tick. set (w1 := set_secondsLeft _ w).
  destruct (tryFetchDuringBanner_calls (Some g) w1) as [P I N | g' I I' P N].
  - apply calls_kept; [rewrite P | rewrite I | rewrite N]; reflexivity.
  - apply (calls_retry _ _ g'); [exact I | exact I' | rewrite P | rewrite N];
      reflexivity.
Qed.

Lemma fetchBooks_resume_top_calls (c : FetchCall) (o : Outcome (list Item)) (w : World) :
  fc_silent c = false -> fc_caller c = TopLevel ->
  calls_change w (fetchBooks_resume c o w).
Proof.
  destruct c as [s tr al k cl]. simpl. intros -> ->.
  unfold fetchBooks_resume. destruct (settle_books o) as [[has m]|data].
  - generalize (ustring_eqb m (lit "Failed to fetch")). intros b.
    destruct w as [sh [v bm bc bp bf] [d c g f i] sl nw tm nh pd nc lc].
    destruct tr, al, k, has, b, v, d, i;
      first [ apply calls_kept; reflexivity
            | apply (calls_retry _ _ None); reflexivity ].
  - destruct w as [sh [v bm bc bp bf] [d c g f i] sl nw tm nh pd nc lc].
    destruct d, c, g, f; apply calls_kept; reflexivity.
Qed.

Lemma fetchBooks_resume_retry_calls (c : FetchCall) (g : option nat)
    (o : Outcome (list Item)) (w : World) :
  fc_silent c = true -> fc_caller c = FromRetry g ->
  bannerFetchInFlight (handles w) = true ->
  pending (fetchBooks_resume c o w) = pending w
  /\ bannerFetchInFlight (handles (fetchBooks_resume c o w)) = false.
Proof.
  destruct c as [s tr al k cl]. simpl. intros -> -> Hi.
  unfold fetchBooks_resume. cbn [fc_silent fc_caller].
  match goal with
  | |- context [after_retry g ?x] =>
      destruct (after_retry_calls g x) as (P & I & _); rewrite P, I; clear P I
  end.
  destruct (settle_books o) as [[has m]|data].
  - generalize (ustring_eqb m (lit "Failed to fetch")). intros b.
    destruct w as [sh [v bm bc bp bf] [d c gt f i] sl nw tm nh pd nc lc].
    simpl in Hi. subst i.
    destruct tr, al, k, has, b, v, d; split; reflexivity.
  - destruct w as [sh [v bm bc bp bf] [d c gt f i] sl nw tm nh pd nc lc].
    destruct d, c, gt, f; split; reflexivity.
Qed.

Lemma kickoff_banner_guard (call : nat) (w : World) :
  retry_guard w -> retry_guard (kickoff_banner call w).
Proof.
  intros G. unfold kickoff_banner.
  set (w1 := if negb (bannerVisible (banner w)) && loading (shelf w)
             then startServerWakeBanner false (lit "Unable to load books") w else w).
  assert (G1 : retry_guard w1).
  { subst w1. destruct (negb (bannerVisible (banner w)) && loading (shelf w)); [|exact G].
    eapply calls_change_guard; [apply startServerWakeBanner_calls | exact G]. }
  clearbody w1. destruct G1 as [W C]. unfold retry_guard, retries_in_flight in *.
  destruct w1 as [sh bn [d c g f i] sl nw tm nh pd nc lc]. simpl in *.
  rewrite count_retries_clear_kickoff. split; [|exact C].
  apply call_wf_clear_kickoff, W.
Qed.

Lemma issue_guard (r : Request) (w : World) :
  is_retry (nextCall w, r) = false -> call_wf (nextCall w, r) ->
  retry_guard w -> retry_guard (issue r w).
Proof.
  unfold retry_guard, retries_in_flight. intros Hr Hw [W C].
  destruct w as [sh bn hd sl nw tm nh pd nc lc]. simpl in *. split.
  - apply Forall_app. split; [exact W|]. repeat constructor. exact Hw.
  - rewrite count_retries_app. simpl. rewrite Hr, <- C. lia.
Qed.

Lemma fetchBooks_top_guard (tr al : bool) (w : World) :
  retry_guard w -> retry_guard (fetchBooks false tr al TopLevel w).
Proof.
  intros G. unfold fetchBooks. cbv zeta.
  match goal with |- retry_guard (issue ?r ?x) => set (w1 := x) end.
  assert (H : retry_guard w1).
  { destruct G as [W C]. unfold retry_guard, retries_in_flight in *.
    subst w1. destruct w as [sh bn [d c g f i] sl nw tm nh pd nc lc].
    destruct tr; exact (conj W C). }
  clearbody w1. apply issue_guard; [reflexivity|reflexivity|exact H].
Qed.

Lemma frame_guard (w w' : World) :
  pending w' = pending w ->
  bannerFetchInFlight (handles w') = bannerFetchInFlight (handles w) ->
  retry_guard w -> retry_guard w'.
Proof.
  unfold retry_guard, retries_in_flight. intros -> ->. exact id.
Qed.

Lemma run_callback_guard (cb : Callback) (w : World) :
  retry_guard w -> retry_guard (run_callback cb w).
Proof.
  intros G. destruct cb as [call| |g|]; simpl.
  - apply kickoff_banner_guard, G.
  - eapply calls_change_guard; [apply countdown_tick_calls | exact G].
  - eapply calls_change_guard; [apply grace_tick_calls | exact G].
  - destruct (hideBanner_calls w) as (P & I & _). exact (frame_guard _ _ P I G).
Qed.

Lemma step_guard (w w' : World) (e : Event) :
  step w e = Some w' -> retry_guard w -> retry_guard w'.
Proof.
  destruct e as [h|t a]; simpl.
  - destruct (earliest (timers w)) as [x|]; [|discriminate].
    destruct (_ && _); [|discriminate]. intros [= <-] G.
    apply run_callback_guard. exact G.
  - destruct (_ && _); [|discriminate].
    assert (G0 : retry_guard w -> retry_guard (set_now t w)) by exact id.
    revert G0. generalize (set_now t w). intros v G0 Ha G. specialize (G0 G).
    clear G w. destruct a; simpl in Ha.
    + destruct (lifecycle v); try discriminate. injection Ha as <-.
      apply fetchBooks_top_guard. exact G0.
    + destruct (lifecycle v); try discriminate. injection Ha as <-.
      destruct (clearBannerTimers_calls (set_lifecycle Unmounted v)) as (P & I & _).
      exact (frame_guard _ _ P I G0).
    + destruct (usable v); [|discriminate]. injection Ha as <-.
      apply fetchBooks_top_guard. exact G0.
    + destruct (usable v); [|discriminate]. injection Ha as <-.
      unfold saveBook. destruct (negb _); [exact G0|].
      apply issue_guard; [reflexivity | exact I | exact G0].
    + destruct (_ && _); [|discriminate]. injection Ha as <-. exact G0.
    + destruct (_ && _); [|discriminate]. injection Ha as <-. exact G0.
    + destruct (_ && _); [|discriminate]. injection Ha as <-.
      unfold removeBook. apply issue_guard; [reflexivity | exact I | exact G0].
    + destruct (usable v); [|discriminate]. injection Ha as <-. exact G0.
    + destruct (take_request call (pending v)) as [[r rest]|] eqn:T; [|discriminate].
      destruct r as [c| |]; try discriminate. injection Ha as <-.
      destruct G0 as [W C]. destruct (take_request_spec _ _ _ _ T) as [TW TC].
      destruct (TW W) as [Wc Wr]. unfold retries_in_flight in C. rewrite TC in C.
      unfold call_wf, is_retry in Wc, C. simpl in Wc, C.
      destruct (fc_silent c) eqn:S.
      * destruct Wc as [g Hg].
        destruct (bannerFetchInFlight (handles v)) eqn:I; [|discriminate].
        destruct (fetchBooks_resume_retry_calls c g o (set_pending rest v) S Hg I)
          as [P I'].
        unfold retry_guard, retries_in_flight. rewrite P, I'. simpl.
        split; [exact Wr | lia].
      * eapply calls_change_guard;
          [apply (fetchBooks_resume_top_calls c o _ S Wc)|].
        split; [exact Wr | exact C].
    + destruct (take_request call (pending v)) as [[r rest]|] eqn:T; [|discriminate].
      destruct r as [|ie tg nm|]; try discriminate. injection Ha as <-.
      destruct G0 as [W C]. destruct (take_request_spec _ _ _ _ T) as [TW TC].
      destruct (TW W) as [_ Wr]. unfold retries_in_flight in C. rewrite TC in C.
      assert (G1 : retry_guard (set_pending rest v)) by (split; [exact Wr | exact C]).
      revert G1. generalize (set_pending rest v). intros v1 G1.
      refine (frame_guard v1 _ _ _ G1);
        unfold saveBook_resume;
        destruct o as [m|st [m|data]]; try reflexivity;
        destruct (ok st); try reflexivity;
        destruct ie; simpl; try reflexivity;
        destruct (findIndex _ _); reflexivity.
    + destruct (take_request call (pending v)) as [[r rest]|] eqn:T; [|discriminate].
      destruct r as [| |id]; try discriminate. injection Ha as <-.
      destruct G0 as [W C]. destruct (take_request_spec _ _ _ _ T) as [TW TC].
      destruct (TW W) as [_ Wr]. unfold retries_in_flight in C. rewrite TC in C.
      assert (G1 : retry_guard (set_pending rest v)) by (split; [exact Wr | exact C]).
      revert G1. generalize (set_pending rest v). intros v1 G1.
      refine (frame_guard v1 _ _ _ G1);
        unfold removeBook_resume;
        destruct o as [m|st b]; try reflexivity;
        destruct (_ && _); try reflexivity;
        simpl; case_decide; reflexivity.
Qed.

Lemma run_guard (evs : list Event) (w w' : World) :
  run w evs = Some w' -> retry_guard w -> retry_guard w'.
Proof.
  revert w. induction evs as [|e evs IH]; simpl; intros w.
  - intros [= <-]. exact id.
  - destruct (step w e) as [w1|] eqn:S; [|discriminate].
    intros R G. apply (IH w1 R). exact (step_guard _ _ _ S G).
Qed.

Lemma init_guard : retry_guard init.
Proof. split; [constructor | reflexivity]. Qed.

Lemma countdown_tick_in_flight (w : World) :
  bannerFetchInFlight (handles w) = true ->
  pending (countdown_tick w) = pending w
  /\ nextCall (countdown_tick w) = nextCall w
  /\ forall k, bannerCountdown (banner w) = Some k -> 1 < k ->
       bannerCountdown (banner (countdown_tick w)) = Some (k - 1).
Proof.
  destruct w as [sh [v bm bc bp bf] [d c g f i] sl nw tm nh pd nc lc]. simpl.
  intros ->. unfold countdown_tick. simpl.
  destruct bc as [k|].
  - destruct (Z.ltb_spec 1 k).
    + repeat split. intros k' [= <-] _. reflexivity.
    + destruct c; repeat split; intros k' [= <-] ?; lia.
  - destruct c; repeat split; discriminate.
Qed.

Lemma grace_after_retry_secondsLeft (g : nat) (w : World) :
  secondsLeft (grace_after_retry g w) = secondsLeft w.
Proof.
  unfold grace_after_retry.
  destruct ((default 0 (secondsLeft w !! g) <=? 0) && bannerVisible (banner w));
    [|reflexivity].
  destruct w as [sh bn [d c gt f i] sl nw tm nh pd nc lc].
  destruct gt; reflexivity.
Qed.

Lemma grace_tick_in_flight (g : nat) (w : World) :
  bannerFetchInFlight (handles w) = true ->
  pending (grace_tick g w) = pending w
  /\ nextCall (grace_tick g w) = nextCall w
  /\ secondsLeft (grace_tick g w) !! g = Some (default 0 (secondsLeft w !! g) - 1).
Proof.
  intros I. unfold grace_tick, tryFetchDuringBanner.
  set (w1 := set_secondsLeft _ w).
  assert (I1 : bannerFetchInFlight (handles w1) = true) by exact I.
  rewrite I1. cbn [after_retry].
  destruct (grace_after_retry_calls g w1) as (P & _ & N).
  rewrite P, N, grace_after_retry_secondsLeft.
  split; [reflexivity|]. split; [reflexivity|].
  subst w1. cbn [secondsLeft set_secondsLeft]. apply lookup_insert_eq.
Qed.

(** C3. In every state the component can reach, at most one silent retry is
    in flight, and one is in flight exactly when the guard flag is set.  A
    tick that fires while the flag is set issues no request: a countdown tick
    with more than one second left only decrements the displayed countdown,
    a grace tick only decrements its [secondsLeft]. *)
Theorem one_retry_in_flight (evs : list Event) (w : World) :
  run init evs = Some w ->
  (retries_in_flight w <= 1)%nat
  /\ (retries_in_flight w = 1%nat <-> bannerFetchInFlight (handles w) = true)
  /\ (bannerFetchInFlight (handles w) = true ->
      forall (h : nat) (w' : World) (x : Timer),
        step w (Fire h) = Some w' ->
        earliest (timers w) = Some x ->
        (t_run x = CountdownTick ->
           pending w' = pending w /\ nextCall w' = nextCall w
           /\ forall k, bannerCountdown (banner w) = Some k -> 1 < k ->
                bannerCountdown (banner w') = Some (k - 1))
        /\ (forall g, t_run x = GraceTick g ->
           pending w' = pending w /\ nextCall w' = nextCall w
           /\ secondsLeft w' !! g = Some (default 0 (secondsLeft w !! g) - 1))).
Proof.
  intros R. destruct (run_guard evs init w R init_guard) as [_ C].
  split; [|split].
  - rewrite C. destruct (bannerFetchInFlight (handles w)); lia.
  - rewrite C. destruct (bannerFetchInFlight (handles w)); split; congruence.
  - intros I h w' x S E. simpl in S. rewrite E in S.
    destruct (Nat.eqb (t_handle x) h && (now w <=? t_due x)); [|discriminate].
    injection S as <-.
    set (v := set_timers _ (set_now (t_due x) w)).
    assert (Hv : bannerFetchInFlight (handles v) = true) by exact I.
    assert (Ev : pending v = pending w /\ nextCall v = nextCall w
                 /\ banner v = banner w /\ secondsLeft v = secondsLeft w)
      by (repeat split).
    destruct Ev as (Ep & En & Eb & Es). clearbody v.
    rewrite <- Ep, <- En, <- Eb, <- Es. split.
    + intros ->. apply countdown_tick_in_flight, Hv.
    + intros g ->. apply grace_tick_in_flight, Hv.
Qed.

(** ** Symbolic execution of the banner's code *)

Lemma tryFetchDuringBanner_skip (g : option nat) (w : World) :
  bannerFetchInFlight (handles w) = true ->
  tryFetchDuringBanner g w = after_retry g w.
Proof. unfold tryFetchDuringBanner. intros ->. reflexivity. Qed.

Lemma tryFetchDuringBanner_issue (g : option nat) (w : World) :
  bannerFetchInFlight (handles w) = false ->
  tryFetchDuringBanner g w
  = issue (ReqBooks (retry_call g)) (upd_handles (set_bannerFetchInFlight true) w).
Proof. unfold tryFetchDuringBanner. intros ->. reflexivity. Qed.

Lemma countdown_tick_decrement (w : World) (c : Z) :
  bannerCountdown (banner w) = Some c -> 1 < c ->
  countdown_tick w
  = tryFetchDuringBanner None (upd_banner (set_bannerCountdown (Some (c - 1))) w).
Proof.
  intros E H. unfold countdown_tick. rewrite E.
  assert ((1 <? c) = true) as -> by lia. reflexivity.
Qed.

Lemma countdown_tick_expire (w : World) (c : Z) (h : nat) :
  bannerCountdown (banner w) = Some c -> c <= 1 ->
  countdownTimer (handles w) = Some h ->
  countdown_tick w
  = startGracePeriod
      (upd_banner (set_bannerCountdown None)
         (upd_handles (set_countdownTimer None) (clearTimer h w))).
Proof.
  intros E H T. unfold countdown_tick. rewrite E, T.
  assert ((1 <? c) = false) as -> by lia. reflexivity.
Qed.

Lemma startGracePeriod_spec (w : World) :
  let w' := startGracePeriod w in
  banner w' = set_bannerMessage (lit "The server is starting...")
                (set_bannerPhase Grace (banner w))
  /\ handles w' = set_graceTimer (Some (nextHandle w)) (handles w)
  /\ timers w' = timers w ++ [grace_timer (nextHandle w) (now w + 1000)]
  /\ secondsLeft w' = <[nextHandle w := 10]> (secondsLeft w)
  /\ pending w' = pending w /\ now w' = now w
  /\ nextHandle w' = S (nextHandle w).
Proof.
  destruct w as [sh bn hd sl nw tm nh pd nc lc]. repeat split.
Qed.

Lemma grace_tick_eq (g : nat) (w : World) (s : Z) :
  secondsLeft w !! g = Some s ->
  grace_tick g w
  = tryFetchDuringBanner (Some g)
      (set_secondsLeft (<[g := s - 1]> (secondsLeft w)) w).
Proof. intros E. unfold grace_tick. rewrite E. reflexivity. Qed.

Lemma grace_after_retry_idle (g : nat) (w : World) (s : Z) :
  secondsLeft w !! g = Some s -> 0 < s -> grace_after_retry g w = w.
Proof.
  intros E H. unfold grace_after_retry. rewrite E.
  change (default 0 (Some s)) with s.
  assert ((s <=? 0) = false) as -> by lia. reflexivity.
Qed.

(** Entering the failed phase from the grace interval's callback. *)
Lemma grace_after_retry_fail (g : nat) (w : World) :
  (default 0 (secondsLeft w !! g) <=? 0) && bannerVisible (banner w) = true ->
  let w' := grace_after_retry g w in
  banner w' = set_bannerMessage (bannerFailureMessage (banner w))
                (set_bannerPhase Failed (banner w))
  /\ handles w' = set_finalTimer (Some (nextHandle w))
                    (set_graceTimer None (handles w))
  /\ timers w' = timers (clear_if_set (graceTimer (handles w)) w)
                 ++ [final_timer (nextHandle w) (now w + 3000)]
  /\ secondsLeft w' = secondsLeft w
  /\ pending w' = pending w /\ now w' = now w
  /\ nextHandle w' = S (nextHandle w).
Proof.
  intros E. unfold grace_after_retry. rewrite E.
  destruct w as [sh bn [d c gt f i] sl nw tm nh pd nc lc].
  destruct gt; repeat split.
Qed.

Lemma grace_after_retry_skip (g : nat) (w : World) :
  (default 0 (secondsLeft w !! g) <=? 0) && bannerVisible (banner w) = false ->
  grace_after_retry g w = w.
Proof. intros E. unfold grace_after_retry. rewrite E. reflexivity. Qed.

Lemma fetchBooks_resume_retry_failed (c : FetchCall) (g : option nat)
    (o : Outcome (list Item)) (w : World) :
  fc_silent c = true -> fc_caller c = FromRetry g -> fetch_failed o ->
  bannerVisible (banner w) = true ->
  bannerDelayTimer (handles w) = None ->
  fetchBooks_resume c o w
  = after_retry g (upd_handles (set_bannerFetchInFlight false) w).
Proof.
  destruct c as [s tr al k cl]. simpl. intros -> -> F V D.
  unfold fetchBooks_resume, fetch_failed in *.
  destruct (settle_books o) as [[has m]|data]; [|destruct F].
  cbn [fc_silent fc_triggerBannerOnFailure fc_caller fc_allowImmediateFailure].
  rewrite V. replace (tr && negb true) with false by (destruct tr; reflexivity).
  cbv zeta. rewrite D. reflexivity.
Qed.

Lemma fetchBooks_resume_top_failed (c : FetchCall) (o : Outcome (list Item))
    (has : bool) (m : ustring) (w : World) :
  fc_silent c = false -> fc_caller c = TopLevel ->
  settle_books o = inl (has, m) ->
  bannerVisible (banner w) = true ->
  bannerDelayTimer (handles w) = None ->
  fetchBooks_resume c o w = upd_shelf (set_loading false) (setMessage m w).
Proof.
  destruct c as [s tr al k cl]. simpl. intros -> -> E V D.
  unfold fetchBooks_resume. rewrite E.
  cbn [fc_silent fc_triggerBannerOnFailure fc_caller fc_allowImmediateFailure].
  assert (V' : bannerVisible (banner (setMessage m w)) = true) by exact V.
  rewrite V'. replace (tr && negb true) with false by (destruct tr; reflexivity).
  cbv zeta.
  assert (D' : bannerDelayTimer (handles (setMessage m w)) = None) by exact D.
  rewrite D'. reflexivity.
Qed.

Lemma hideBanner_final_only (w : World) (f : option nat) :
  countdownTimer (handles w) = None -> graceTimer (handles w) = None ->
  finalTimer (handles w) = f ->
  timers (hideBanner w) = timers (clear_if_set f w)
  /\ now (hideBanner w) = now w.
Proof.
  destruct w as [sh bn [d c g ft i] sl nw tm nh pd nc lc]. simpl.
  intros -> -> ->. destruct f; split; reflexivity.
Qed.

(** ** The run of a banner while every fetch fails *)

Ltac proj :=
  cbn [shelf banner handles secondsLeft now timers nextHandle pending nextCall lifecycle
       books colorMap formName editingId statusMessage loading
       bannerVisible bannerMessage bannerCountdown bannerPhase bannerFailureMessage
       bannerDelayTimer countdownTimer graceTimer finalTimer bannerFetchInFlight
       set_books set_colorMap set_formName set_editingId set_statusMessage set_loading
       set_bannerVisible set_bannerMessage set_bannerCountdown set_bannerPhase
       set_bannerFailureMessage set_bannerDelayTimer set_countdownTimer set_graceTimer
       set_finalTimer set_bannerFetchInFlight
       upd_shelf upd_banner upd_handles set_secondsLeft set_now set_timers
       set_nextHandle set_pending set_nextCall set_lifecycle
       clearTimer clear_if_set issue setMessage after_retry] in *.

Lemma step_fire_inv (w w' : World) (h : nat) :
  step w (Fire h) = Some w' ->
  exists x, earliest (timers w) = Some x /\ t_handle x = h /\ now w <= t_due x
    /\ w' = run_callback (t_run x)
              (set_timers (match t_every x with
                           | Some p => rearm h p (timers w)
                           | None => drop_timer h (timers w)
                           end) (set_now (t_due x) w)).
Proof.
  simpl. destruct (earliest (timers w)) as [x|]; [|discriminate].
  destruct (Nat.eqb_spec (t_handle x) h); [|discriminate].
  destruct (Z.leb_spec (now w) (t_due x)); [|discriminate].
  intros [= <-]. exists x. repeat split; assumption.
Qed.

Lemma step_answer_inv (w w' : World) (t : Z) (call : nat) (o : Outcome (list Item)) :
  step w (At t (BooksAnswer call o)) = Some w' ->
  now w <= t /\ none_due_before t (timers w) = true
  /\ exists c rest, take_request call (pending w) = Some (ReqBooks c, rest)
       /\ w' = fetchBooks_resume c o (set_pending rest (set_now t w)).
Proof.
  simpl. destruct (Z.leb_spec (now w) t); [|discriminate].
  destruct (none_due_before t (timers w)); [|discriminate]. simpl.
  destruct (take_request call (pending w)) as [[[c| |] rest]|]; try discriminate.
  intros [= <-]. split; [assumption|]. split; [reflexivity|].
  exists c, rest. split; reflexivity.
Qed.

Lemma take_request_Forall (P : nat * Request -> Prop) (rid : nat)
    (l rest : list (nat * Request)) (r : Request) :
  take_request rid l = Some (r, rest) -> Forall P l -> P (rid, r) /\ Forall P rest.
Proof.
  revert rest. induction l as [|[i q] l IH]; simpl; [discriminate|].
  intros rest. destruct (Nat.eqb_spec i rid) as [->|_].
  - intros [= -> ->] H. inversion H; subst. split; assumption.
  - destruct (take_request rid l) as [[r' rest']|]; [|discriminate].
    intros [= -> <-] H. inversion H; subst.
    destruct (IH rest' eq_refl H3) as [? ?].
    split; [assumption|]. constructor; assumption.
Qed.

(** Taking a call out of the requests in flight: it is the silent one, and
    then the flag is set and no silent call remains, or it is not silent. *)
Lemma run_calls_take (G : option nat -> Prop) (w : World) (call : nat)
    (c : FetchCall) (rest : list (nat * Request)) :
  take_request call (pending w) = Some (ReqBooks c, rest) ->
  run_calls G w ->
  (forall v, pending v = rest ->
     bannerFetchInFlight (handles v)
     = (if fc_silent c then false else bannerFetchInFlight (handles w)) ->
     run_calls G v)
  /\ (if fc_silent c
      then (exists g, fc_caller c = FromRetry g /\ G g)
           /\ bannerFetchInFlight (handles w) = true
      else fc_caller c = TopLevel).
Proof.
  intros T [W C].
  destruct (take_request_Forall _ _ _ _ _ T W) as [Wc Wr].
  destruct (take_request_spec _ _ _ _ T) as [_ TC]. rewrite TC in C.
  unfold is_retry in C. simpl in Wc, C.
  destruct (fc_silent c).
  - destruct (bannerFetchInFlight (handles w)); [|discriminate]. split.
    + intros v Hp Hi. unfold run_calls. rewrite Hp, Hi. split; [exact Wr | lia].
    + split; [exact Wc | reflexivity].
  - split; [|exact Wc]. intros v Hp Hi. unfold run_calls. rewrite Hp, Hi.
    split; [exact Wr | exact C].
Qed.

Lemma run_calls_issue (G : option nat -> Prop) (w v : World) (g : option nat) :
  run_calls G w -> G g ->
  bannerFetchInFlight (handles w) = false ->
  pending v = pending w ++ [(nextCall w, ReqBooks (retry_call g))] ->
  bannerFetchInFlight (handles v) = true ->
  run_calls G v.
Proof.
  intros [W C] Hg I Hp Hi. unfold run_calls. rewrite Hp, Hi. rewrite I in C. split.
  - apply Forall_app. split; [exact W|]. repeat constructor. simpl.
    exists g. split; [reflexivity | exact Hg].
  - rewrite count_retries_app, C. reflexivity.
Qed.

Lemma run_calls_frame (G G' : option nat -> Prop) (w v : World) :
  run_calls G w -> (forall g, G g -> G' g) ->
  pending v = pending w ->
  bannerFetchInFlight (handles v) = bannerFetchInFlight (handles w) ->
  run_calls G' v.
Proof.
  intros [W C] HG Hp Hi. unfold run_calls. rewrite Hp, Hi. split; [|exact C].
  eapply Forall_impl; [exact W|]. intros [i [c| |]]; simpl; auto.
  destruct (fc_silent c); auto. intros (g & E & H). exists g. auto.
Qed.

Ltac fin :=
  try assumption; try reflexivity; try lia; try (f_equal; lia);
  try (cbv [countdown_timer grace_timer final_timer]; do 2 f_equal; lia).

Lemma countdown_fire (t0 : Z) (k h : nat) (w w' : World) (h' : nat) :
  (k < 25)%nat ->
  showing Countdown (Some (25 - Z.of_nat k)) w ->
  armed (Some h) None None [countdown_timer h (t0 + 1000 * (Z.of_nat k + 1))] w ->
  t0 + 1000 * Z.of_nat k <= now w <= t0 + 1000 * (Z.of_nat k + 1) ->
  run_calls (fun g => g = None) w ->
  step w (Fire h') = Some w' ->
  is_tick w (Fire h') = true
  /\ stage t0 (S k) w'
  /\ bannerPhase (banner w') <> Failed.
Proof.
  intros Hk (V & P & C) (D & Tc & Tg & Tf & Tm) Hn Hc S.
  destruct (step_fire_inv _ _ _ S) as (x & Ex & Hh & Hle & ->). clear S.
  rewrite Tm in Ex. cbn [earliest] in Ex. injection Ex as <-.
  cbn [countdown_timer t_handle t_due t_every t_run] in *. subst h'.
  split; [cbn [is_tick]; rewrite Tm; reflexivity|].
  rewrite Tm. cbn [rearm map countdown_timer t_handle t_due t_every t_run].
  rewrite Nat.eqb_refl. cbn [run_callback].
  set (d := t0 + 1000 * (Z.of_nat k + 1)) in *.
  set (v := set_timers _ (set_now d w)).
  destruct (decide (k < 24)%nat) as [Hlt|Hge].
  - rewrite (countdown_tick_decrement v (25 - Z.of_nat k) C ltac:(lia)).
    destruct (bannerFetchInFlight (handles w)) eqn:I.
    + rewrite tryFetchDuringBanner_skip by exact I. subst v. proj.
      split; [|rewrite P; discriminate].
      apply (stage_countdown t0 (S k) h); [lia| | | |].
      * repeat split; proj; fin.
      * repeat split; proj; fin.
      * proj. lia.
      * eapply run_calls_frame; [exact Hc | auto | reflexivity | reflexivity].
    + rewrite tryFetchDuringBanner_issue by exact I. subst v. proj.
      split; [|rewrite P; discriminate].
      apply (stage_countdown t0 (S k) h); [lia| | | |].
      * repeat split; proj; fin.
      * repeat split; proj; fin.
      * proj. lia.
      * eapply (run_calls_issue _ w _ None); [exact Hc | reflexivity | exact I | |];
          reflexivity.
  - assert (k = 24%nat) as -> by lia.
    rewrite (countdown_tick_expire v 1 h C ltac:(lia) Tc).
    match goal with |- context [startGracePeriod ?x] =>
      destruct (startGracePeriod_spec x) as (B & H & T & SL & PD & N & NH);
      revert B H T SL PD N NH; generalize (startGracePeriod x) end.
    subst v. proj. cbn [drop_timer t_handle]. rewrite Nat.eqb_refl. cbn [app].
    intros u B H T SL PD N NH.
    split; [|rewrite B; discriminate].
    apply (stage_grace t0 0 (nextHandle w)); [lia| | | | |].
    + unfold showing. rewrite B. repeat split; proj; assumption.
    + unfold armed. rewrite H, T. subst d. repeat split; proj; fin.
    + rewrite SL. apply lookup_insert_eq.
    + rewrite N. subst d. lia.
    + eapply run_calls_frame; [exact Hc | auto | exact PD |]. rewrite H. reflexivity.
Qed.

(** A failing answer while the banner shows: either the call was not silent
    and only the shelf changes, or it was the retry, the guard flag is
    cleared and its awaiter continues. *)
Lemma answer_while_showing (G : option nat -> Prop) (w w' : World) (t : Z)
    (call : nat) (o : Outcome (list Item)) :
  bannerVisible (banner w) = true ->
  bannerDelayTimer (handles w) = None ->
  run_calls G w ->
  fetch_failed o ->
  step w (At t (BooksAnswer call o)) = Some w' ->
  now w <= t /\ none_due_before t (timers w) = true
  /\ exists v,
       banner v = banner w /\ timers v = timers w
       /\ secondsLeft v = secondsLeft w /\ now v = t
       /\ nextHandle v = nextHandle w /\ run_calls G v
       /\ ((w' = v /\ handles v = handles w)
           \/ (exists g, G g /\ w' = after_retry g v
                 /\ bannerFetchInFlight (handles w) = true
                 /\ handles v = set_bannerFetchInFlight false (handles w))).
Proof.
  intros V D Hc F S.
  destruct (step_answer_inv _ _ _ _ _ S) as (Hle & Hdue & c & rest & T & ->).
  split; [exact Hle|]. split; [exact Hdue|].
  destruct (run_calls_take G w call c rest T Hc) as [Hrest Hcase].
  destruct (fc_silent c) eqn:Sl.
  - destruct Hcase as [(g & Hg & HG) I].
    rewrite (fetchBooks_resume_retry_failed c g o (set_pending rest (set_now t w))
               Sl Hg F V D).
    exists (upd_handles (set_bannerFetchInFlight false) (set_pending rest (set_now t w))).
    do 5 (split; [reflexivity|]). split; [apply Hrest; reflexivity|].
    right. exists g. repeat split; assumption.
  - unfold fetch_failed in F.
    destruct (settle_books o) as [[has m]|data] eqn:E; [|destruct F].
    rewrite (fetchBooks_resume_top_failed c o has m (set_pending rest (set_now t w))
               Sl Hcase E V D).
    exists (upd_shelf (set_loading false) (setMessage m (set_pending rest (set_now t w)))).
    do 5 (split; [reflexivity|]). split; [apply Hrest; reflexivity|].
    left. split; reflexivity.
Qed.

Lemma none_due_single (t : Z) (x : Timer) :
  none_due_before t [x] = true -> t <= t_due x.
Proof. cbn [none_due_before forallb]. rewrite andb_true_r. lia. Qed.

Lemma countdown_answer (t0 : Z) (k h : nat) (w w' : World) (t : Z)
    (call : nat) (o : Outcome (list Item)) :
  (k < 25)%nat ->
  showing Countdown (Some (25 - Z.of_nat k)) w ->
  armed (Some h) None None [countdown_timer h (t0 + 1000 * (Z.of_nat k + 1))] w ->
  t0 + 1000 * Z.of_nat k <= now w <= t0 + 1000 * (Z.of_nat k + 1) ->
  run_calls (fun g => g = None) w ->
  fetch_failed o ->
  step w (At t (BooksAnswer call o)) = Some w' ->
  stage t0 k w' /\ bannerPhase (banner w') <> Failed.
Proof.
  intros Hk (V & P & C) (D & Tc & Tg & Tf & Tm) Hn Hc F S.
  destruct (answer_while_showing _ _ _ _ _ _ V D Hc F S)
    as (Hle & Hdue & v & B & T & SL & N & NH & Hv & Hcase).
  rewrite Tm in Hdue. apply none_due_single in Hdue. cbn in Hdue.
  assert (Hw' : w' = v /\ (handles v = handles w
                 \/ handles v = set_bannerFetchInFlight false (handles w))).
  { destruct Hcase as [[-> H]|(g & -> & -> & _ & H)]; auto. }
  destruct Hw' as [-> H].
  split; [|rewrite B, P; discriminate].
  apply (stage_countdown t0 k h); [exact Hk| | | |exact Hv].
  - unfold showing. rewrite B. auto.
  - unfold armed. rewrite T. destruct H as [-> | ->]; proj; auto.
  - lia.
Qed.

Lemma run_calls_none (G G' : option nat -> Prop) (w v : World) :
  run_calls G w ->
  bannerFetchInFlight (handles w) = false ->
  pending v = pending w ->
  bannerFetchInFlight (handles v) = false ->
  run_calls G' v.
Proof.
  intros [W C] I Hp Hi. unfold run_calls. rewrite Hp, Hi. rewrite I in C.
  split; [|exact C]. revert W C. generalize (pending w).
  induction l as [|[i r] l IH]; [constructor|].
  intros W C. inversion W; subst. simpl in C.
  destruct (is_retry (i, r)) eqn:R; [discriminate|].
  constructor; [|apply IH; [assumption | exact C]].
  destruct r as [c| |]; simpl in *; auto.
  unfold is_retry in R. simpl in R. rewrite R in *. assumption.
Qed.

(** The banner enters the failed phase at [tf] with a single hide timer. *)
Lemma failed_since_intro (t0 tf : Z) (u : World) (bn : BannerState) (hd : Handles)
    (nh : nat) :
  bannerVisible bn = true ->
  bannerCountdown bn = None ->
  bannerDelayTimer hd = None -> countdownTimer hd = None ->
  banner u = set_bannerMessage (bannerFailureMessage bn) (set_bannerPhase Failed bn) ->
  handles u = set_finalTimer (Some nh) (set_graceTimer None hd) ->
  timers u = [final_timer nh (tf + 3000)] ->
  now u = tf ->
  t0 + 35000 <= tf <= t0 + 36000 ->
  run_calls (fun _ => True) u ->
  failed_since t0 tf u.
Proof.
  intros V C D Tc B H T N Htf Hc. unfold failed_since, showing.
  rewrite B. proj. repeat split; try assumption; try lia.
  left. exists nh. split; [|exact Hc].
  unfold armed. rewrite H, T. proj. auto.
Qed.

Lemma grace_fire (t0 : Z) (j g : nat) (w w' : World) (h' : nat) :
  (j < 10)%nat ->
  showing Grace None w ->
  armed None (Some g) None
    [grace_timer g (t0 + 25000 + 1000 * (Z.of_nat j + 1))] w ->
  secondsLeft w !! g = Some (10 - Z.of_nat j) ->
  t0 + 25000 + 1000 * Z.of_nat j <= now w <= t0 + 25000 + 1000 * (Z.of_nat j + 1) ->
  run_calls (fun x => x = None \/ x = Some g) w ->
  step w (Fire h') = Some w' ->
  is_tick w (Fire h') = true
  /\ stage t0 (S (25 + j)) w'
  /\ (bannerPhase (banner w') = Failed -> failed_since t0 (now w') w').
Proof.
  intros Hj (V & P & C) (D & Tc & Tg & Tf & Tm) SL Hn Hc S.
  destruct (step_fire_inv _ _ _ S) as (x & Ex & Hh & Hle & ->). clear S.
  rewrite Tm in Ex. cbn [earliest] in Ex. injection Ex as <-.
  cbn [grace_timer t_handle t_due t_every t_run] in *. subst h'.
  split; [cbn [is_tick]; rewrite Tm; reflexivity|].
  rewrite Tm. cbn [rearm map grace_timer t_handle t_due t_every t_run].
  rewrite Nat.eqb_refl. cbn [run_callback].
  set (d := t0 + 25000 + 1000 * (Z.of_nat j + 1)) in *.
  set (v := set_timers _ (set_now d w)).
  rewrite (grace_tick_eq g v (10 - Z.of_nat j) SL).
  set (v1 := set_secondsLeft _ v).
  assert (SL1 : secondsLeft v1 !! g = Some (10 - Z.of_nat j - 1))
    by apply lookup_insert_eq.
  destruct (bannerFetchInFlight (handles w)) eqn:I.
  - rewrite tryFetchDuringBanner_skip by exact I. cbn [after_retry].
    destruct (decide (j < 9)%nat) as [Hlt|Hge].
    + rewrite (grace_after_retry_idle g v1 _ SL1) by lia.
      split; [|subst v1 v; proj; rewrite P; discriminate].
      apply (stage_grace t0 (S j) g); [lia| | | | |].
      * subst v1 v. repeat split; proj; fin.
      * subst v1 v. repeat split; proj; fin.
      * rewrite SL1. f_equal. lia.
      * subst v1 v d. proj. lia.
      * eapply run_calls_frame; [exact Hc | auto | reflexivity | reflexivity].
    + assert (j = 9%nat) as -> by lia.
      assert (E : (default 0 (secondsLeft v1 !! g) <=? 0) && bannerVisible (banner v1)
                  = true).
      { rewrite SL1. change (bannerVisible (banner v1)) with (bannerVisible (banner w)).
        rewrite V. reflexivity. }
      destruct (grace_after_retry_fail g v1 E) as (B & H & T & _ & PD & N & _).
      revert B H T PD N. generalize (grace_after_retry g v1).
      subst v1 v. proj. rewrite Tg. proj. cbn [drop_timer t_handle].
      rewrite Nat.eqb_refl. cbn [app].
      intros u B H T PD N.
      assert (FS : failed_since t0 (t0 + 35000) u).
      { apply (failed_since_intro t0 _ u (banner w) (handles w) (nextHandle w));
          try assumption; try lia.
        - rewrite T. subst d. fin.
        - eapply run_calls_frame; [exact Hc | auto | exact PD |].
          rewrite H. reflexivity. }
      split.
      * apply (stage_failed t0 35 (t0 + 35000)); auto.
      * intros _. rewrite N. subst d.
        replace (t0 + 25000 + 1000 * (Z.of_nat 9 + 1)) with (t0 + 35000) by lia.
        exact FS.
  - rewrite tryFetchDuringBanner_issue by exact I.
    split; [|subst v1 v; proj; rewrite P; discriminate].
    destruct (decide (j < 9)%nat) as [Hlt|Hge].
    + apply (stage_grace t0 (S j) g); [lia| | | | |].
      * subst v1 v. repeat split; proj; fin.
      * subst v1 v. repeat split; proj; fin.
      * proj. rewrite SL1. f_equal. lia.
      * subst v1 v d. proj. lia.
      * eapply (run_calls_issue _ w _ (Some g)); [exact Hc | auto | exact I | |];
          reflexivity.
    + assert (j = 9%nat) as -> by lia.
      apply (stage_waiting t0 g).
      * subst v1 v. repeat split; proj; fin.
      * subst v1 v d. repeat split; proj; fin.
      * proj. rewrite SL1. f_equal.
      * subst v1 v d. proj. lia.
      * reflexivity.
      * eapply (run_calls_issue _ w _ (Some g));
          [ | reflexivity | exact I | reflexivity | reflexivity].
        eapply run_calls_none; [exact Hc | exact I | reflexivity | exact I].
Qed.

Lemma grace_answer (t0 : Z) (j g : nat) (w w' : World) (t : Z)
    (call : nat) (o : Outcome (list Item)) :
  (j < 10)%nat ->
  showing Grace None w ->
  armed None (Some g) None
    [grace_timer g (t0 + 25000 + 1000 * (Z.of_nat j + 1))] w ->
  secondsLeft w !! g = Some (10 - Z.of_nat j) ->
  t0 + 25000 + 1000 * Z.of_nat j <= now w <= t0 + 25000 + 1000 * (Z.of_nat j + 1) ->
  run_calls (fun x => x = None \/ x = Some g) w ->
  fetch_failed o ->
  step w (At t (BooksAnswer call o)) = Some w' ->
  stage t0 (25 + j) w' /\ bannerPhase (banner w') <> Failed.
Proof.
  intros Hj (V & P & C) (D & Tc & Tg & Tf & Tm) SL Hn Hc F S.
  destruct (answer_while_showing _ _ _ _ _ _ V D Hc F S)
    as (Hle & Hdue & v & B & T & SLv & N & NH & Hv & Hcase).
  rewrite Tm in Hdue. apply none_due_single in Hdue. cbn in Hdue.
  assert (Hw' : w' = v /\ (handles v = handles w
                 \/ handles v = set_bannerFetchInFlight false (handles w))).
  { destruct Hcase as [[-> H]|(g' & Hg' & -> & _ & H)]; [auto|].
    split; [|auto]. destruct Hg' as [-> | ->]; [reflexivity|].
    cbn [after_retry]. apply (grace_after_retry_idle g v (10 - Z.of_nat j)); [|lia].
    rewrite SLv. exact SL. }
  destruct Hw' as [-> H].
  split; [|rewrite B, P; discriminate].
  apply (stage_grace t0 j g); [exact Hj| | | | |exact Hv].
  - unfold showing. rewrite B. auto.
  - unfold armed. rewrite T. destruct H as [-> | ->]; proj; auto.
  - rewrite SLv. exact SL.
  - lia.
Qed.

Lemma waiting_fire (t0 : Z) (g : nat) (w w' : World) (h' : nat) :
  showing Grace None w ->
  armed None (Some g) None [grace_timer g (t0 + 36000)] w ->
  secondsLeft w !! g = Some 0 ->
  t0 + 35000 <= now w <= t0 + 36000 ->
  bannerFetchInFlight (handles w) = true ->
  run_calls (fun x => x = Some g) w ->
  step w (Fire h') = Some w' ->
  is_tick w (Fire h') = true
  /\ stage t0 36 w'
  /\ failed_since t0 (now w') w'.
Proof.
  intros (V & P & C) (D & Tc & Tg & Tf & Tm) SL Hn I Hc S.
  destruct (step_fire_inv _ _ _ S) as (x & Ex & Hh & Hle & ->). clear S.
  rewrite Tm in Ex. cbn [earliest] in Ex. injection Ex as <-.
  cbn [grace_timer t_handle t_due t_every t_run] in *. subst h'.
  split; [cbn [is_tick]; rewrite Tm; reflexivity|].
  rewrite Tm. cbn [rearm map grace_timer t_handle t_due t_every t_run].
  rewrite Nat.eqb_refl. cbn [run_callback].
  set (v := set_timers _ (set_now (t0 + 36000) w)).
  rewrite (grace_tick_eq g v 0 SL).
  set (v1 := set_secondsLeft _ v).
  assert (SL1 : secondsLeft v1 !! g = Some (0 - 1)) by apply lookup_insert_eq.
  rewrite tryFetchDuringBanner_skip by exact I. cbn [after_retry].
  assert (E : (default 0 (secondsLeft v1 !! g) <=? 0) && bannerVisible (banner v1)
              = true).
  { rewrite SL1. change (bannerVisible (banner v1)) with (bannerVisible (banner w)).
    rewrite V. reflexivity. }
  destruct (grace_after_retry_fail g v1 E) as (B & H & T & _ & PD & N & _).
  revert B H T PD N. generalize (grace_after_retry g v1).
  subst v1 v. proj. rewrite Tg. proj. cbn [drop_timer t_handle].
  rewrite Nat.eqb_refl. cbn [app].
  intros u B H T PD N.
  assert (FS : failed_since t0 (t0 + 36000) u).
  { apply (failed_since_intro t0 _ u (banner w) (handles w) (nextHandle w));
      try assumption; try lia.
    eapply run_calls_frame; [exact Hc | auto | exact PD |].
    rewrite H. reflexivity. }
  split.
  - apply (stage_failed t0 36 (t0 + 36000)); auto.
  - rewrite N. exact FS.
Qed.

Lemma waiting_answer (t0 : Z) (g : nat) (w w' : World) (t : Z)
    (call : nat) (o : Outcome (list Item)) :
  showing Grace None w ->
  armed None (Some g) None [grace_timer g (t0 + 36000)] w ->
  secondsLeft w !! g = Some 0 ->
  t0 + 35000 <= now w <= t0 + 36000 ->
  bannerFetchInFlight (handles w) = true ->
  run_calls (fun x => x = Some g) w ->
  fetch_failed o ->
  step w (At t (BooksAnswer call o)) = Some w' ->
  stage t0 35 w'
  /\ (bannerPhase (banner w') = Failed -> failed_since t0 (now w') w').
Proof.
  intros (V & P & C) (D & Tc & Tg & Tf & Tm) SL Hn I Hc F S.
  destruct (answer_while_showing _ _ _ _ _ _ V D Hc F S)
    as (Hle & Hdue & v & B & T & SLv & N & NH & Hv & Hcase).
  rewrite Tm in Hdue. apply none_due_single in Hdue. cbn in Hdue.
  destruct Hcase as [[-> H]|(g' & -> & -> & _ & H)].
  - split; [|rewrite B, P; discriminate].
    apply (stage_waiting t0 g); [| | | | |exact Hv].
    + unfold showing. rewrite B. auto.
    + unfold armed. rewrite T, H. auto.
    + rewrite SLv. exact SL.
    + lia.
    + rewrite H. exact I.
  - cbn [after_retry].
    assert (E : (default 0 (secondsLeft v !! g) <=? 0) && bannerVisible (banner v)
                = true).
    { rewrite SLv, SL, B, V. reflexivity. }
    destruct (grace_after_retry_fail g v E) as (Bu & Hu & Tu & _ & PD & Nu & _).
    revert Bu Hu Tu PD Nu. generalize (grace_after_retry g v).
    rewrite B, H, N, NH. proj. rewrite Tg. proj.
    rewrite T, Tm. cbn [drop_timer t_handle grace_timer].
    rewrite Nat.eqb_refl. cbn [app].
    intros u Bu Hu Tu PD Nu.
    assert (FS : failed_since t0 t u).
    { apply (failed_since_intro t0 _ u (banner w)
               (set_bannerFetchInFlight false (handles w)) (nextHandle w));
        try assumption; try lia.
      eapply run_calls_frame; [exact Hv | auto | exact PD |].
      rewrite Hu, H. reflexivity. }
    split.
    + apply (stage_failed t0 35 t); auto.
    + intros _. rewrite Nu. exact FS.
Qed.

Lemma failed_fire (t0 tf : Z) (w w' : World) (h' : nat) :
  failed_since t0 tf w ->
  step w (Fire h') = Some w' ->
  is_tick w (Fire h') = false
  /\ now w' = tf + 3000
  /\ hidden w' /\ handles_cleared w' /\ timers w' = [].
Proof.
  intros ((V & P & C) & M & Htf & Hn & HF) S.
  destruct (step_fire_inv _ _ _ S) as (x & Ex & Hh & Hle & ->). clear S.
  assert (Hx : t_every x = None /\ t_run x = FinalHide /\ t_due x = tf + 3000
               /\ exists f, finalTimer (handles w) = Some f
                    /\ countdownTimer (handles w) = None
                    /\ graceTimer (handles w) = None
                    /\ drop_timer f (drop_timer h' (timers w)) = []).
  { destruct HF as [(h & (D & Tc & Tg & Tf & Tm) & _)
                   |(h1 & h2 & d2 & Hd & (D & Tc & Tg & Tf & Tm) & _)];
      rewrite Tm in *; cbn [earliest final_timer t_due] in Ex.
    - injection Ex as <-. cbn in Hh. subst h'. repeat split.
      exists h. repeat split; try assumption.
      cbn [drop_timer final_timer t_handle]. rewrite Nat.eqb_refl. reflexivity.
    - assert ((d2 <? tf + 3000) = false) as E by lia. rewrite E in Ex.
      injection Ex as <-. cbn in Hh. subst h'. repeat split.
      exists h2. repeat split; try assumption.
      cbn [drop_timer final_timer t_handle]. rewrite Nat.eqb_refl.
      destruct (Nat.eqb h2 h1) eqn:E2; [reflexivity|].
      cbn [drop_timer t_handle]. rewrite Nat.eqb_refl. reflexivity. }
  destruct Hx as (Ev & Er & Ed & f & Tf & Tc & Tg & Hdrop). rewrite Ev, Er, Ed.
  split; [cbn [is_tick]; rewrite Ex, Ev; reflexivity|].
  cbn [run_callback].
  set (v := set_timers _ (set_now (tf + 3000) w)).
  destruct (hideBanner_hidden v) as [Hhid Hcl].
  destruct (hideBanner_final_only v (Some f) Tc Tg Tf) as [Ht Hnow].
  split; [exact Hnow|]. split; [exact Hhid|]. split; [exact Hcl|].
  rewrite Ht. exact Hdrop.
Qed.

Lemma failed_answer (t0 tf : Z) (w w' : World) (t : Z)
    (call : nat) (o : Outcome (list Item)) :
  failed_since t0 tf w ->
  fetch_failed o ->
  step w (At t (BooksAnswer call o)) = Some w' ->
  failed_since t0 tf w'.
Proof.
  intros ((V & P & C) & M & Htf & Hn & HF) F S.
  assert (D : bannerDelayTimer (handles w) = None).
  { destruct HF as [(h & (D & _) & _)|(h1 & h2 & d2 & _ & (D & _) & _)]; exact D. }
  assert (Hc : run_calls (fun _ => True) w).
  { destruct HF as [(h & _ & Hc)|(h1 & h2 & d2 & _ & _ & _ & Hc)]; exact Hc. }
  destruct (answer_while_showing _ _ _ _ _ _ V D Hc F S)
    as (Hle & Hdue & v & B & T & SLv & N & NH & Hv & Hcase).
  assert (Ht : t <= tf + 3000).
  { destruct HF as [(h & (_ & _ & _ & _ & Tm) & _)
                   |(h1 & h2 & d2 & _ & (_ & _ & _ & _ & Tm) & _)];
      rewrite Tm in Hdue; cbn in Hdue; lia. }
  assert (Keep : forall hd, handles v = hd ->
            (hd = handles w \/ hd = set_bannerFetchInFlight false (handles w)) ->
            failed_since t0 tf v).
  { intros hd Hhd Hor. unfold failed_since, showing. rewrite B, N.
    repeat split; try assumption; try lia.
    destruct HF as [(h & (_ & Tc & Tg & Tf & Tm) & _)
                   |(h1 & h2 & d2 & Hd & (_ & Tc & Tg & Tf & Tm) & I & _)].
    - left. exists h. split; [|exact Hv]. unfold armed. rewrite T, Hhd.
      destruct Hor as [-> | ->]; proj; auto.
    - right. exists h1, h2, d2. split; [exact Hd|]. split; [|split; [|exact Hv]].
      + unfold armed. rewrite T, Hhd. destruct Hor as [-> | ->]; proj; auto.
      + rewrite Hhd. destruct Hor as [-> | ->]; proj; auto. }
  destruct Hcase as [[-> H]|(g & _ & -> & I & H)]; [apply (Keep _ H); auto|].
  destruct g as [g|]; cbn [after_retry]; [|apply (Keep _ H); auto].
  destruct ((default 0 (secondsLeft v !! g) <=? 0) && bannerVisible (banner v)) eqn:E.
  - destruct HF as [(h & (_ & Tc & Tg & Tf & Tm) & _)
                   |(h1 & h2 & d2 & _ & _ & I' & _)]; [|congruence].
    destruct (grace_after_retry_fail g v E) as (Bu & Hu & Tu & _ & PD & Nu & _).
    revert Bu Hu Tu PD Nu. generalize (grace_after_retry g v).
    rewrite B, H, N, NH. proj. rewrite Tg. proj. rewrite T, Tm. cbn [app].
    intros u Bu Hu Tu PD Nu.
    unfold failed_since, showing. rewrite Bu, Nu. proj.
    repeat split; try assumption; try lia.
    right. exists h, (nextHandle w), (t + 3000).
    split; [lia|]. split; [|split].
    + unfold armed. rewrite Hu, Tu. proj. auto.
    + rewrite Hu. reflexivity.
    + eapply run_calls_frame; [exact Hv | auto | exact PD |].
      rewrite Hu, H. reflexivity.
  - rewrite (grace_after_retry_skip g v E). apply (Keep _ H); auto.
Qed.

(** *** The clock only moves forward *)

Lemma grace_after_retry_now (g : nat) (w : World) :
  now (grace_after_retry g w) = now w.
Proof.
  destruct ((default 0 (secondsLeft w !! g) <=? 0) && bannerVisible (banner w)) eqn:E.
  - apply (grace_after_retry_fail g w E).
  - rewrite (grace_after_retry_skip g w E). reflexivity.
Qed.

Lemma after_retry_now (g : option nat) (w : World) : now (after_retry g w) = now w.
Proof. destruct g; [apply grace_after_retry_now | reflexivity]. Qed.

Lemma tryFetchDuringBanner_now (g : option nat) (w : World) :
  now (tryFetchDuringBanner g w) = now w.
Proof.
  destruct (bannerFetchInFlight (handles w)) eqn:I.
  - rewrite tryFetchDuringBanner_skip by exact I. apply after_retry_now.
  - rewrite tryFetchDuringBanner_issue by exact I. reflexivity.
Qed.

Lemma startServerWakeBanner_now (imm : bool) (m : ustring) (w : World) :
  now (startServerWakeBanner imm m w) = now w.
Proof.
  destruct imm.
  - apply (startServerWakeBanner_immediate m w).
  - apply (startServerWakeBanner_countdown m w).
Qed.

Lemma hideBanner_now (w : World) : now (hideBanner w) = now w.
Proof.
  destruct w as [sh bn [d c g f i] sl nw tm nh pd nc lc].
  destruct c, g, f; reflexivity.
Qed.

Lemma run_callback_now (cb : Callback) (w : World) : now (run_callback cb w) = now w.
Proof.
  destruct cb as [call| |g|]; cbn [run_callback].
  - unfold kickoff_banner.
    assert (H : now (if negb (bannerVisible (banner w)) && loading (shelf w)
                     then startServerWakeBanner false (lit "Unable to load books") w
                     else w) = now w).
    { destruct (negb (bannerVisible (banner w)) && loading (shelf w));
        [apply startServerWakeBanner_now | reflexivity]. }
    revert H.
    generalize (if negb (bannerVisible (banner w)) && loading (shelf w)
                then startServerWakeBanner false (lit "Unable to load books") w
                else w).
    intros x H. exact H.
  - unfold countdown_tick.
    destruct (match bannerCountdown (banner w) with
              | Some k => 1 <? k | None => false end).
    + rewrite tryFetchDuringBanner_now. reflexivity.
    + match goal with |- context [startGracePeriod ?x] =>
        destruct (startGracePeriod_spec x) as (_ & _ & _ & _ & _ & N & _);
        revert N; generalize (startGracePeriod x); intros y N; rewrite N
      end.
      generalize (countdownTimer (handles w)). intros [h|]; reflexivity.
  - unfold grace_tick. rewrite tryFetchDuringBanner_now. reflexivity.
  - apply hideBanner_now.
Qed.

Lemma fetchBooks_resume_now (c : FetchCall) (o : Outcome (list Item)) (w : World) :
  now (fetchBooks_resume c o w) = now w.
Proof.
  destruct c as [s tr al k cl]. unfold fetchBooks_resume.
  cbn [fc_silent fc_triggerBannerOnFailure fc_caller fc_allowImmediateFailure
       fc_bannerKickoffPending].
  assert (Hcl : forall x, now (match cl with
                               | TopLevel => x
                               | FromRetry grace =>
                                   after_retry grace
                                     (upd_handles (set_bannerFetchInFlight false) x)
                               end) = now x).
  { intros x. destruct cl; [reflexivity|]. rewrite after_retry_now. reflexivity. }
  rewrite Hcl. clear Hcl.
  destruct (settle_books o) as [[has m]|data].
  - generalize (al && (negb has || ustring_eqb m (lit "Failed to fetch"))). intros imm.
    destruct w as [sh [v bm bc bp bf] [d c g f i] sl nw tm nh pd nc lc].
    destruct s, tr, imm, v, d, i, k; reflexivity.
  - destruct w as [sh [v bm bc bp bf] [d c g f i] sl nw tm nh pd nc lc].
    destruct s, d, c, g, f; reflexivity.
Qed.

Lemma step_now (w w' : World) (e : Event) :
  event_fails e -> step w e = Some w' -> now w <= now w'.
Proof.
  destruct e as [h|t a]; intros F S.
  - destruct (step_fire_inv _ _ _ S) as (x & _ & _ & Hle & ->).
    rewrite run_callback_now. exact Hle.
  - destruct a; try destruct F.
    destruct (step_answer_inv _ _ _ _ _ S) as (Hle & _ & c & rest & _ & ->).
    rewrite fetchBooks_resume_now. exact Hle.
Qed.

(** ** The schedule of a banner while no fetch succeeds *)

(** One event of such a run takes a stage to the next one; the tick count
    grows when an interval fires; and when the event makes the banner enter
    the failed phase, the failure is shown since that very moment. *)
Lemma stage_step (t0 : Z) (n : nat) (w w' : World) (e : Event) :
  stage t0 n w -> event_fails e -> step w e = Some w' ->
  stage t0 ((if is_tick w e then 1 else 0) + n) w'
  /\ (bannerPhase (banner w) <> Failed -> bannerPhase (banner w') = Failed ->
      now w' < t0 + 38000 -> failed_since t0 (now w') w').
Proof.
  intros St F S.
  destruct St as [k h w Hk Sh Ar Hn Hc | j g w Hj Sh Ar SL Hn Hc
                 | g w Sh Ar SL Hn I Hc | n tf w Hn35 Htf FS | n w Hn35 Hn].
  - destruct e as [h'|t a].
    + destruct (countdown_fire t0 k h w w' h' Hk Sh Ar Hn Hc S) as (-> & St & NF).
      split; [exact St | intros _ E _; contradiction].
    + destruct a; try destruct F. cbn [is_tick].
      destruct (countdown_answer t0 k h w w' t call o Hk Sh Ar Hn Hc F S) as (St & NF).
      split; [exact St | intros _ E _; contradiction].
  - destruct e as [h'|t a].
    + destruct (grace_fire t0 j g w w' h' Hj Sh Ar SL Hn Hc S) as (-> & St & FS).
      split; [exact St | intros _ E _; exact (FS E)].
    + destruct a; try destruct F. cbn [is_tick].
      destruct (grace_answer t0 j g w w' t call o Hj Sh Ar SL Hn Hc F S) as (St & NF).
      split; [exact St | intros _ E _; contradiction].
  - destruct e as [h'|t a].
    + destruct (waiting_fire t0 g w w' h' Sh Ar SL Hn I Hc S) as (-> & St & FS).
      split; [exact St | intros _ _ _; exact FS].
    + destruct a; try destruct F. cbn [is_tick].
      destruct (waiting_answer t0 g w w' t call o Sh Ar SL Hn I Hc F S) as (St & FS).
      split; [exact St | intros _ E _; exact (FS E)].
  - assert (PF : bannerPhase (banner w) = Failed) by apply FS.
    split; [|intros NF; contradiction].
    destruct e as [h'|t a].
    + destruct (failed_fire t0 tf w w' h' FS S) as (-> & N & _).
      apply stage_over; [lia|]. destruct FS as (_ & _ & ? & _). lia.
    + destruct a; try destruct F. cbn [is_tick].
      apply (stage_failed t0 n tf); [exact Hn35 | exact Htf|].
      exact (failed_answer t0 tf w w' t call o FS F S).
  - pose proof (step_now w w' e F S).
    split.
    + apply stage_over; [destruct (is_tick w e); lia | lia].
    + intros _ _ Hlt. lia.
Qed.

Lemma stage_run (t0 : Z) (evs : list Event) (n : nat) (w w' : World) :
  stage t0 n w -> only_failures evs -> run w evs = Some w' ->
  stage t0 (run_ticks w evs + n) w'.
Proof.
  revert n w. induction evs as [|e evs IH]; intros n w St F R.
  - injection R as <-. exact St.
  - cbn [run run_ticks] in *. destruct (step w e) as [w1|] eqn:S; [|discriminate].
    inversion F as [|? ? Fe Fr]; subst.
    destruct (stage_step t0 n w w1 e St Fe S) as [St1 _].
    specialize (IH _ w1 St1 Fr R).
    replace ((if is_tick w e then 1 else 0) + run_ticks w1 evs + n)%nat
      with (run_ticks w1 evs + ((if is_tick w e then 1 else 0) + n))%nat by lia.
    exact IH.
Qed.

Lemma banner_started_stage (t0 : Z) (w : World) :
  banner_started t0 w -> stage t0 0 w.
Proof.
  intros (N & Sh & (h & Ar) & Hc & _).
  apply (stage_countdown t0 0 h); [lia | exact Sh | exact Ar | lia | exact Hc].
Qed.

(** [startServerWakeBanner], called on its countdown path while no timer is
    armed, starts a banner in this sense. *)
Lemma startServerWakeBanner_started (m : ustring) (w : World) :
  timers w = [] ->
  bannerDelayTimer (handles w) = None ->
  graceTimer (handles w) = None ->
  finalTimer (handles w) = None ->
  run_calls (fun g => g = None) w ->
  banner_started (now w) (startServerWakeBanner false m w).
Proof.
  intros T D Tg Tf Hc. unfold startServerWakeBanner.
  cbv zeta. cbn [setInterval arm].
  set (w1 := upd_banner (set_bannerCountdown (Some 25)) _).
  destruct (bannerFetchInFlight (handles w)) eqn:I.
  - rewrite tryFetchDuringBanner_skip by exact I. cbn [after_retry].
    subst w1. unfold banner_started, showing, armed. proj. rewrite T, D, Tg, Tf, I.
    repeat split; try reflexivity.
    + exists (nextHandle w). repeat split.
    + apply Hc.
    + apply Hc.
  - rewrite tryFetchDuringBanner_issue by exact I.
    subst w1. unfold banner_started, showing, armed. proj. rewrite T, D, Tg, Tf.
    split; [reflexivity|]. split; [repeat split|]. split; [|split; [|reflexivity]].
    + exists (nextHandle w). repeat split.
    + eapply (run_calls_issue _ w _ None); [exact Hc | reflexivity | exact I | |];
        reflexivity.
Qed.

(** C1, as the code has it.  A banner is started on the countdown path at
    [t0] in a state with nothing left over from an earlier banner: its
    countdown interval is the only armed timer (no hide timer of an earlier
    banner is still armed), the kickoff handle is [null], and no silent call
    in flight is awaited by a grace tick.  Afterwards only timers fire and
    [fetchBooks] answers arrive, all failures.  With [n] the number of
    interval ticks so far, the state reached is always one of the stages of
    [stage]; in particular
    - while [n < 25] the phase is countdown and the display shows [25 - n],
      the next tick being due one second after the previous one;
    - while [25 <= n < 35] the phase is grace;
    - the failed phase is shown only once 35 ticks have fired: at the 35th
      tick if a retry is in flight then, and otherwise when the retry issued
      by the 35th tick fails or at the 36th tick, whichever comes first; the
      failure message is displayed from that moment [tf], which lies between
      [t0 + 35000] and [t0 + 36000];
    - failing answers leave the failed phase as it is, and the only timer
      that can fire in it is the one-shot armed on entering it, at
      [tf + 3000]; it leaves the banner hidden and idle with no timer armed.
    What happens once the banner has been hidden, from [t0 + 38000] on, is
    outside the statement. *)
Theorem phases_when_no_fetch_succeeds (t0 : Z) (w0 w : World) (evs : list Event) :
  banner_started t0 w0 -> only_failures evs -> run w0 evs = Some w ->
  let n := run_ticks w0 evs in
  stage t0 n w
  /\ ((n < 25)%nat ->
        showing Countdown (Some (25 - Z.of_nat n)) w
        /\ t0 + 1000 * Z.of_nat n <= now w <= t0 + 1000 * (Z.of_nat n + 1))
  /\ ((25 <= n < 35)%nat ->
        showing Grace None w
        /\ t0 + 1000 * Z.of_nat n <= now w <= t0 + 1000 * (Z.of_nat n + 1))
  /\ (bannerPhase (banner w) = Failed -> now w < t0 + 38000 ->
        (35 <= n)%nat /\ exists tf, failed_since t0 tf w)
  /\ (forall e w', event_fails e -> step w e = Some w' ->
        bannerPhase (banner w) <> Failed -> bannerPhase (banner w') = Failed ->
        now w' < t0 + 38000 -> failed_since t0 (now w') w')
  /\ (forall tf t call o w', failed_since t0 tf w -> fetch_failed o ->
        step w (At t (BooksAnswer call o)) = Some w' -> failed_since t0 tf w')
  /\ (forall tf h w', failed_since t0 tf w -> step w (Fire h) = Some w' ->
        now w' = tf + 3000 /\ hidden w' /\ handles_cleared w' /\ timers w' = []).
Proof.
  intros St0 F R n.
  pose proof (stage_run t0 evs 0 w0 w (banner_started_stage t0 w0 St0) F R) as St.
  rewrite Nat.add_0_r in St. fold n in St.
  split; [exact St|]. split; [|split; [|split; [|split; [|split]]]].
  - intros Hn. inversion St; subst; try lia.
    + split; [assumption | lia].
  - intros Hn. inversion St; subst; try lia.
    + split; [assumption | lia].
  - intros PF Hlt. inversion St as [k h ? ? (_ & P & _) | j g ? ? (_ & P & _)
                                   | g ? (_ & P & _) | m tf ? Hm ? FS | ]; subst;
      try congruence; try lia.
    split; [lia | exists tf; exact FS].
  - intros e w' Fe S. exact (proj2 (stage_step t0 n w w' e St Fe S)).
  - intros tf t call o w' FS Fo S. exact (failed_answer t0 tf w w' t call o FS Fo S).
  - intros tf h w' FS S. destruct (failed_fire t0 tf w w' h FS S) as (_ & H). exact H.
Qed.

(** ** A retry that succeeds *)

Lemma fetchBooks_resume_grace (s tr al k : bool) (g : nat)
    (o : Outcome (list Item)) (w : World) :
  fetchBooks_resume
    {| fc_silent := s; fc_triggerBannerOnFailure := tr;
       fc_allowImmediateFailure := al; fc_bannerKickoffPending := k;
       fc_caller := FromRetry (Some g) |} o w
  = grace_after_retry g
      (fetchBooks_resume
         {| fc_silent := s; fc_triggerBannerOnFailure := tr;
            fc_allowImmediateFailure := al; fc_bannerKickoffPending := k;
            fc_caller := FromRetry None |} o w).
Proof. reflexivity. Qed.

Lemma fetchBooks_resume_success (c : FetchCall) (o : Outcome (list Item))
    (data : list Item) (w : World) :
  settle_books o = inr data ->
  let w' := fetchBooks_resume c o w in
  hidden w' /\ handles_cleared w'
  /\ bannerDelayTimer (handles w') = None
  /\ timers w' = drop_held (handles w) (timers w)
  /\ now w' = now w
  /\ books (shelf w') = data.
Proof.
  intros E.
  assert (H : forall s tr al k cl, cl = TopLevel \/ cl = FromRetry None ->
    let w' := fetchBooks_resume
                {| fc_silent := s; fc_triggerBannerOnFailure := tr;
                   fc_allowImmediateFailure := al; fc_bannerKickoffPending := k;
                   fc_caller := cl |} o w in
    hidden w' /\ handles_cleared w'
    /\ bannerDelayTimer (handles w') = None
    /\ timers w' = drop_held (handles w) (timers w)
    /\ now w' = now w
    /\ books (shelf w') = data).
  { intros s tr al k cl Hcl. unfold fetchBooks_resume. rewrite E.
    destruct w as [sh [v bm bc bp bf] [d ct g f i] sl nw tm nh pd nc lc].
    unfold hidden, handles_cleared, drop_held, drop_opt.
    destruct Hcl as [-> | ->]; destruct s, d, ct, g, f; repeat split. }
  destruct c as [s tr al k [|[g|]]].
  - apply H. auto.
  - rewrite fetchBooks_resume_grace.
    destruct (H s tr al k (FromRetry None)) as (Hh & Rest); [auto|].
    cbv zeta. rewrite grace_after_retry_skip.
    + split; assumption.
    + destruct Hh as [-> _]. apply andb_false_r.
  - apply H. auto.
Qed.










Lemma answer_success (w w' : World) (t : Z) (call : nat) (o : Outcome (list Item)) :
  step w (At t (BooksAnswer call o)) = Some w' ->
  ~ fetch_failed o ->
  hidden w' /\ handles_cleared w'
  /\ bannerDelayTimer (handles w') = None
  /\ timers w' = drop_held (handles w) (timers w)
  /\ now w' = t.
Proof.
  intros S Ok.
  destruct (step_answer_inv _ _ _ _ _ S) as (Hle & Hdue & c & rest & T & ->).
  unfold fetch_failed in Ok.
  destruct (settle_books o) as [[has m]|data] eqn:E; [destruct Ok; exact I|].
  destruct (fetchBooks_resume_success c o data (set_pending rest (set_now t w)) E)
    as (Hh & Hcl & Hd & Ht & Hn & _).
  repeat split; try apply Hh; try apply Hcl; assumption.
Qed.


(** ** Colour assignment *)

(** The generator as a function of the index: the three hues (in thousandths
    of a degree) and the fixed saturation and lightness of each stop. *)
Lemma gradientFromIndex_hues (i : Z) :
  0 <= i ->
  let hue := (i * 137508) mod 360000 in
  gradientFromIndex i
  = {| g_first := {| stop_hue := hue; stop_saturation := 78; stop_lightness := 64 |};
       g_mid := {| stop_hue := (hue + 22000) mod 360000;
                   stop_saturation := 78; stop_lightness := 56 |};
       g_last := {| stop_hue := (hue + 44000) mod 360000;
                    stop_saturation := 72; stop_lightness := 46 |} |}.
Proof.
  intros Hi hue. unfold gradientFromIndex, GOLDEN_ANGLE, FULL_TURN, BASE_SATURATION,
    BASE_LIGHTNESS, GRADIENT_STEP, degrees.
  assert (E : Z.rem (i * 137508) 360000 = hue).
  { apply Z.rem_mod_nonneg; lia. }
  rewrite E.
  assert (Hh : 0 <= hue < 360000) by (apply Z.mod_pos_bound; lia).
  rewrite !Z.rem_mod_nonneg by lia. reflexivity.
Qed.

(** [assignColors] never touches an id that has a colour. *)
Lemma assignColors_loop_keeps (items : list Item) (i : Z) (m : gmap Z Gradient)
    (id : Z) (g : Gradient) :
  m !! id = Some g -> assignColors_loop items i m !! id = Some g.
Proof.
  revert i m. induction items as [|it items IH]; intros i m H; simpl; [exact H|].
  destruct (m !! item_id it) eqn:E; [apply IH, H|].
  apply IH. rewrite lookup_insert_ne; [exact H|]. congruence.
Qed.

Lemma first_seen_filter (P : Z -> Prop) `{!forall x, Decision (P x)} (l : list Z) :
  first_seen (filter P l) = filter P (first_seen l).
Proof.
  induction l as [|x l IH]; [reflexivity|].
  cbn [first_seen]. rewrite !filter_cons. destruct (decide (P x)) as [Hx|Hx].
  - cbn [first_seen]. rewrite IH. f_equal.
    rewrite !list_filter_filter. apply list_filter_iff. intros y. tauto.
  - rewrite IH. symmetry. apply list_filter_filter_l. intros y Hy. congruence.
Qed.

Lemma new_ids_insert (m : gmap Z Gradient) (x : Z) (g : Gradient) (items : list Item) :
  new_ids (<[x := g]> m) items = filter (fun y => y <> x) (new_ids m items).
Proof.
  unfold new_ids. rewrite <- first_seen_filter. f_equal.
  rewrite list_filter_filter. apply list_filter_iff. intros y.
  destruct (decide (y = x)) as [->|Hne].
  - rewrite lookup_insert_eq. split; [discriminate | tauto].
  - rewrite lookup_insert_ne by congruence. tauto.
Qed.

(** The new ids receive the gradients of consecutive indices in first-seen
    order; every other id keeps what it had. *)
Lemma assignColors_loop_first_seen (items : list Item) (i : Z) (m : gmap Z Gradient) :
  (forall (k : nat) (id : Z),
     new_ids m items !! k = Some id ->
     assignColors_loop items i m !! id = Some (gradientFromIndex (i + Z.of_nat k)))
  /\ (forall id, id ∉ new_ids m items -> assignColors_loop items i m !! id = m !! id).
Proof.
  revert i m. induction items as [|it items IH]; intros i m.
  - split; [intros k id H; discriminate | reflexivity].
  - cbn [assignColors_loop]. unfold new_ids. cbn [map]. rewrite filter_cons.
    destruct (m !! item_id it) as [g|] eqn:E.
    + destruct (decide (Some g = None)) as [?|_]; [discriminate|]. apply IH.
    + destruct (decide (@None Gradient = None)) as [_|?]; [|congruence].
      cbn [first_seen]. fold (new_ids m items).
      rewrite <- (new_ids_insert m (item_id it) (gradientFromIndex i) items).
      destruct (IH (i + 1) (<[item_id it := gradientFromIndex i]> m)) as [IH1 IH2].
      split.
      * intros [|k] id H.
        -- injection H as <-. rewrite Z.add_0_r.
           apply assignColors_loop_keeps, lookup_insert_eq.
        -- cbn in H. rewrite (IH1 k id H). do 2 f_equal. lia.
      * intros id Hid. apply not_elem_of_cons in Hid as [Hne Hid].
        rewrite (IH2 id Hid). apply lookup_insert_ne. congruence.
Qed.

(** The other writers of the colour map: a refreshed list assigns through
    [assignColors], which keeps every existing entry; removing a book deletes
    the entry of that id only. *)
Lemma colour_kept_by_refresh_and_remove (w : World) (id : Z) (g : Gradient) :
  colorMap (shelf w) !! id = Some g ->
  (forall items, colorMap (shelf (assignColors items w)) !! id = Some g)
  /\ (forall id' o, id' <> id ->
        colorMap (shelf (removeBook_resume id' o w)) !! id = Some g).
Proof.
  intros H. split.
  - intros items. apply assignColors_loop_keeps, H.
  - intros id' o Hne. unfold removeBook_resume.
    destruct o as [m|status body]; [exact H|].
    destruct (negb (ok status) && negb (status =? 204)); [exact H|].
    cbv zeta. case_decide; cbn; rewrite lookup_delete_ne by congruence; exact H.
Qed.

(** ** The component run on concrete schedules *)

Ltac run_it := vm_compute; reflexivity.
Ltac conjuncts := cbv zeta; repeat match goal with |- _ /\ _ => split end.

(** C5. Teardown does not cancel the kickoff timeout of [fetchBooks]: after
    mount at 0 ms and unmount at 500 ms that timer is still armed, it fires
    at 1200 ms, shows the banner in the countdown phase, issues a retry and
    arms the countdown interval. *)
Theorem teardown_leaves_kickoff_timer :
  let w := after init teardown_run in
  let w' := after init (teardown_run ++ [Fire 1%nat]) in
  run init teardown_run = Some w
  /\ lifecycle w = Unmounted
  /\ bannerDelayTimer (handles w) = Some 1%nat
  /\ timers w = [{| t_handle := 1; t_due := 1200; t_every := None;
                    t_run := KickoffBanner 0 |}]
  /\ banner w = banner init
  /\ step w (Fire 1%nat) = Some w'
  /\ banner w' = countdown_banner (lit "Unable to load books")
  /\ timers w' = [countdown_timer 2 2200]
  /\ retries_in_flight w' = 1%nat.
Proof. conjuncts; run_it. Qed.

(** C6. A reachable state in which the failed phase is shown while the
    countdown value is not null: a retry of a first banner that is still in
    flight when a second banner starts re-enters the failed phase, from the
    grace callback of the first banner, during the countdown of the second. *)
Theorem failed_phase_with_countdown :
  let w := after init stale_retry_run in
  reachable w
  /\ bannerPhase (banner w) = Failed
  /\ bannerCountdown (banner w) = Some 25
  /\ bannerVisible (banner w) = true
  /\ countdownTimer (handles w) = Some 5%nat
  /\ ~ (bannerCountdown (banner w) <> None -> bannerPhase (banner w) = Countdown).
Proof.
  cbv zeta. split; [exists stale_retry_run; run_it|].
  do 4 (split; [run_it|]).
  intros H. assert (E : bannerPhase (banner (after init stale_retry_run)) = Countdown).
  { apply H. vm_compute. discriminate. }
  vm_compute in E. discriminate.
Qed.

(** C1 is not what the code does for every failing fetch: here every fetch
    fails and the banner starts on the countdown path, yet after 35 ticks
    (25 of the countdown, 10 of the grace interval) the banner is still in
    the grace phase, because the retry issued by the 35th tick has not
    failed yet; the failed phase is entered by an 11th grace tick, 36 s
    after the start. *)
Lemma grace_phase_after_35_ticks :
  let w35 := after kicked_off slow_last_retry in
  let w36 := after kicked_off (slow_last_retry ++ [Fire 3%nat]) in
  banner kicked_off = countdown_banner (lit "Unable to load books")
  /\ now kicked_off = 1200
  /\ run kicked_off slow_last_retry = Some w35
  /\ run_ticks kicked_off slow_last_retry = 35%nat
  /\ bannerPhase (banner w35) = Grace
  /\ now w35 = 1200 + 35000
  /\ step w35 (Fire 3%nat) = Some w36
  /\ bannerPhase (banner w36) = Failed
  /\ now w36 = 1200 + 36000.
Proof. conjuncts; run_it. Qed.


(** C4 is not what the code does for every failing fetch: an initial load
    answered by an HTTP error goes through the countdown; and so does one
    that is rejected without a response only after the 1200 ms kickoff
    timeout has shown the banner. *)
Lemma failing_load_enters_countdown :
  let w := after init [At 0 Mount; At 300 (BooksAnswer 0 http_503)] in
  let v := after kicked_off [At 2000 (BooksAnswer 0 net_error)] in
  run init [At 0 Mount; At 300 (BooksAnswer 0 http_503)] = Some w
  /\ bannerPhase (banner w) = Countdown
  /\ bannerCountdown (banner w) = Some 25
  /\ bannerPhase (banner kicked_off) = Countdown
  /\ run kicked_off [At 2000 (BooksAnswer 0 net_error)] = Some v
  /\ bannerPhase (banner v) = Countdown
  /\ hard_failure net_error.
Proof. conjuncts; try run_it. vm_compute. left. reflexivity. Qed.

(** C9. Saving a new book assigns its id a gradient without looking at the
    colour map: id 1 got the gradient of index 0 when the list was first
    loaded and still has it when the server reuses the id for a new book;
    the answer to the POST replaces it by the gradient of index 2. *)
Theorem created_book_reassigns_gradient :
  let w := after init reused_id_run in
  let w' := after w [reused_id_answer] in
  run init reused_id_run = Some w
  /\ colorMap (shelf w) !! 1 = Some (gradientFromIndex 0)
  /\ colorMap (shelf w) !! 2 = Some (gradientFromIndex 1)
  /\ step w reused_id_answer = Some w'
  /\ colorMap (shelf w') !! 1 = Some (gradientFromIndex 2)
  /\ gradientFromIndex 2 <> gradientFromIndex 0.
Proof. conjuncts; try run_it. vm_compute. discriminate. Qed.

(** ** The theorems applied to concrete runs *)

Ltac all_fail :=
  repeat first [ apply List.Forall_nil
               | apply List.Forall_cons; [vm_compute; exact I|] ].

Lemma kicked_off_started : banner_started 1200 kicked_off.
Proof.
  unfold banner_started, showing, armed, run_calls.
  assert (E : pending kicked_off
              = [(0%nat, ReqBooks (initial_call false));
                 (1%nat, ReqBooks (retry_call None))]) by run_it.
  rewrite E. conjuncts; try run_it.
  - exists 2%nat. conjuncts; run_it.
  - repeat constructor. cbn. exists None. split; reflexivity.
Defined.

Lemma phases_when_no_fetch_succeeds_witness :
  banner_started 1200 kicked_off
  /\ only_failures slow_last_retry
  /\ run kicked_off slow_last_retry = Some (after kicked_off slow_last_retry)
  /\ stage 1200 (run_ticks kicked_off slow_last_retry)
       (after kicked_off slow_last_retry).
Proof.
  assert (H2 : only_failures slow_last_retry) by (unfold only_failures; cbv [slow_last_retry app repeat]; all_fail).
  assert (H3 : run kicked_off slow_last_retry = Some (after kicked_off slow_last_retry))
    by run_it.
  split; [exact kicked_off_started|]. split; [exact H2|]. split; [exact H3|].
  exact (proj1 (phases_when_no_fetch_succeeds 1200 kicked_off _ slow_last_retry
                  kicked_off_started H2 H3)).
Defined.


Lemma one_retry_in_flight_witness :
  run init kickoff_run = Some kicked_off
  /\ (retries_in_flight kicked_off <= 1)%nat.
Proof.
  assert (H : run init kickoff_run = Some kicked_off) by run_it.
  split; [exact H|].
  exact (proj1 (one_retry_in_flight kickoff_run kicked_off H)).
Defined.

Lemma immediate_failure_shortcut_witness :
  let w := after init [At 0 Mount] in
  bannerVisible (banner w) = false
  /\ fetch_failed net_error
  /\ banner (fetchBooks_resume (initial_call true) net_error w)
     = failed_banner (lit "Failed to fetch").
Proof.
  cbv zeta.
  assert (H1 : bannerVisible (banner (after init [At 0 Mount])) = false) by run_it.
  assert (H2 : fetch_failed net_error) by (vm_compute; exact I).
  assert (H3 : hard_failure net_error) by (vm_compute; left; reflexivity).
  split; [exact H1|]. split; [exact H2|].
  exact (proj1 (proj1 (immediate_failure_shortcut _ true net_error H1 H2) H3)).
Defined.

Lemma refresh_takes_countdown_path_witness :
  let w := after init [At 0 Mount; At 100 (BooksAnswer 0 two_books)] in
  let w1 := after w [At 5000 ClickRefresh] in
  step w (At 5000 ClickRefresh) = Some w1
  /\ pending w1 = pending w ++ [(nextCall w, ReqBooks (refresh_call true))].
Proof.
  cbv zeta.
  set (w := after init [At 0 Mount; At 100 (BooksAnswer 0 two_books)]).
  assert (H : step w (At 5000 ClickRefresh) = Some (after w [At 5000 ClickRefresh]))
    by run_it.
  split; [exact H|].
  exact (proj1 (refresh_takes_countdown_path w 5000 _ H)).
Defined.

Lemma removeBook_atomic_witness :
  let w := after init delete_run in
  let e := At 1000 (RemoveAnswer 1 (Responded 500 (inl (lit "Internal Server Error")))) in
  let w' := after w [e] in
  step w e = Some w'
  /\ books (shelf w') = books (shelf w)
  /\ colorMap (shelf w') = colorMap (shelf w).
Proof.
  cbv zeta.
  set (w := after init delete_run).
  set (o := Responded 500 (inl (lit "Internal Server Error")) : Outcome unit).
  set (w' := after w [At 1000 (RemoveAnswer 1 o)]).
  assert (H : step w (At 1000 (RemoveAnswer 1 o)) = Some w') by run_it.
  assert (F : delete_failed o) by (cbn; lia).
  destruct (removeBook_atomic w w' 1000 1 o H) as (id & rest & _ & Hf & _).
  destruct (Hf F) as (B & C & _).
  split; [exact H|]. split; [exact B | exact C].
Defined.

(** * Further properties of the component *)

(** ** The gradient of an index *)

Lemma gradientFromIndex_hue (i : Z) :
  0 <= i -> stop_hue (g_first (gradientFromIndex i)) = (i * 137508) mod 360000.
Proof.
  intros Hi. unfold gradientFromIndex, GOLDEN_ANGLE, FULL_TURN. cbn [g_first stop_hue].
  apply Z.rem_mod_nonneg; lia.
Qed.

(** X1. Two indices less than 30000 apart never give the same gradient: their
    first hues differ. In particular two books that receive consecutive
    indices never share a gradient. *)
Theorem gradientFromIndex_distinct (i j : Z) :
  0 <= i < j -> j - i < 30000 ->
  stop_hue (g_first (gradientFromIndex i)) <> stop_hue (g_first (gradientFromIndex j))
  /\ gradientFromIndex i <> gradientFromIndex j.
Proof.
  intros Hij Hd.
  assert (H : stop_hue (g_first (gradientFromIndex i))
              <> stop_hue (g_first (gradientFromIndex j))).
  { rewrite !gradientFromIndex_hue by lia. intros E.
    assert (D : (360000 | j * 137508 - i * 137508)).
    { apply Z.mod_divide; [lia|]. rewrite Zminus_mod, E, Z.sub_diag. reflexivity. }
    replace (j * 137508 - i * 137508) with (12 * ((j - i) * 11459)) in D by lia.
    change 360000 with (12 * 30000) in D.
    apply Z.mul_divide_cancel_l in D; [|lia].
    rewrite Z.mul_comm in D.
    apply Z.gauss in D; [|reflexivity].
    destruct D as [q Hq]. nia. }
  split; [exact H|]. intros E. apply H. rewrite E. reflexivity.
Qed.


(** ** What [saveBook] sends *)

Lemma trimStart_split (s : ustring) :
  exists pre, s = pre ++ trimStart s /\ whitespace_only pre = true.
Proof.
  induction s as [|c r (pre & E & W)]; [exists []; split; reflexivity|].
  cbn [trimStart]. destruct (is_space c) eqn:S.
  - exists (c :: pre). split; [cbn [app]; f_equal; exact E | cbn; rewrite S; exact W].
  - exists []. split; reflexivity.
Qed.

Lemma trimEnd_split (s : ustring) :
  exists post, s = trimEnd s ++ post /\ whitespace_only post = true.
Proof.
  induction s as [|c r (post & E & W)]; [exists []; split; reflexivity|].
  cbn [trimEnd]. destruct (trimEnd r) as [|c' r'] eqn:T.
  - destruct (is_space c) eqn:S.
    + exists (c :: r). split; [reflexivity|]. cbn. rewrite S.
      apply trimEnd_empty, T.
    + exists post. split; [|exact W]. cbn [app]. f_equal. exact E.
  - exists post. split; [|exact W]. cbn [app]. f_equal. exact E.
Qed.

Lemma trimStart_first (s : ustring) (c : N) :
  head (trimStart s) = Some c -> is_space c = false.
Proof.
  induction s as [|a r IH]; [discriminate|]. cbn [trimStart].
  destruct (is_space a) eqn:S; [exact IH|]. cbn. congruence.
Qed.

Lemma trimEnd_first (s : ustring) (c : N) :
  head (trimEnd s) = Some c -> head s = Some c.
Proof.
  destruct s as [|a r]; [discriminate|]. cbn [trimEnd].
  destruct (trimEnd r); [destruct (is_space a)|]; cbn; congruence.
Qed.

Lemma trimEnd_last (s : ustring) (c : N) :
  last (trimEnd s) = Some c -> is_space c = false.
Proof.
  induction s as [|a r IH]; [discriminate|]. cbn [trimEnd].
  destruct (trimEnd r) as [|c' r'] eqn:T.
  - destruct (is_space a) eqn:S; [discriminate|]. cbn. congruence.
  - cbn [last]. exact IH.
Qed.

Lemma head_some (s : ustring) : s <> [] -> exists c, head s = Some c.
Proof. destruct s as [|c r]; [congruence|]. intros _. exists c. reflexivity. Qed.

Lemma last_some (s : ustring) : s <> [] -> exists c, last s = Some c.
Proof.
  induction s as [|c r IH]; [congruence|]. intros _. destruct r as [|c' r'].
  - exists c. reflexivity.
  - destruct IH as [b Hb]; [discriminate|]. exists b. exact Hb.
Qed.

(** X2. When the title is not blank, [saveBook] sends exactly one request. The
    name it carries is the title without its leading and trailing white space
    (white space inside the title is kept): it is not empty and neither starts
    nor ends with a white-space unit. The request is a PATCH of the book being
    edited, or a POST. The title field itself is left as typed. *)
Theorem saveBook_sends_trimmed_title (w : World) :
  whitespace_only (formName (shelf w)) = false ->
  let name := trim (formName (shelf w)) in
  let isEditing := is_editing (editingId (shelf w)) in
  pending (saveBook w)
  = pending w ++ [(nextCall w,
                   ReqSave isEditing (if isEditing then editingId (shelf w) else None) name)]
  /\ nextCall (saveBook w) = S (nextCall w)
  /\ (exists pre post, formName (shelf w) = pre ++ name ++ post
        /\ whitespace_only pre = true /\ whitespace_only post = true)
  /\ (exists a b, head name = Some a /\ is_space a = false
        /\ last name = Some b /\ is_space b = false)
  /\ formName (shelf (saveBook w)) = formName (shelf w)
  /\ editingId (shelf (saveBook w)) = editingId (shelf w)
  /\ books (shelf (saveBook w)) = books (shelf w)
  /\ colorMap (shelf (saveBook w)) = colorMap (shelf w).
Proof.
  intros H name isEditing.
  assert (N : name <> []).
  { intros E. apply trim_blank_iff in E. congruence. }
  assert (T : truthy_string name = true) by (destruct name; [congruence | reflexivity]).
  assert (E : saveBook w
              = issue (ReqSave isEditing (if isEditing then editingId (shelf w) else None) name)
                  (setMessage (if isEditing then lit "Updating that book note..."
                               else lit "Adding a new book to the shelf...") w)).
  { unfold saveBook. fold name. rewrite T. reflexivity. }
  rewrite E. split; [reflexivity|]. split; [reflexivity|]. split; [|split].
  - destruct (trimStart_split (formName (shelf w))) as (pre & E1 & W1).
    destruct (trimEnd_split (trimStart (formName (shelf w)))) as (post & E2 & W2).
    exists pre, post. split; [|split; assumption].
    rewrite E1 at 1. rewrite E2 at 1. reflexivity.
  - destruct (head_some name N) as [a Ha].
    destruct (last_some name N) as [b Hb].
    exists a, b. split; [exact Ha|]. split.
    + apply (trimStart_first (formName (shelf w))), trimEnd_first, Ha.
    + split; [exact Hb|]. apply (trimEnd_last _ _ Hb).
  - repeat split.
Qed.

(** ** The API address *)

Lemma strip_trailing_slash_snoc (b : ustring) : strip_trailing_slash (b ++ [slash]) = b.
Proof.
  induction b as [|c r IH]; [reflexivity|].
  cbn [app strip_trailing_slash]. rewrite IH.
  destruct r; reflexivity.
Qed.

Lemma strip_trailing_slash_keeps (b : ustring) :
  last b <> Some slash -> strip_trailing_slash b = b.
Proof.
  induction b as [|c r IH]; [reflexivity|]. cbn [strip_trailing_slash].
  destruct r as [|c' r'].
  - cbn. intros H. destruct (N.eqb_spec c slash); [congruence | reflexivity].
  - intros H. rewrite (IH H). reflexivity.
Qed.

(** X3. The base address loses a slash at its end, and only one: a configured
    address with one trailing slash and the same address without it give the
    same [apiUrl], an address ending in two slashes keeps one, and with the
    variable unset the requests go to the relative address [/items]. *)
Theorem apiBaseUrl_strips_one_slash (b : ustring) :
  apiBaseUrl (Some (b ++ [slash])) = b
  /\ apiUrl (Some (b ++ [slash])) = b ++ lit "/items"
  /\ (last b <> Some slash ->
      apiBaseUrl (Some b) = b /\ apiUrl (Some (b ++ [slash])) = apiUrl (Some b))
  /\ apiBaseUrl (Some (b ++ [slash; slash])) = b ++ [slash]
  /\ apiUrl None = lit "/items"
  /\ apiUrl (Some []) = lit "/items".
Proof.
  assert (B : forall s, apiBaseUrl (Some s) = strip_trailing_slash s) by reflexivity.
  unfold apiUrl. rewrite !B, strip_trailing_slash_snoc.
  split; [reflexivity|]. split; [reflexivity|]. split.
  - intros H. rewrite (strip_trailing_slash_keeps b H). split; reflexivity.
  - split; [|split; reflexivity].
    replace (b ++ [slash; slash]) with ((b ++ [slash]) ++ [slash])
      by (rewrite <- app_assoc; reflexivity).
    apply strip_trailing_slash_snoc.
Qed.

(** ** Colour assignment, continued *)

Lemma assignColors_loop_covers (items : list Item) (i : Z) (m : gmap Z Gradient) (b : Item) :
  b ∈ items -> is_Some (assignColors_loop items i m !! item_id b).
Proof.
  revert i m. induction items as [|it items IH]; intros i m Hb.
  - apply elem_of_nil in Hb. destruct Hb.
  - cbn [assignColors_loop]. apply elem_of_cons in Hb as [->|Hb].
    + destruct (m !! item_id it) as [g|] eqn:E.
      * exists g. apply assignColors_loop_keeps, E.
      * eexists. apply assignColors_loop_keeps, lookup_insert_eq.
    + destruct (m !! item_id it); apply IH, Hb.
Qed.

Lemma assignColors_loop_domain (items : list Item) (i : Z) (m : gmap Z Gradient) (id : Z) :
  is_Some (assignColors_loop items i m !! id) ->
  is_Some (m !! id) \/ id ∈ map item_id items.
Proof.
  revert i m. induction items as [|it items IH]; intros i m H; [left; exact H|].
  cbn [assignColors_loop] in H. cbn [map]. destruct (m !! item_id it) eqn:E.
  - destruct (IH _ _ H) as [?|?]; [left; assumption | right; apply elem_of_cons; auto].
  - destruct (IH _ _ H) as [H'|?]; [|right; apply elem_of_cons; auto].
    destruct (decide (id = item_id it)) as [->|Hne].
    + right. apply elem_of_cons. auto.
    + left. rewrite lookup_insert_ne in H' by congruence. exact H'.
Qed.

Lemma new_ids_cons_new (m : gmap Z Gradient) (it : Item) (items : list Item) :
  m !! item_id it = None ->
  new_ids m (it :: items) = item_id it :: filter (fun y => y <> item_id it) (new_ids m items).
Proof.
  intros E. unfold new_ids. cbn [map]. rewrite filter_cons.
  destruct (decide (m !! item_id it = None)) as [_|?]; [|congruence]. reflexivity.
Qed.

Lemma new_ids_cons_old (m : gmap Z Gradient) (it : Item) (items : list Item) (g : Gradient) :
  m !! item_id it = Some g -> new_ids m (it :: items) = new_ids m items.
Proof.
  intros E. unfold new_ids. cbn [map]. rewrite filter_cons.
  destruct (decide (m !! item_id it = None)) as [?|_]; [congruence|]. reflexivity.
Qed.

Lemma assignColors_loop_size (items : list Item) (i : Z) (m : gmap Z Gradient) :
  size (assignColors_loop items i m) = (size m + List.length (new_ids m items))%nat.
Proof.
  revert i m. induction items as [|it items IH]; intros i m.
  - cbn. lia.
  - cbn [assignColors_loop]. destruct (m !! item_id it) as [g|] eqn:E.
    + rewrite (new_ids_cons_old m it items g E). apply IH.
    + rewrite (new_ids_cons_new m it items E), IH.
      rewrite map_size_insert_None by exact E.
      rewrite new_ids_insert. cbn [List.length]. lia.
Qed.

Lemma assignColors_loop_app (l1 l2 : list Item) (i : Z) (m : gmap Z Gradient) :
  assignColors_loop (l1 ++ l2) i m
  = assignColors_loop l2 (i + Z.of_nat (List.length (new_ids m l1))) (assignColors_loop l1 i m).
Proof.
  revert i m. induction l1 as [|it l1 IH]; intros i m.
  - cbn. rewrite Z.add_0_r. reflexivity.
  - cbn [app assignColors_loop]. destruct (m !! item_id it) as [g|] eqn:E.
    + rewrite (new_ids_cons_old m it l1 g E). apply IH.
    + rewrite (new_ids_cons_new m it l1 E), IH, new_ids_insert. cbn [List.length].
      f_equal. lia.
Qed.

Lemma assignColors_loop_fixed (items : list Item) (i : Z) (m : gmap Z Gradient) :
  (forall b, b ∈ items -> is_Some (m !! item_id b)) ->
  assignColors_loop items i m = m.
Proof.
  induction items as [|it items IH]; intros H; [reflexivity|].
  cbn [assignColors_loop]. destruct (H it) as [g ->]; [apply elem_of_cons; auto|].
  apply IH. intros b Hb. apply H, elem_of_cons. auto.
Qed.

Lemma set_colorMap_same (w : World) :
  upd_shelf (set_colorMap (colorMap (shelf w))) w = w.
Proof. destruct w as [[bk cm fn ed sm ld] bn hd sl nw tm nh pd nc lc]. reflexivity. Qed.

Lemma assignColors_twice (m1 m2 : gmap Z Gradient) (w : World) :
  upd_shelf (set_colorMap m2) (upd_shelf (set_colorMap m1) w) = upd_shelf (set_colorMap m2) w.
Proof. destruct w as [[bk cm fn ed sm ld] bn hd sl nw tm nh pd nc lc]. reflexivity. Qed.

(** X4. [assignColors] gives every item of the list a colour and adds an entry for
    no other id. The next free index advances by the number of distinct new
    ids, so the running index of a call continues where the previous call
    stopped: colouring two lists one after the other is colouring their
    concatenation, and colouring the same list again changes nothing. *)
Theorem assignColors_covers_once (items : list Item) (w : World) :
  let w' := assignColors items w in
  (forall b, b ∈ items -> is_Some (colorMap (shelf w') !! item_id b))
  /\ (forall id, is_Some (colorMap (shelf w') !! id) ->
        is_Some (colorMap (shelf w) !! id) \/ id ∈ map item_id items)
  /\ nextColorIndex w'
     = nextColorIndex w + Z.of_nat (List.length (new_ids (colorMap (shelf w)) items))
  /\ (forall more, assignColors more w' = assignColors (items ++ more) w)
  /\ assignColors items w' = w'.
Proof.
  intros w'. subst w'. unfold assignColors, nextColorIndex.
  cbn [shelf colorMap upd_shelf set_colorMap].
  assert (C : forall b, b ∈ items ->
            is_Some (assignColors_loop items (Z.of_nat (size (colorMap (shelf w))))
                       (colorMap (shelf w)) !! item_id b))
    by (intros b; apply assignColors_loop_covers).
  split; [exact C|]. split; [intros id; apply assignColors_loop_domain|].
  split; [rewrite assignColors_loop_size; lia|]. split.
  - intros more. rewrite assignColors_twice, assignColors_loop_app, assignColors_loop_size.
    do 3 f_equal. lia.
  - rewrite assignColors_twice. f_equal. f_equal. apply assignColors_loop_fixed, C.
Qed.

(** ** Adding, removing and editing books *)

Lemma saveBook_resume_created (st : Z) (data : Item) (w : World) :
  ok st = true ->
  saveBook_resume false (Responded st (inr data)) w
  = resetForm
      (setMessage (dquote ++ item_name data ++ dquote
                   ++ lit " added. Keep the reading streak alive!")
         (upd_shelf (set_colorMap (<[item_id data := gradientFromIndex (nextColorIndex w)]>
                                     (colorMap (shelf w))))
            (upd_shelf (set_books (books (shelf w) ++ [data])) w))).
Proof. intros H. unfold saveBook_resume. rewrite H. reflexivity. Qed.

Lemma removeBook_resume_removed (st : Z) (body : ustring + unit) (id : Z) (w : World) :
  ok st = true \/ st = 204 ->
  let w' := removeBook_resume id (Responded st body) w in
  books (shelf w') = filter (fun book => item_id book <> id) (books (shelf w))
  /\ colorMap (shelf w') = delete id (colorMap (shelf w))
  /\ editingId (shelf w')
     = (if decide (editingId (shelf w) = Some id) then None else editingId (shelf w))
  /\ formName (shelf w')
     = (if decide (editingId (shelf w) = Some id) then [] else formName (shelf w))
  /\ statusMessage (shelf w') = lit "Book removed. Shelf is a little lighter now."
  /\ loading (shelf w') = loading (shelf w)
  /\ banner w' = banner w /\ handles w' = handles w /\ timers w' = timers w
  /\ pending w' = pending w /\ nextCall w' = nextCall w.
Proof.
  intros H. assert (E : negb (ok st) && negb (st =? 204) = false).
  { destruct H as [-> | ->]; [reflexivity|]. apply andb_false_r. }
  cbv zeta. unfold removeBook_resume. rewrite E.
  destruct w as [[bk cm fn ed sm ld] bn hd sl nw tm nh pd nc lc].
  cbn [shelf editingId upd_shelf set_books set_colorMap setMessage set_statusMessage].
  destruct (decide (ed = Some id)); repeat split.
Qed.

Lemma filter_keeps_absent (id : Z) (l : list Item) :
  id ∉ map item_id l -> filter (fun book => item_id book <> id) l = l.
Proof.
  induction l as [|b l IH]; [reflexivity|]. cbn [map]. intros H.
  apply not_elem_of_cons in H as [Hne Hl].
  rewrite filter_cons. destruct (decide (item_id b <> id)) as [_|N].
  - rewrite (IH Hl). reflexivity.
  - exfalso. apply N. congruence.
Qed.

(** X5. Adding a book and then removing it gives back the list and the colour
    assignments there were, provided the id the server chose was not in use;
    the next free colour index is back where it was. *)
Theorem create_then_remove_restores (w : World) (data : Item) (st st' : Z)
    (body : ustring + unit) :
  ok st = true -> ok st' = true \/ st' = 204 ->
  item_id data ∉ map item_id (books (shelf w)) ->
  colorMap (shelf w) !! item_id data = None ->
  let w1 := saveBook_resume false (Responded st (inr data)) w in
  let w2 := removeBook_resume (item_id data) (Responded st' body) w1 in
  books (shelf w1) = books (shelf w) ++ [data]
  /\ colorMap (shelf w1) !! item_id data = Some (gradientFromIndex (nextColorIndex w))
  /\ books (shelf w2) = books (shelf w)
  /\ colorMap (shelf w2) = colorMap (shelf w)
  /\ nextColorIndex w2 = nextColorIndex w.
Proof.
  intros Hst Hst' Hb Hc w1 w2.
  destruct (removeBook_resume_removed st' body (item_id data) w1 Hst')
    as (B & C & _). fold w2 in B, C.
  assert (B1 : books (shelf w1) = books (shelf w) ++ [data]).
  { subst w1. rewrite (saveBook_resume_created st data w Hst).
    destruct w as [[bk cm fn ed sm ld] bn hd sl nw tm nh pd nc lc]. reflexivity. }
  assert (C1 : colorMap (shelf w1)
               = <[item_id data := gradientFromIndex (nextColorIndex w)]> (colorMap (shelf w))).
  { subst w1. rewrite (saveBook_resume_created st data w Hst).
    destruct w as [[bk cm fn ed sm ld] bn hd sl nw tm nh pd nc lc]. reflexivity. }
  assert (C2 : colorMap (shelf w2) = colorMap (shelf w)).
  { rewrite C, C1. apply delete_insert_id. exact Hc. }
  split; [exact B1|]. split; [rewrite C1; apply lookup_insert_eq|].
  split; [|split; [exact C2|]].
  - rewrite B, B1, filter_app, (filter_keeps_absent _ _ Hb).
    rewrite filter_cons. destruct (decide (item_id data <> item_id data)); [congruence|].
    rewrite filter_nil. apply app_nil_r.
  - unfold nextColorIndex. rewrite C2. reflexivity.
Qed.

(** X6. Removing a book does not free its colour index for good: the next new book
    receives the index that equals the number of entries left, which is the
    index the most recently coloured book still holds. After a delete and a
    create, two different books of the shelf show the same gradient. *)
Theorem gradient_shared_after_delete (w : World) (d k : Z) (data : Item) (st st' : Z)
    (body : ustring + unit) :
  ok st = true \/ st = 204 -> ok st' = true ->
  is_Some (colorMap (shelf w) !! d) ->
  colorMap (shelf w) !! k = Some (gradientFromIndex (nextColorIndex w - 1)) ->
  d <> k -> item_id data <> k ->
  let w1 := removeBook_resume d (Responded st body) w in
  let w2 := saveBook_resume false (Responded st' (inr data)) w1 in
  colorMap (shelf w2) !! k = Some (gradientFromIndex (nextColorIndex w - 1))
  /\ colorMap (shelf w2) !! item_id data = Some (gradientFromIndex (nextColorIndex w - 1)).
Proof.
  intros Hst Hst' [gd Hd] Hk Hdk Hnk w1 w2.
  destruct (removeBook_resume_removed st body d w Hst) as (_ & C & _). fold w1 in C.
  assert (N : nextColorIndex w1 = nextColorIndex w - 1).
  { unfold nextColorIndex. rewrite C.
    rewrite map_size_delete_Some by (exists gd; exact Hd).
    assert (size (colorMap (shelf w)) <> 0%nat).
    { intros Z0. apply map_size_empty_inv in Z0. rewrite Z0 in Hd.
      rewrite lookup_empty in Hd. discriminate. }
    lia. }
  assert (C2 : colorMap (shelf w2)
               = <[item_id data := gradientFromIndex (nextColorIndex w - 1)]>
                   (delete d (colorMap (shelf w)))).
  { subst w2. rewrite (saveBook_resume_created st' data w1 Hst'), N, <- C.
    destruct w1 as [[bk cm fn ed sm ld] bn hd sl nw tm nh pd nc lc]. reflexivity. }
  rewrite C2. split.
  - rewrite lookup_insert_ne by congruence. rewrite lookup_delete_ne by congruence. exact Hk.
  - apply lookup_insert_eq.
Qed.

(** X7. A book whose id is 0 cannot be edited: [Boolean(editingId.value)] is false
    for it, so after [startEdit] the cancel button stays disabled, saving
    sends a POST and not a PATCH, and the answer is appended to the list as a
    new book while the book with id 0 stays as it was. *)
Theorem edit_of_id_zero_posts (book : Item) (w : World) (st : Z) (data : Item) :
  item_id book = 0 -> whitespace_only (item_name book) = false -> ok st = true ->
  let w1 := startEdit book w in
  let w2 := saveBook w1 in
  let w3 := saveBook_resume false (Responded st (inr data)) w2 in
  editingId (shelf w1) = Some 0
  /\ act ClickCancelEdit w1 = None
  /\ pending w2 = pending w ++ [(nextCall w, ReqSave false None (trim (item_name book)))]
  /\ request_method (ReqSave false None (trim (item_name book))) = "POST"
  /\ books (shelf w3) = books (shelf w) ++ [data]
  /\ editingId (shelf w3) = None.
Proof.
  intros Hid Hname Hst w1 w2 w3.
  assert (T : truthy_string (trim (item_name book)) = true).
  { destruct (trim (item_name book)) eqn:E; [|reflexivity].
    apply trim_blank_iff in E. congruence. }
  assert (E1 : editingId (shelf w1) = Some 0) by (subst w1; cbn; congruence).
  assert (F1 : formName (shelf w1) = item_name book) by reflexivity.
  assert (P1 : pending w1 = pending w /\ nextCall w1 = nextCall w
               /\ books (shelf w1) = books (shelf w)) by (repeat split).
  destruct P1 as (P1 & N1 & B1). clearbody w1.
  assert (E2 : w2 = issue (ReqSave false None (trim (item_name book)))
                      (setMessage (lit "Adding a new book to the shelf...") w1)).
  { subst w2. unfold saveBook. rewrite F1, T, E1. reflexivity. }
  split; [exact E1|]. split.
  { unfold act. rewrite E1. cbn [is_editing Z.eqb negb]. rewrite andb_false_r. reflexivity. }
  split; [rewrite E2; cbn; rewrite P1, N1; reflexivity|].
  split; [reflexivity|].
  subst w3. rewrite (saveBook_resume_created st data w2 Hst), E2.
  destruct w1 as [[bk cm fn ed sm ld] bn hd sl nw tm nh pd nc lc].
  cbn in B1. subst bk. split; reflexivity.
Qed.

(** X8. After a book has been removed the form is never left editing it: if it was
    being edited, the form is reset; the editing of another book and the title
    typed for it are untouched. *)
Theorem removed_book_leaves_edit_mode (w : World) (id : Z) (st : Z) (body : ustring + unit) :
  ok st = true \/ st = 204 ->
  let w' := removeBook_resume id (Responded st body) w in
  editingId (shelf w') <> Some id
  /\ (id ∉ map item_id (books (shelf w')))
  /\ colorMap (shelf w') !! id = None
  /\ (editingId (shelf w) = Some id ->
      editingId (shelf w') = None /\ formName (shelf w') = [])
  /\ (editingId (shelf w) <> Some id ->
      editingId (shelf w') = editingId (shelf w) /\ formName (shelf w') = formName (shelf w)).
Proof.
  intros Hst w'.
  destruct (removeBook_resume_removed st body id w Hst) as (B & C & E & F & _).
  fold w' in B, C, E, F. rewrite B, C, E, F.
  split; [destruct (decide (editingId (shelf w) = Some id)); congruence|].
  split.
  { intros H. apply list_elem_of_fmap in H as (b & Hb & Hin).
    apply list_elem_of_filter in Hin as [Hne _]. congruence. }
  split; [apply lookup_delete_eq|].
  split; intros H; destruct (decide (editingId (shelf w) = Some id)); try congruence;
    split; reflexivity.
Qed.

(** ** Invariants of the event loop *)

Lemma step_invariant (P : World -> Prop) :
  (forall t w, P w -> P (set_now t w)) ->
  (forall w x, P w -> x ∈ timers w -> earliest (timers w) = Some x ->
     P (run_callback (t_run x)
          (set_timers (match t_every x with
                       | Some p => rearm (t_handle x) p (timers w)
                       | None => drop_timer (t_handle x) (timers w)
                       end) w))) ->
  (forall w a w', P w -> act a w = Some w' -> P w') ->
  forall w e w', step w e = Some w' -> P w -> P w'.
Proof.
  intros Hnow Hfire Hact w e w' S Pw. destruct e as [h|t a]; simpl in S.
  - destruct (earliest (timers w)) as [x|] eqn:E; [|discriminate].
    destruct (Nat.eqb (t_handle x) h) eqn:Eh; [|discriminate].
    destruct (now w <=? t_due x); [|discriminate]. simpl in S.
    injection S as <-. apply Nat.eqb_eq in Eh. subst h.
    apply (Hfire (set_now (t_due x) w) x).
    + apply Hnow, Pw.
    + clear -E. change (timers (set_now (t_due x) w)) with (timers w).
      revert x E. induction (timers w) as [|y r IH]; intros x E; [discriminate|].
      simpl in E. destruct (earliest r) as [z|].
      * destruct (t_due z <? t_due y); injection E as <-.
        -- apply list_elem_of_further, IH. reflexivity.
        -- apply list_elem_of_here.
      * injection E as <-. apply list_elem_of_here.
    + exact E.
  - destruct (_ && _); [|discriminate].
    apply (Hact (set_now t w) a w'); [apply Hnow, Pw | exact S].
Qed.

Lemma reachable_invariant (P : World -> Prop) :
  P init ->
  (forall w e w', step w e = Some w' -> P w -> P w') ->
  forall w, reachable w -> P w.
Proof.
  intros Hi Hs w [evs R]. revert R. generalize init Hi. clear Hi.
  induction evs as [|e evs IH]; intros v Pv; simpl.
  - intros [= <-]. exact Pv.
  - destruct (step v e) as [v1|] eqn:S; [|discriminate].
    apply IH. exact (Hs _ _ _ S Pv).
Qed.

Lemma reachable_step (w w' : World) (e : Event) :
  reachable w -> step w e = Some w' -> reachable w'.
Proof.
  intros [evs R] S. exists (evs ++ [e]). revert R. generalize init.
  induction evs as [|a evs IH]; intros v; simpl.
  - intros [= ->]. rewrite S. reflexivity.
  - destruct (step v a); [apply IH | discriminate].
Qed.

(** ** The intervals of the banner *)

Lemma drop_timer_elem (h : nat) (l : list Timer) (x : Timer) :
  x ∈ drop_timer h l -> x ∈ l /\ t_handle x <> h.
Proof.
  induction l as [|y l IH]; simpl; [intros H; apply elem_of_nil in H; destruct H|].
  destruct (Nat.eqb_spec (t_handle y) h) as [E|N].
  - intros H. destruct (IH H). split; [apply list_elem_of_further|]; assumption.
  - intros H. apply elem_of_cons in H as [->|H].
    + split; [apply list_elem_of_here | exact N].
    + destruct (IH H). split; [apply list_elem_of_further|]; assumption.
Qed.

Lemma Forall_drop_timer (P : Timer -> Prop) (h : nat) (l : list Timer) :
  Forall P l -> Forall P (drop_timer h l).
Proof.
  intros H. apply Forall_forall. intros x Hx.
  apply drop_timer_elem in Hx as [Hx _]. revert x Hx. apply Forall_forall, H.
Qed.

Lemma Forall_drop_opt (P : Timer -> Prop) (h : option nat) (l : list Timer) :
  Forall P l -> Forall P (drop_opt h l).
Proof. destruct h; [apply Forall_drop_timer | exact id]. Qed.

Lemma intervals_drop_timer (h : nat) (l : list Timer) :
  (List.length (intervals (drop_timer h l)) <= List.length (intervals l))%nat.
Proof.
  induction l as [|y l IH]; simpl; [lia|].
  destruct (Nat.eqb (t_handle y) h); simpl; destruct (is_interval y); simpl; lia.
Qed.

Lemma intervals_drop_opt (h : option nat) (l : list Timer) :
  (List.length (intervals (drop_opt h l)) <= List.length (intervals l))%nat.
Proof. destruct h; [apply intervals_drop_timer | simpl; lia]. Qed.

Lemma intervals_snoc (l : list Timer) (x : Timer) :
  intervals (l ++ [x]) = intervals l ++ (if is_interval x then [x] else []).
Proof. unfold intervals. rewrite List.filter_app. reflexivity. Qed.

Lemma quiet_intervals (l : list Timer) : quiet l -> intervals l = [].
Proof.
  induction 1 as [|x l H _ IH]; [reflexivity|]. simpl. rewrite H. exact IH.
Qed.

Lemma quiet_held (hd : Handles) (l : list Timer) : quiet l -> Forall (held hd) l.
Proof.
  apply List.Forall_impl. intros x. unfold is_interval, held.
  destruct (t_run x); (discriminate || trivial).
Qed.

Lemma held_drop (hd : Handles) (h : nat) (l : list Timer) :
  Forall (held hd) l ->
  countdownTimer hd = Some h \/ graceTimer hd = Some h ->
  quiet (drop_timer h l).
Proof.
  intros H Hh. apply Forall_forall. intros x Hx.
  apply drop_timer_elem in Hx as [Hx Hne].
  assert (Hd : held hd x) by (apply (proj1 (Forall_forall _ _) H), Hx).
  unfold held in Hd. unfold is_interval.
  destruct (t_run x); try reflexivity; destruct Hd as [A B]; destruct Hh; congruence.
Qed.

Lemma held_none (hd : Handles) (l : list Timer) :
  Forall (held hd) l -> countdownTimer hd = None -> graceTimer hd = None -> quiet l.
Proof.
  intros H C G. revert H. apply List.Forall_impl. intros x. unfold held, is_interval.
  destruct (t_run x); try reflexivity; intros [A B]; congruence.
Qed.

(** Once the countdown and the grace handle have been cleared, no interval
    is armed. *)
Lemma held_cleared (hd : Handles) (l : list Timer) :
  Forall (held hd) l ->
  quiet (drop_opt (graceTimer hd) (drop_opt (countdownTimer hd) l)).
Proof.
  intros H. destruct (countdownTimer hd) as [c|] eqn:C.
  - apply Forall_drop_opt. apply (held_drop hd); auto.
  - destruct (graceTimer hd) as [g|] eqn:G.
    + apply (held_drop hd); auto.
    + apply (held_none hd); assumption.
Qed.

Lemma held_frame (hd hd' : Handles) (l : list Timer) :
  countdownTimer hd' = countdownTimer hd -> graceTimer hd' = graceTimer hd ->
  Forall (held hd) l -> Forall (held hd') l.
Proof.
  intros C G. apply List.Forall_impl. intros x. unfold held. rewrite C, G. exact id.
Qed.

Lemma rearm_held (hd : Handles) (h : nat) (p : Z) (l : list Timer) :
  Forall (held hd) l -> Forall (held hd) (rearm h p l).
Proof.
  intros H. unfold rearm. apply Forall_fmap. revert H. apply List.Forall_impl.
  intros x Hx. simpl. destruct (Nat.eqb (t_handle x) h); exact Hx.
Qed.

Lemma rearm_intervals (h : nat) (p : Z) (l : list Timer) :
  List.length (intervals (rearm h p l)) = List.length (intervals l).
Proof.
  induction l as [|x l IH]; [reflexivity|]. simpl.
  assert (E : is_interval (if Nat.eqb (t_handle x) h
                           then {| t_handle := t_handle x; t_due := t_due x + p;
                                   t_every := t_every x; t_run := t_run x |}
                           else x) = is_interval x)
    by (destruct (Nat.eqb (t_handle x) h); reflexivity).
  rewrite E. destruct (is_interval x); simpl; rewrite IH; reflexivity.
Qed.

Lemma rearm_elem (h : nat) (p : Z) (l : list Timer) (x : Timer) :
  x ∈ l -> exists y, y ∈ rearm h p l /\ t_run y = t_run x /\ t_handle y = t_handle x.
Proof.
  intros Hx. unfold rearm.
  eexists. split; [apply list_elem_of_fmap_2, Hx|].
  destruct (Nat.eqb (t_handle x) h); split; reflexivity.
Qed.

Lemma quiet_snoc (l : list Timer) (x : Timer) :
  quiet l -> is_interval x = false -> quiet (l ++ [x]).
Proof. intros H Hx. apply Forall_app. split; [exact H | repeat constructor; exact Hx]. Qed.

(** The invariant once the banner's part of the state is known to be without
    intervals. *)
Lemma banner_inv_quiet (w : World) :
  quiet (timers w) ->
  (bannerVisible (banner w) = false -> hidden w /\ handles_cleared w) ->
  countdown_in_range (banner w) ->
  banner_inv w.
Proof.
  intros Q V R. split; [apply quiet_held, Q|]. split; [|split; assumption].
  rewrite (quiet_intervals _ Q). simpl. lia.
Qed.

Lemma banner_inv_frame (w w' : World) :
  banner w' = banner w -> handles w' = handles w -> timers w' = timers w ->
  banner_inv w -> banner_inv w'.
Proof.
  unfold banner_inv, hidden, handles_cleared. intros -> -> ->. exact id.
Qed.

Lemma clearBannerTimers_view (w : World) :
  banner (clearBannerTimers w) = banner w
  /\ handles_cleared (clearBannerTimers w)
  /\ timers (clearBannerTimers w)
     = drop_opt (finalTimer (handles w))
         (drop_opt (graceTimer (handles w))
            (drop_opt (countdownTimer (handles w)) (timers w))).
Proof.
  destruct w as [sh bn [d c g f i] sl nw tm nh pd nc lc].
  unfold handles_cleared. destruct c, g, f; repeat split.
Qed.

Lemma clearBannerTimers_quiet (w : World) :
  banner_inv w -> quiet (timers (clearBannerTimers w)).
Proof.
  intros (H & _). destruct (clearBannerTimers_view w) as (_ & _ & ->).
  apply Forall_drop_opt, held_cleared, H.
Qed.

Lemma clearBannerTimers_inv (w : World) : banner_inv w -> banner_inv (clearBannerTimers w).
Proof.
  intros I. apply banner_inv_quiet; [apply clearBannerTimers_quiet, I| |].
  - destruct (clearBannerTimers_view w) as (B & C & _). unfold hidden. rewrite B.
    intros V. split; [|exact C]. destruct I as (_ & _ & Hh & _). apply (Hh V).
  - destruct (clearBannerTimers_view w) as (-> & _). apply I.
Qed.

Lemma hideBanner_view (w : World) :
  timers (hideBanner w) = timers (clearBannerTimers w)
  /\ bannerCountdown (banner (hideBanner w)) = None.
Proof.
  destruct w as [sh bn [d c g f i] sl nw tm nh pd nc lc].
  destruct c, g, f; split; reflexivity.
Qed.

Lemma hideBanner_inv (w : World) : banner_inv w -> banner_inv (hideBanner w).
Proof.
  intros I. destruct (hideBanner_view w) as (T & C).
  apply banner_inv_quiet.
  - rewrite T. apply clearBannerTimers_quiet, I.
  - intros _. apply hideBanner_hidden.
  - unfold countdown_in_range. rewrite C. exact Logic.I.
Qed.

(** Code that leaves the banner and the three handles alone, and only drops
    a timer or arms timers that are not intervals. *)
Lemma banner_inv_weaken (w w' : World) (h : option nat) (extra : list Timer) :
  banner w' = banner w ->
  countdownTimer (handles w') = countdownTimer (handles w) ->
  graceTimer (handles w') = graceTimer (handles w) ->
  finalTimer (handles w') = finalTimer (handles w) ->
  timers w' = drop_opt h (timers w) ++ extra -> quiet extra ->
  banner_inv w -> banner_inv w'.
Proof.
  intros B C G F T Q (H & L & V & R). unfold banner_inv, hidden, handles_cleared.
  rewrite B, C, G, F, T. split; [|split; [|split; assumption]].
  - apply Forall_app. split.
    + apply Forall_drop_opt. revert H. apply held_frame; congruence.
    + revert Q. apply List.Forall_impl. intros x. unfold is_interval, held.
      destruct (t_run x); (discriminate || trivial).
  - unfold intervals. rewrite List.filter_app, List.length_app.
    fold (intervals extra). rewrite (quiet_intervals _ Q).
    pose proof (intervals_drop_opt h (timers w)). unfold intervals in *. simpl. lia.
Qed.

Lemma banner_inv_same (w w' : World) :
  banner w' = banner w -> handles w' = handles w -> timers w' = timers w ->
  banner_inv w -> banner_inv w'.
Proof.
  intros B H T. apply (banner_inv_weaken w w' None []); try congruence.
  - rewrite T. simpl. symmetry. apply app_nil_r.
  - constructor.
Qed.

Lemma grace_after_retry_inv (g : nat) (w : World) :
  banner_inv w -> banner_inv (grace_after_retry g w).
Proof.
  intros I.
  destruct ((default 0 (secondsLeft w !! g) <=? 0) && bannerVisible (banner w)) eqn:E;
    [|rewrite (grace_after_retry_skip g w E); exact I].
  destruct (grace_after_retry_fail g w E) as (B & H & T & _).
  apply andb_true_iff in E as [_ V].
  destruct I as (Hh & L & _ & R).
  assert (T' : timers (grace_after_retry g w)
               = drop_opt (graceTimer (handles w)) (timers w)
                 ++ [final_timer (nextHandle w) (now w + 3000)]).
  { rewrite T. destruct (graceTimer (handles w)); reflexivity. }
  unfold banner_inv. rewrite B, H, T'. split; [|split; [|split]].
  - apply Forall_app. split; [|repeat constructor].
    destruct (graceTimer (handles w)) as [gh|] eqn:G.
    + apply quiet_held. apply (held_drop (handles w)); auto.
    + revert Hh. apply held_frame; [reflexivity|]. symmetry. exact G.
  - rewrite intervals_snoc. simpl. rewrite app_nil_r.
    pose proof (intervals_drop_opt (graceTimer (handles w)) (timers w)). lia.
  - simpl. rewrite V. discriminate.
  - exact R.
Qed.

Lemma after_retry_inv (g : option nat) (w : World) :
  banner_inv w -> banner_inv (after_retry g w).
Proof. destruct g; [apply grace_after_retry_inv | exact id]. Qed.

Lemma tryFetchDuringBanner_inv (g : option nat) (w : World) :
  banner_inv w -> banner_inv (tryFetchDuringBanner g w).
Proof.
  intros I. unfold tryFetchDuringBanner.
  destruct (bannerFetchInFlight (handles w)); [apply after_retry_inv, I|].
  revert I. apply (banner_inv_weaken w _ None []); try reflexivity.
  - simpl. symmetry. apply app_nil_r.
  - constructor.
Qed.

Lemma tryFetchDuringBanner_none_view (w : World) :
  banner (tryFetchDuringBanner None w) = banner w
  /\ countdownTimer (handles (tryFetchDuringBanner None w)) = countdownTimer (handles w)
  /\ graceTimer (handles (tryFetchDuringBanner None w)) = graceTimer (handles w)
  /\ finalTimer (handles (tryFetchDuringBanner None w)) = finalTimer (handles w)
  /\ timers (tryFetchDuringBanner None w) = timers w.
Proof.
  destruct w as [sh bn [d c gt f i] sl nw tm nh pd nc lc]. destruct i; repeat split.
Qed.

Lemma startServerWakeBanner_view (imm : bool) (m : ustring) (w : World) :
  let w' := startServerWakeBanner imm m w in
  bannerVisible (banner w') = true
  /\ bannerCountdown (banner w') = (if imm then None else Some 25)
  /\ graceTimer (handles w') = graceTimer (handles w)
  /\ countdownTimer (handles w')
     = (if imm then countdownTimer (handles w) else Some (nextHandle w))
  /\ timers w'
     = timers w ++ [if imm then final_timer (nextHandle w) (now w + 3000)
                    else countdown_timer (nextHandle w) (now w + 1000)].
Proof.
  destruct w as [sh bn [d c gt f i] sl nw tm nh pd nc lc].
  destruct imm, i; repeat split.
Qed.

(** The banner is only ever started while it is hidden. *)
Lemma startServerWakeBanner_inv (imm : bool) (m : ustring) (w : World) :
  bannerVisible (banner w) = false ->
  banner_inv w -> banner_inv (startServerWakeBanner imm m w).
Proof.
  intros V (H & _ & Hh & _). destruct (Hh V) as (_ & C & G & _).
  assert (Q : quiet (timers w)) by (apply (held_none (handles w)); assumption).
  destruct (startServerWakeBanner_view imm m w) as (V' & Cd & G' & C' & T).
  revert V' Cd G' C' T. generalize (startServerWakeBanner imm m w).
  intros w' V' Cd G' C' T. unfold banner_inv. rewrite T, intervals_snoc.
  rewrite (quiet_intervals _ Q). split; [|split; [|split]].
  - apply Forall_app. split; [apply quiet_held, Q|].
    repeat constructor. destruct imm; [exact Logic.I|].
    unfold held. simpl. rewrite C', G', G. split; reflexivity.
  - destruct imm; simpl; lia.
  - rewrite V'. discriminate.
  - unfold countdown_in_range. rewrite Cd. destruct imm; [exact Logic.I | lia].
Qed.

Lemma countdown_tick_inv (w : World) (h : nat) :
  countdownTimer (handles w) = Some h -> graceTimer (handles w) = None ->
  banner_inv w -> banner_inv (countdown_tick w).
Proof.
  intros C G I. pose proof I as (H & L & Hh & R).
  assert (V : bannerVisible (banner w) = true).
  { destruct (bannerVisible (banner w)) eqn:V; [reflexivity|].
    destruct (Hh eq_refl) as (_ & C0 & _). congruence. }
  unfold countdown_in_range in R.
  destruct (bannerCountdown (banner w)) as [k|] eqn:Ek.
  - destruct (Z.ltb_spec 1 k) as [Hk|Hk].
    + rewrite (countdown_tick_decrement w k Ek Hk).
      apply tryFetchDuringBanner_inv.
      unfold banner_inv, hidden, handles_cleared.
      cbn [banner handles timers upd_banner bannerVisible bannerCountdown
           set_bannerCountdown].
      split; [exact H|]. split; [exact L|]. split; [rewrite V; discriminate|].
      unfold countdown_in_range. simpl. lia.
    + rewrite (countdown_tick_expire w k h Ek Hk C).
      set (w1 := upd_banner _ _).
      destruct (startGracePeriod_spec w1) as (B' & H' & T' & _).
      assert (Q : quiet (timers w1)) by (apply (held_drop (handles w)); auto).
      assert (E1 : graceTimer (handles w1) = None /\ countdownTimer (handles w1) = None
                   /\ bannerVisible (banner w1) = true
                   /\ bannerCountdown (banner w1) = None) by (repeat split; assumption).
      destruct E1 as (G1 & C1 & V1 & K1). clearbody w1.
      revert B' H' T'. generalize (startGracePeriod w1). intros w2 B' H' T'.
      unfold banner_inv. rewrite T', intervals_snoc, (quiet_intervals _ Q), B', H'.
      split; [|split; [|split]].
      * apply Forall_app. split; [apply quiet_held, Q|]. repeat constructor.
        unfold held. simpl. auto.
      * simpl. lia.
      * simpl. rewrite V1. discriminate.
      * unfold countdown_in_range. simpl. rewrite K1. exact Logic.I.
  - assert (E : countdown_tick w
               = startGracePeriod
                   (upd_banner (set_bannerCountdown None)
                      (upd_handles (set_countdownTimer None) (clearTimer h w)))).
    { unfold countdown_tick. rewrite Ek, C. reflexivity. }
    rewrite E. set (w1 := upd_banner _ _).
    destruct (startGracePeriod_spec w1) as (B' & H' & T' & _).
    assert (Q : quiet (timers w1)) by (apply (held_drop (handles w)); auto).
    assert (E1 : graceTimer (handles w1) = None /\ countdownTimer (handles w1) = None
                 /\ bannerVisible (banner w1) = true
                 /\ bannerCountdown (banner w1) = None) by (repeat split; assumption).
    destruct E1 as (G1 & C1 & V1 & K1). clearbody w1.
    revert B' H' T'. generalize (startGracePeriod w1). intros w2 B' H' T'.
    unfold banner_inv. rewrite T', intervals_snoc, (quiet_intervals _ Q), B', H'.
    split; [|split; [|split]].
    + apply Forall_app. split; [apply quiet_held, Q|]. repeat constructor.
      unfold held. simpl. auto.
    + simpl. lia.
    + simpl. rewrite V1. discriminate.
    + unfold countdown_in_range. simpl. rewrite K1. exact Logic.I.
Qed.

Lemma grace_tick_inv (g : nat) (w : World) :
  banner_inv w -> banner_inv (grace_tick g w).
Proof.
  intros I. unfold grace_tick. apply tryFetchDuringBanner_inv.
  revert I. apply banner_inv_same; reflexivity.
Qed.

Lemma kickoff_banner_inv (call : nat) (w : World) :
  banner_inv w -> banner_inv (kickoff_banner call w).
Proof.
  intros I. unfold kickoff_banner.
  set (w1 := if negb (bannerVisible (banner w)) && loading (shelf w)
             then startServerWakeBanner false (lit "Unable to load books") w else w).
  assert (I1 : banner_inv w1).
  { subst w1. destruct (bannerVisible (banner w)) eqn:V; [exact I|].
    destruct (loading (shelf w)); [|exact I].
    apply startServerWakeBanner_inv; assumption. }
  clearbody w1. revert I1.
  apply (banner_inv_weaken w1 _ None []); try reflexivity.
  - simpl. symmetry. apply app_nil_r.
  - constructor.
Qed.

Lemma fetchBooks_inv (s tr al : bool) (cl : Caller) (w : World) :
  banner_inv w -> banner_inv (fetchBooks s tr al cl w).
Proof.
  destruct tr.
  - apply (banner_inv_weaken w _ None
             [{| t_handle := nextHandle w; t_due := now w + 1200; t_every := None;
                 t_run := KickoffBanner (nextCall w) |}]);
      try (destruct s; reflexivity).
    repeat constructor.
  - apply (banner_inv_weaken w _ None []); try (destruct s; reflexivity).
    + destruct s; simpl; symmetry; apply app_nil_r.
    + constructor.
Qed.

Lemma clear_delay_inv (w : World) :
  banner_inv w ->
  banner_inv (match bannerDelayTimer (handles w) with
              | Some h => upd_handles (set_bannerDelayTimer None) (clearTimer h w)
              | None => w
              end).
Proof.
  destruct (bannerDelayTimer (handles w)) as [h|]; [|exact id].
  apply (banner_inv_weaken w _ (Some h) []); try reflexivity.
  - simpl. symmetry. apply app_nil_r.
  - constructor.
Qed.

Lemma fetchBooks_resume_parts (c : FetchCall) (o : Outcome (list Item)) (w : World) :
  fetchBooks_resume c o w
  = fetchBooks_return c
      (fetchBooks_finally c
         (match settle_books o with
          | inl (has_response, message) => fetchBooks_catch c has_response message w
          | inr data => fetchBooks_try data w
          end)).
Proof.
  unfold fetchBooks_resume, fetchBooks_return, fetchBooks_finally, fetchBooks_catch,
    fetchBooks_try.
  destruct (settle_books o) as [[has m]|data]; [|reflexivity].
  generalize (ustring_eqb m (lit "Failed to fetch")). intros b.
  destruct (fc_caller c); reflexivity.
Qed.

Lemma fetchBooks_try_inv (data : list Item) (w : World) :
  banner_inv w -> banner_inv (fetchBooks_try data w).
Proof.
  intros I. unfold fetchBooks_try. cbv zeta. apply hideBanner_inv.
  revert I. apply banner_inv_same; reflexivity.
Qed.

Lemma fetchBooks_catch_inv (c : FetchCall) (has : bool) (m : ustring) (w : World) :
  banner_inv w -> banner_inv (fetchBooks_catch c has m w).
Proof.
  intros I. unfold fetchBooks_catch.
  set (w0 := if fc_silent c then w else setMessage m w).
  assert (I0 : banner_inv w0)
    by (subst w0; destruct (fc_silent c); [exact I|];
        revert I; apply banner_inv_same; reflexivity).
  clearbody w0.
  destruct (fc_triggerBannerOnFailure c); [|exact I0].
  destruct (bannerVisible (banner w0)) eqn:V; [exact I0|]. cbn [negb andb].
  set (w2 := match bannerDelayTimer (handles w0) with
             | Some h => upd_handles (set_bannerDelayTimer None) (clearTimer h w0)
             | None => w0
             end).
  assert (V' : bannerVisible (banner w2) = false)
    by (subst w2; destruct (bannerDelayTimer (handles w0)); exact V).
  assert (I2 : banner_inv w2) by (apply clear_delay_inv, I0).
  clearbody w2. apply startServerWakeBanner_inv; assumption.
Qed.

Lemma fetchBooks_finally_inv (c : FetchCall) (w : World) :
  banner_inv w -> banner_inv (fetchBooks_finally c w).
Proof.
  intros I. unfold fetchBooks_finally.
  set (w2 := match bannerDelayTimer (handles w) with
             | Some h => upd_handles (set_bannerDelayTimer None) (clearTimer h w)
             | None => w
             end).
  assert (I2 : banner_inv w2) by (apply clear_delay_inv, I).
  clearbody w2. destruct (fc_silent c); [exact I2|].
  revert I2. apply banner_inv_same; reflexivity.
Qed.

Lemma fetchBooks_return_inv (c : FetchCall) (w : World) :
  banner_inv w -> banner_inv (fetchBooks_return c w).
Proof.
  intros I. unfold fetchBooks_return. destruct (fc_caller c) as [|g]; [exact I|].
  apply after_retry_inv. revert I.
  apply (banner_inv_weaken w _ None []); try reflexivity.
  - simpl. symmetry. apply app_nil_r.
  - constructor.
Qed.

Lemma fetchBooks_resume_inv (c : FetchCall) (o : Outcome (list Item)) (w : World) :
  banner_inv w -> banner_inv (fetchBooks_resume c o w).
Proof.
  intros I. rewrite fetchBooks_resume_parts.
  apply fetchBooks_return_inv, fetchBooks_finally_inv.
  destruct (settle_books o) as [[has m]|data];
    [apply fetchBooks_catch_inv | apply fetchBooks_try_inv]; exact I.
Qed.

Lemma saveBook_resume_same (isEditing : bool) (o : Outcome Item) (w : World) :
  let w' := saveBook_resume isEditing o w in
  banner w' = banner w /\ handles w' = handles w /\ timers w' = timers w
  /\ pending w' = pending w /\ nextCall w' = nextCall w
  /\ loading (shelf w') = loading (shelf w) /\ lifecycle w' = lifecycle w.
Proof.
  unfold saveBook_resume. destruct o as [m|st [m|data]]; try (repeat split; fail);
    destruct (ok st); try (repeat split; fail).
  destruct isEditing; cbn [negb]; [destruct (findIndex _ _)|]; repeat split.
Qed.

Lemma removeBook_resume_same (id : Z) (o : Outcome unit) (w : World) :
  let w' := removeBook_resume id o w in
  banner w' = banner w /\ handles w' = handles w /\ timers w' = timers w
  /\ pending w' = pending w /\ nextCall w' = nextCall w
  /\ loading (shelf w') = loading (shelf w) /\ lifecycle w' = lifecycle w.
Proof.
  unfold removeBook_resume. destruct o as [m|st b]; [repeat split|].
  destruct (_ && _); [repeat split|]. cbv zeta. case_decide; repeat split.
Qed.

Lemma saveBook_same (w : World) :
  banner (saveBook w) = banner w /\ handles (saveBook w) = handles w
  /\ timers (saveBook w) = timers w /\ loading (shelf (saveBook w)) = loading (shelf w)
  /\ lifecycle (saveBook w) = lifecycle w.
Proof. unfold saveBook. destruct (negb _); repeat split. Qed.

Lemma act_banner_inv (w w' : World) (a : Action) :
  banner_inv w -> act a w = Some w' -> banner_inv w'.
Proof.
  intros I Ha. destruct a; simpl in Ha.
  - destruct (lifecycle w); try discriminate. injection Ha as <-.
    apply fetchBooks_inv. revert I. apply banner_inv_same; reflexivity.
  - destruct (lifecycle w); try discriminate. injection Ha as <-.
    apply clearBannerTimers_inv. revert I. apply banner_inv_same; reflexivity.
  - destruct (usable w); [|discriminate]. injection Ha as <-.
    apply fetchBooks_inv, I.
  - destruct (usable w); [|discriminate]. injection Ha as <-.
    destruct (saveBook_same w) as (B & H & T & _).
    exact (banner_inv_same _ _ B H T I).
  - destruct (_ && _); [|discriminate]. injection Ha as <-. exact I.
  - destruct (_ && _); [|discriminate]. injection Ha as <-. exact I.
  - destruct (_ && _); [|discriminate]. injection Ha as <-. exact I.
  - destruct (usable w); [|discriminate]. injection Ha as <-. exact I.
  - destruct (take_request call (pending w)) as [[r rest]|]; [|discriminate].
    destruct r as [c| |]; try discriminate. injection Ha as <-.
    apply fetchBooks_resume_inv. exact I.
  - destruct (take_request call (pending w)) as [[r rest]|]; [|discriminate].
    destruct r as [|ie tg nm|]; try discriminate. injection Ha as <-.
    destruct (saveBook_resume_same ie o (set_pending rest w)) as (B & H & T & _).
    exact (banner_inv_same _ _ B H T I).
  - destruct (take_request call (pending w)) as [[r rest]|]; [|discriminate].
    destruct r as [| |id]; try discriminate. injection Ha as <-.
    destruct (removeBook_resume_same id o (set_pending rest w)) as (B & H & T & _).
    exact (banner_inv_same _ _ B H T I).
Qed.

Lemma fire_banner_inv (w : World) (x : Timer) :
  banner_inv w -> x ∈ timers w ->
  banner_inv (run_callback (t_run x)
                (set_timers (match t_every x with
                             | Some p => rearm (t_handle x) p (timers w)
                             | None => drop_timer (t_handle x) (timers w)
                             end) w)).
Proof.
  intros I Hx. pose proof I as (H & L & V & R).
  assert (Hd : held (handles w) x) by (apply (proj1 (Forall_forall _ _) H), Hx).
  set (v := set_timers _ w).
  assert (Iv : banner_inv v).
  { subst v. destruct (t_every x) as [p|].
    - unfold banner_inv, hidden, handles_cleared.
      cbn [banner handles timers set_timers].
      split; [apply rearm_held, H|]. split; [rewrite rearm_intervals; exact L|].
      split; assumption.
    - revert I. apply (banner_inv_weaken w _ (Some (t_handle x)) []); try reflexivity.
      + simpl. symmetry. apply app_nil_r.
      + constructor. }
  assert (Hv : handles v = handles w) by reflexivity. clearbody v.
  unfold held in Hd. destruct (t_run x) as [call| |g|]; cbn [run_callback].
  - apply kickoff_banner_inv, Iv.
  - destruct Hd as [C G]. rewrite <- Hv in C, G.
    apply (countdown_tick_inv v (t_handle x)); assumption.
  - apply grace_tick_inv, Iv.
  - apply hideBanner_inv, Iv.
Qed.

Lemma init_banner_inv : banner_inv init.
Proof.
  apply banner_inv_quiet; [constructor | | exact Logic.I].
  intros _. repeat split.
Qed.

Lemma reachable_banner_inv (w : World) : reachable w -> banner_inv w.
Proof.
  apply reachable_invariant; [exact init_banner_inv|].
  apply step_invariant.
  - intros t v. apply banner_inv_same; reflexivity.
  - intros v x I Hx _. apply fire_banner_inv; assumption.
  - intros v a v' I Ha. exact (act_banner_inv v v' a I Ha).
Qed.

(** ** One load at a time *)

Lemma grace_after_retry_side (g : nat) (w : World) : banner_side w (grace_after_retry g w).
Proof.
  unfold grace_after_retry. destruct (_ && _); [|repeat split].
  destruct w as [sh bn [d c gt f i] sl nw tm nh pd nc lc].
  destruct gt; repeat split.
Qed.

Lemma after_retry_side (g : option nat) (w : World) : banner_side w (after_retry g w).
Proof. destruct g; [apply grace_after_retry_side | repeat split]. Qed.

Lemma tryFetchDuringBanner_side (g : option nat) (w : World) :
  banner_side w (tryFetchDuringBanner g w).
Proof.
  unfold tryFetchDuringBanner. destruct (bannerFetchInFlight (handles w)).
  - apply after_retry_side.
  - destruct w as [sh bn [d c gt f i] sl nw tm nh pd nc lc]. repeat split.
Qed.

Lemma banner_side_trans (w1 w2 w3 : World) :
  banner_side w1 w2 -> banner_side w2 w3 -> banner_side w1 w3.
Proof. unfold banner_side. intros (-> & -> & ->) (-> & -> & ->). repeat split. Qed.

Lemma startServerWakeBanner_side (imm : bool) (m : ustring) (w : World) :
  banner_side w (startServerWakeBanner imm m w).
Proof.
  destruct w as [sh bn [d c gt f i] sl nw tm nh pd nc lc].
  destruct imm, i; repeat split.
Qed.

Lemma countdown_tick_side (w : World) : banner_side w (countdown_tick w).
Proof.
  unfold countdown_tick.
  destruct (match bannerCountdown (banner w) with Some k => 1 <? k | None => false end).
  - eapply banner_side_trans; [|apply tryFetchDuringBanner_side]. repeat split.
  - destruct w as [sh bn [d c gt f i] sl nw tm nh pd nc lc]. destruct c; repeat split.
Qed.

Lemma grace_tick_side (g : nat) (w : World) : banner_side w (grace_tick g w).
Proof.
  unfold grace_tick.
  eapply banner_side_trans; [|apply tryFetchDuringBanner_side]. repeat split.
Qed.

Lemma hideBanner_side (w : World) : banner_side w (hideBanner w).
Proof.
  destruct w as [sh bn [d c g f i] sl nw tm nh pd nc lc]. destruct c, g, f; repeat split.
Qed.

Lemma clearBannerTimers_side (w : World) : banner_side w (clearBannerTimers w).
Proof.
  destruct w as [sh bn [d c g f i] sl nw tm nh pd nc lc]. destruct c, g, f; repeat split.
Qed.

Lemma calls_change_grow (w w' : World) : calls_change w w' -> requests_grow w w'.
Proof.
  intros [P _ N | g _ _ P N]; [left; split; assumption|].
  right. exists (ReqBooks (retry_call g)). split; [reflexivity|]. split; assumption.
Qed.

Lemma requests_grow_refl (w w' : World) :
  pending w' = pending w -> nextCall w' = nextCall w -> requests_grow w w'.
Proof. intros P N. left. split; assumption. Qed.

Lemma loads_snoc (l : list (nat * Request)) (p : nat * Request) :
  List.length (List.filter is_load (l ++ [p]))
  = (List.length (List.filter is_load l) + (if is_load p then 1 else 0))%nat.
Proof.
  rewrite List.filter_app, List.length_app. simpl. destruct (is_load p); reflexivity.
Qed.

(** Code that keeps [loading] and the life cycle and issues no load keeps
    the invariant. *)
Lemma load_inv_grow (w w' : World) :
  loading (shelf w') = loading (shelf w) ->
  lifecycle w' = lifecycle w ->
  requests_grow w w' ->
  load_inv w -> load_inv w'.
Proof.
  unfold load_inv, loads_in_flight. intros L C G (K & F & Cr). rewrite L, C.
  destruct G as [(P & N) | (r & Hr & P & N)]; rewrite P, N.
  - split; [exact K|]. split; assumption.
  - rewrite loads_snoc, Hr, Nat.add_0_r. split; [exact K|]. split; [|exact Cr].
    apply Forall_app. split.
    + revert F. apply List.Forall_impl. intros p. lia.
    + constructor; [simpl; lia | constructor].
Qed.

Lemma load_inv_side (w w' : World) :
  banner_side w w' -> calls_change w w' -> load_inv w -> load_inv w'.
Proof.
  intros (S & C & _) G. apply load_inv_grow; [rewrite S; reflexivity | exact C|].
  apply calls_change_grow, G.
Qed.

Lemma loads_clear_kickoff (call : nat) (l : list (nat * Request)) :
  List.length (List.filter is_load (clear_kickoff call l))
  = List.length (List.filter is_load l).
Proof.
  induction l as [|[i r] l IH]; [reflexivity|]. cbn [clear_kickoff map List.filter].
  fold (clear_kickoff call l).
  assert (E : is_load (match r with
                       | ReqBooks c =>
                           if Nat.eqb i call then
                             (i, ReqBooks {| fc_silent := fc_silent c;
                                  fc_triggerBannerOnFailure := fc_triggerBannerOnFailure c;
                                  fc_allowImmediateFailure := fc_allowImmediateFailure c;
                                  fc_bannerKickoffPending := false;
                                  fc_caller := fc_caller c |})
                           else (i, r)
                       | _ => (i, r)
                       end) = is_load (i, r)).
  { destruct r as [c| |]; try reflexivity. destruct (Nat.eqb i call); reflexivity. }
  rewrite E. destruct (is_load (i, r)); cbn [List.length]; rewrite IH; reflexivity.
Qed.

Lemma clear_kickoff_fresh (call n : nat) (l : list (nat * Request)) :
  Forall (fun p : nat * Request => (fst p < n)%nat) l ->
  Forall (fun p : nat * Request => (fst p < n)%nat) (clear_kickoff call l).
Proof.
  intros H. unfold clear_kickoff. apply Forall_fmap. revert H.
  apply List.Forall_impl. intros [i r] Hi. simpl.
  destruct r as [c| |]; try exact Hi. destruct (Nat.eqb i call); exact Hi.
Qed.

Lemma kickoff_banner_load (call : nat) (w : World) :
  load_inv w -> load_inv (kickoff_banner call w).
Proof.
  intros I. unfold kickoff_banner.
  set (w1 := if negb (bannerVisible (banner w)) && loading (shelf w)
             then startServerWakeBanner false (lit "Unable to load books") w else w).
  assert (I1 : load_inv w1).
  { subst w1. destruct (negb (bannerVisible (banner w)) && loading (shelf w)); [|exact I].
    revert I. apply load_inv_side;
      [apply startServerWakeBanner_side | apply startServerWakeBanner_calls]. }
  clearbody w1. destruct I1 as (K & F & Cr).
  unfold load_inv, loads_in_flight.
  cbn [pending nextCall shelf lifecycle upd_handles set_pending].
  rewrite loads_clear_kickoff.
  split; [exact K|]. split; [apply clear_kickoff_fresh, F | exact Cr].
Qed.

Lemma run_callback_load (cb : Callback) (w : World) :
  load_inv w -> load_inv (run_callback cb w).
Proof.
  destruct cb as [call| |g|]; cbn [run_callback].
  - apply kickoff_banner_load.
  - apply load_inv_side; [apply countdown_tick_side | apply countdown_tick_calls].
  - apply load_inv_side; [apply grace_tick_side | apply grace_tick_calls].
  - apply load_inv_grow; try apply hideBanner_side.
    + destruct (hideBanner_side w) as (-> & _). reflexivity.
    + destruct (hideBanner_calls w) as (P & _ & N). left. split; assumption.
Qed.

(** Starting a load while none is in flight. *)
Lemma fetchBooks_load (tr al : bool) (w : World) :
  loading (shelf w) = false -> lifecycle w <> Created ->
  load_inv w -> load_inv (fetchBooks false tr al TopLevel w).
Proof.
  intros L C (K & F & _). unfold load_inv, loads_in_flight in *. rewrite L in K.
  assert (E : pending (fetchBooks false tr al TopLevel w)
              = pending w ++ [(nextCall w,
                   ReqBooks {| fc_silent := false; fc_triggerBannerOnFailure := tr;
                               fc_allowImmediateFailure := al;
                               fc_bannerKickoffPending := tr; fc_caller := TopLevel |})]
              /\ nextCall (fetchBooks false tr al TopLevel w) = S (nextCall w)
              /\ loading (shelf (fetchBooks false tr al TopLevel w)) = true
              /\ lifecycle (fetchBooks false tr al TopLevel w) = lifecycle w)
    by (destruct tr; repeat split).
  destruct E as (-> & -> & -> & ->).
  rewrite loads_snoc, K. split; [reflexivity|]. split; [|intros; contradiction].
  apply Forall_app. split.
  - revert F. apply List.Forall_impl. intros p. lia.
  - constructor; [simpl; lia | constructor].
Qed.

Lemma take_request_loads (rid : nat) (l rest : list (nat * Request)) (r : Request) (n : nat) :
  take_request rid l = Some (r, rest) ->
  List.length (List.filter is_load l)
  = ((if is_load (rid, r) then 1 else 0) + List.length (List.filter is_load rest))%nat
  /\ (Forall (fun p : nat * Request => (fst p < n)%nat) l ->
      Forall (fun p : nat * Request => (fst p < n)%nat) rest).
Proof.
  revert rest. induction l as [|[i q] l IH]; simpl; [discriminate|].
  intros rest. destruct (Nat.eqb i rid) eqn:E.
  - intros [= -> ->]. split.
    + assert (Ei : is_load (i, r) = is_load (rid, r)) by reflexivity.
      rewrite Ei. destruct (is_load (rid, r)); reflexivity.
    + intros H. inversion H; assumption.
  - destruct (take_request rid l) as [[r' rest']|]; [|discriminate].
    intros [= -> <-]. destruct (IH rest' eq_refl) as [C W]. split.
    + cbn [List.filter]. destruct (is_load (i, q)); cbn [List.length]; rewrite C; lia.
    + intros H. inversion H; subst. constructor; [assumption | apply W; assumption].
Qed.

Lemma requests_grow_trans_l (w1 w2 w3 : World) :
  pending w2 = pending w1 -> nextCall w2 = nextCall w1 ->
  requests_grow w2 w3 -> requests_grow w1 w3.
Proof. unfold requests_grow. intros -> ->. exact id. Qed.

Lemma requests_grow_trans_r (w1 w2 w3 : World) :
  requests_grow w1 w2 -> pending w3 = pending w2 -> nextCall w3 = nextCall w2 ->
  requests_grow w1 w3.
Proof. unfold requests_grow. intros G -> ->. exact G. Qed.

Lemma fetchBooks_try_load (data : list Item) (w : World) :
  let w' := fetchBooks_try data w in
  loading (shelf w') = loading (shelf w) /\ lifecycle w' = lifecycle w
  /\ pending w' = pending w /\ nextCall w' = nextCall w.
Proof.
  unfold fetchBooks_try. cbv zeta.
  set (v := setMessage _ _).
  destruct (hideBanner_side v) as (S & C & _). destruct (hideBanner_calls v) as (P & _ & N).
  rewrite S, C, P, N. repeat split.
Qed.

Lemma fetchBooks_catch_load (c : FetchCall) (has : bool) (m : ustring) (w : World) :
  let w' := fetchBooks_catch c has m w in
  loading (shelf w') = loading (shelf w) /\ lifecycle w' = lifecycle w
  /\ requests_grow w w'.
Proof.
  unfold fetchBooks_catch.
  set (w0 := if fc_silent c then w else setMessage m w).
  assert (E0 : loading (shelf w0) = loading (shelf w) /\ lifecycle w0 = lifecycle w
               /\ pending w0 = pending w /\ nextCall w0 = nextCall w)
    by (subst w0; destruct (fc_silent c); repeat split).
  destruct E0 as (L0 & C0 & P0 & N0). clearbody w0.
  destruct (fc_triggerBannerOnFailure c && negb (bannerVisible (banner w0)));
    [|split; [exact L0|]; split; [exact C0|]; left; split; assumption].
  set (w2 := match bannerDelayTimer (handles w0) with
             | Some h => upd_handles (set_bannerDelayTimer None) (clearTimer h w0)
             | None => w0
             end).
  assert (E2 : loading (shelf w2) = loading (shelf w) /\ lifecycle w2 = lifecycle w
               /\ pending w2 = pending w /\ nextCall w2 = nextCall w)
    by (subst w2; destruct (bannerDelayTimer (handles w0)); repeat split; assumption).
  destruct E2 as (L2 & C2 & P2 & N2). clearbody w2.
  generalize (fc_allowImmediateFailure c
              && (negb has || ustring_eqb m (lit "Failed to fetch"))).
  intros imm.
  generalize (if negb (fc_bannerKickoffPending c)
              then bannerFailureMessage (banner w2) else m).
  intros fm.
  destruct (startServerWakeBanner_side imm fm w2) as (S & C & _).
  pose proof (calls_change_grow _ _ (startServerWakeBanner_calls imm fm w2)) as G.
  revert S C G. generalize (startServerWakeBanner imm fm w2). intros w3 S C G.
  rewrite S, C. split; [exact L2|]. split; [exact C2|].
  exact (requests_grow_trans_l w w2 w3 P2 N2 G).
Qed.

Lemma fetchBooks_finally_load (c : FetchCall) (w : World) :
  let w' := fetchBooks_finally c w in
  loading (shelf w') = (if fc_silent c then loading (shelf w) else false)
  /\ lifecycle w' = lifecycle w /\ pending w' = pending w /\ nextCall w' = nextCall w.
Proof.
  unfold fetchBooks_finally.
  destruct (bannerDelayTimer (handles w)); destruct (fc_silent c); repeat split.
Qed.

Lemma fetchBooks_return_load (c : FetchCall) (w : World) :
  let w' := fetchBooks_return c w in
  loading (shelf w') = loading (shelf w) /\ lifecycle w' = lifecycle w
  /\ pending w' = pending w /\ nextCall w' = nextCall w.
Proof.
  unfold fetchBooks_return. destruct (fc_caller c) as [|g]; [repeat split|].
  set (v := upd_handles (set_bannerFetchInFlight false) w).
  destruct (after_retry_side g v) as (S & C & _).
  destruct (after_retry_calls g v) as (P & _ & N).
  cbv zeta. rewrite S, C, P, N. repeat split.
Qed.

Lemma fetchBooks_resume_load (c : FetchCall) (o : Outcome (list Item)) (w : World) :
  let w' := fetchBooks_resume c o w in
  loading (shelf w') = (if fc_silent c then loading (shelf w) else false)
  /\ lifecycle w' = lifecycle w /\ requests_grow w w'.
Proof.
  cbv zeta. rewrite fetchBooks_resume_parts.
  set (w1 := match settle_books o with
             | inl (has_response, message) => fetchBooks_catch c has_response message w
             | inr data => fetchBooks_try data w
             end).
  assert (E1 : loading (shelf w1) = loading (shelf w) /\ lifecycle w1 = lifecycle w
               /\ requests_grow w w1).
  { subst w1. destruct (settle_books o) as [[has m]|data].
    - apply fetchBooks_catch_load.
    - destruct (fetchBooks_try_load data w) as (L & C & P & N).
      split; [exact L|]. split; [exact C|]. left. split; assumption. }
  destruct E1 as (L1 & C1 & G1). clearbody w1.
  destruct (fetchBooks_finally_load c w1) as (L2 & C2 & P2 & N2).
  revert L2 C2 P2 N2. generalize (fetchBooks_finally c w1). intros w2 L2 C2 P2 N2.
  destruct (fetchBooks_return_load c w2) as (L3 & C3 & P3 & N3).
  rewrite L3, C3, L2, C2, L1. split; [reflexivity|]. split; [exact C1|].
  apply (requests_grow_trans_r w w2); [|exact P3 | exact N3].
  exact (requests_grow_trans_r w w1 w2 G1 P2 N2).
Qed.

Lemma act_load_inv (w w' : World) (a : Action) :
  load_inv w -> act a w = Some w' -> load_inv w'.
Proof.
  intros I Ha. destruct a; simpl in Ha.
  - destruct (lifecycle w) eqn:Lc; try discriminate. injection Ha as <-.
    apply fetchBooks_load; [apply I; exact Lc | discriminate|].
    destruct I as (K & F & Cr). split; [exact K|]. split; [exact F|]. discriminate.
  - destruct (lifecycle w) eqn:Lc; try discriminate. injection Ha as <-.
    set (v := set_lifecycle Unmounted w).
    destruct (clearBannerTimers_side v) as (S & C & _).
    destruct (clearBannerTimers_calls v) as (P & _ & N).
    destruct I as (K & F & Cr). unfold load_inv, loads_in_flight.
    rewrite S, C, P, N. split; [exact K|]. split; [exact F|]. discriminate.
  - unfold usable in Ha. destruct (lifecycle w) eqn:Lc; try discriminate.
    destruct (loading (shelf w)) eqn:L; [discriminate|]. injection Ha as <-.
    apply fetchBooks_load; [exact L | congruence | exact I].
  - destruct (usable w); [|discriminate]. injection Ha as <-.
    unfold saveBook. destruct (negb _).
    + revert I. apply load_inv_grow; try reflexivity. left. split; reflexivity.
    + revert I. apply load_inv_grow; try reflexivity. right.
      eexists. split; [|split; reflexivity]. reflexivity.
  - destruct (_ && _); [|discriminate]. injection Ha as <-.
    revert I. apply load_inv_grow; try reflexivity. left. split; reflexivity.
  - destruct (_ && _); [|discriminate]. injection Ha as <-.
    revert I. apply load_inv_grow; try reflexivity. left. split; reflexivity.
  - destruct (_ && _); [|discriminate]. injection Ha as <-.
    revert I. apply load_inv_grow; try reflexivity. right.
    eexists. split; [|split; reflexivity]. reflexivity.
  - destruct (usable w); [|discriminate]. injection Ha as <-.
    revert I. apply load_inv_grow; try reflexivity. left. split; reflexivity.
  - destruct (take_request call (pending w)) as [[r rest]|] eqn:T; [|discriminate].
    destruct r as [c| |]; try discriminate. injection Ha as <-.
    destruct I as (K & F & Cr).
    destruct (take_request_loads _ _ _ _ (nextCall w) T) as (TC & TF).
    unfold loads_in_flight in K. rewrite TC in K.
    set (v := set_pending rest w).
    destruct (fetchBooks_resume_load c o v) as (L & C & G).
    assert (Iv : load_inv (upd_shelf (set_loading (if fc_silent c then loading (shelf w)
                                                    else false)) v)).
    { unfold load_inv, loads_in_flight. subst v.
      cbn [pending nextCall shelf lifecycle loading upd_shelf set_loading set_pending].
      change (is_load (call, ReqBooks c)) with (negb (fc_silent c)) in K.
      split; [|split; [exact (TF F)|]].
      - destruct (fc_silent c); cbn [negb] in K; [exact K|].
        destruct (loading (shelf w)); lia.
      - intros Lc. destruct (fc_silent c); [exact (Cr Lc) | reflexivity]. }
    revert Iv. apply load_inv_grow; [exact L | exact C|].
    apply (requests_grow_trans_l _ v); [reflexivity | reflexivity | exact G].
  - destruct (take_request call (pending w)) as [[r rest]|] eqn:T; [|discriminate].
    destruct r as [|ie tg nm|]; try discriminate. injection Ha as <-.
    destruct I as (K & F & Cr).
    destruct (take_request_loads _ _ _ _ (nextCall w) T) as (TC & TF).
    unfold loads_in_flight in K. rewrite TC in K.
    destruct (saveBook_resume_same ie o (set_pending rest w))
      as (_ & _ & _ & P & N & L & C).
    unfold load_inv, loads_in_flight. rewrite P, N, L, C.
    split; [exact K|]. split; [exact (TF F) | exact Cr].
  - destruct (take_request call (pending w)) as [[r rest]|] eqn:T; [|discriminate].
    destruct r as [| |id]; try discriminate. injection Ha as <-.
    destruct I as (K & F & Cr).
    destruct (take_request_loads _ _ _ _ (nextCall w) T) as (TC & TF).
    unfold loads_in_flight in K. rewrite TC in K.
    destruct (removeBook_resume_same id o (set_pending rest w))
      as (_ & _ & _ & P & N & L & C).
    unfold load_inv, loads_in_flight. rewrite P, N, L, C.
    split; [exact K|]. split; [exact (TF F) | exact Cr].
Qed.

Lemma init_load_inv : load_inv init.
Proof. split; [reflexivity|]. split; [constructor | reflexivity]. Qed.

Lemma reachable_load_inv (w : World) : reachable w -> load_inv w.
Proof.
  apply reachable_invariant; [exact init_load_inv|].
  apply step_invariant.
  - intros t v. apply load_inv_grow; try reflexivity. left. split; reflexivity.
  - intros v x I _ _. apply run_callback_load.
    revert I. apply load_inv_grow; try reflexivity. left. split; reflexivity.
  - intros v a v' I Ha. exact (act_load_inv v v' a I Ha).
Qed.

(** ** The kickoff timeout *)

Lemma kickoffs_drop_timer (h : nat) (l : list Timer) :
  (forall P : Timer -> Prop, Forall P (kickoffs l) -> Forall P (kickoffs (drop_timer h l)))
  /\ (List.length (kickoffs (drop_timer h l)) <= List.length (kickoffs l))%nat.
Proof.
  induction l as [|x l [IH1 IH2]]; [split; [intros P H; exact H | simpl; lia]|].
  cbn [drop_timer kickoffs List.filter]. fold (kickoffs l).
  destruct (Nat.eqb (t_handle x) h); cbn [kickoffs List.filter];
    fold (kickoffs (drop_timer h l)); destruct (is_kickoff x); cbn [List.length].
  - split; [intros P H; inversion H; auto | lia].
  - split; [exact IH1 | exact IH2].
  - split; [intros P H; inversion H; subst; constructor; auto | lia].
  - split; [exact IH1 | exact IH2].
Qed.

Lemma kickoffs_drop_opt (h : option nat) (l : list Timer) :
  (forall P : Timer -> Prop, Forall P (kickoffs l) -> Forall P (kickoffs (drop_opt h l)))
  /\ (List.length (kickoffs (drop_opt h l)) <= List.length (kickoffs l))%nat.
Proof. destruct h; [apply kickoffs_drop_timer | split; [intros P H; exact H | simpl; lia]]. Qed.

Lemma kickoffs_app_other (l extra : list Timer) :
  Forall (fun x => is_kickoff x = false) extra -> kickoffs (l ++ extra) = kickoffs l.
Proof.
  intros H. unfold kickoffs. rewrite List.filter_app.
  replace (List.filter is_kickoff extra) with (@nil Timer); [apply app_nil_r|].
  induction H as [|x e Hx _ IH]; [reflexivity|]. simpl. rewrite Hx. exact IH.
Qed.

Lemma arms_no_kickoff_refl (w w' : World) : timers w' = timers w -> arms_no_kickoff w w'.
Proof. intros E. unfold arms_no_kickoff. rewrite E. split; [intros P; exact id | lia]. Qed.

Lemma arms_no_kickoff_trans (w1 w2 w3 : World) :
  arms_no_kickoff w1 w2 -> arms_no_kickoff w2 w3 -> arms_no_kickoff w1 w3.
Proof.
  intros [A1 A2] [B1 B2]. split; [intros P H; apply B1, A1, H | lia].
Qed.

Lemma arms_no_kickoff_drop (w w' : World) (h : option nat) (extra : list Timer) :
  timers w' = drop_opt h (timers w) ++ extra ->
  Forall (fun x => is_kickoff x = false) extra ->
  arms_no_kickoff w w'.
Proof.
  intros E Q. unfold arms_no_kickoff. rewrite E, (kickoffs_app_other _ _ Q).
  apply kickoffs_drop_opt.
Qed.

Lemma grace_after_retry_arms (g : nat) (w : World) :
  arms_no_kickoff w (grace_after_retry g w).
Proof.
  destruct ((default 0 (secondsLeft w !! g) <=? 0) && bannerVisible (banner w)) eqn:E;
    [|rewrite (grace_after_retry_skip g w E); apply arms_no_kickoff_refl; reflexivity].
  destruct (grace_after_retry_fail g w E) as (_ & _ & T & _).
  apply (arms_no_kickoff_drop w _ (graceTimer (handles w))
           [final_timer (nextHandle w) (now w + 3000)]).
  - rewrite T. destruct (graceTimer (handles w)); reflexivity.
  - repeat constructor.
Qed.

Lemma after_retry_arms (g : option nat) (w : World) : arms_no_kickoff w (after_retry g w).
Proof.
  destruct g; [apply grace_after_retry_arms | apply arms_no_kickoff_refl; reflexivity].
Qed.

Lemma tryFetchDuringBanner_arms (g : option nat) (w : World) :
  arms_no_kickoff w (tryFetchDuringBanner g w).
Proof.
  unfold tryFetchDuringBanner. destruct (bannerFetchInFlight (handles w)).
  - apply after_retry_arms.
  - apply arms_no_kickoff_refl. reflexivity.
Qed.

Lemma startServerWakeBanner_arms (imm : bool) (m : ustring) (w : World) :
  arms_no_kickoff w (startServerWakeBanner imm m w).
Proof.
  destruct (startServerWakeBanner_view imm m w) as (_ & _ & _ & _ & T).
  apply (arms_no_kickoff_drop w _ None
           [if imm then final_timer (nextHandle w) (now w + 3000)
            else countdown_timer (nextHandle w) (now w + 1000)]); [exact T|].
  destruct imm; repeat constructor.
Qed.

Lemma countdown_tick_arms (w : World) : arms_no_kickoff w (countdown_tick w).
Proof.
  unfold countdown_tick.
  destruct (match bannerCountdown (banner w) with Some k => 1 <? k | None => false end).
  - eapply arms_no_kickoff_trans; [|apply tryFetchDuringBanner_arms].
    apply arms_no_kickoff_refl. reflexivity.
  - apply (arms_no_kickoff_drop w _ (countdownTimer (handles w))
             [grace_timer (nextHandle w) (now w + 1000)]).
    + destruct w as [sh bn [d c gt f i] sl nw tm nh pd nc lc]. destruct c; reflexivity.
    + repeat constructor.
Qed.

Lemma grace_tick_arms (g : nat) (w : World) : arms_no_kickoff w (grace_tick g w).
Proof.
  unfold grace_tick. eapply arms_no_kickoff_trans; [|apply tryFetchDuringBanner_arms].
  apply arms_no_kickoff_refl. reflexivity.
Qed.

Lemma clearBannerTimers_arms (w : World) : arms_no_kickoff w (clearBannerTimers w).
Proof.
  destruct (clearBannerTimers_view w) as (_ & _ & T). unfold arms_no_kickoff. rewrite T.
  destruct (kickoffs_drop_opt (countdownTimer (handles w)) (timers w)) as [A1 A2].
  destruct (kickoffs_drop_opt (graceTimer (handles w))
              (drop_opt (countdownTimer (handles w)) (timers w))) as [B1 B2].
  destruct (kickoffs_drop_opt (finalTimer (handles w))
              (drop_opt (graceTimer (handles w))
                 (drop_opt (countdownTimer (handles w)) (timers w)))) as [C1 C2].
  split; [intros P H; apply C1, B1, A1, H | lia].
Qed.

Lemma hideBanner_arms (w : World) : arms_no_kickoff w (hideBanner w).
Proof.
  destruct (hideBanner_view w) as (T & _). unfold arms_no_kickoff. rewrite T.
  apply clearBannerTimers_arms.
Qed.

(** What keeps the invariant: code that leaves [loading] and the kickoff
    handle alone and arms no kickoff timeout. *)
Lemma kickoff_inv_keep (w w' : World) :
  loading (shelf w') = loading (shelf w) ->
  bannerDelayTimer (handles w') = bannerDelayTimer (handles w) ->
  arms_no_kickoff w w' ->
  kickoff_inv w -> kickoff_inv w'.
Proof.
  intros L D [A1 A2] (H & N & Q). unfold kickoff_inv. rewrite L, D.
  split; [apply A1, H|]. split; [lia|].
  intros Lf. specialize (Q Lf). rewrite Q in A2. simpl in A2.
  destruct (kickoffs (timers w')); [reflexivity | simpl in A2; lia].
Qed.

Lemma kickoff_inv_side (w w' : World) :
  banner_side w w' -> arms_no_kickoff w w' -> kickoff_inv w -> kickoff_inv w'.
Proof.
  intros (S & _ & D). apply kickoff_inv_keep; [rewrite S; reflexivity | exact D].
Qed.

(** With no kickoff timeout armed the invariant holds whatever the rest. *)
Lemma kickoff_inv_none (w : World) : kickoffs (timers w) = [] -> kickoff_inv w.
Proof.
  intros E. unfold kickoff_inv. rewrite E. split; [constructor|]. split; [simpl; lia | auto].
Qed.

(** Clearing the handle cancels the kickoff timeout that is armed. *)
Lemma clear_delay_kickoffs (w : World) :
  Forall (fun x => bannerDelayTimer (handles w) = Some (t_handle x) /\ t_every x = None)
         (kickoffs (timers w)) ->
  kickoffs (timers (match bannerDelayTimer (handles w) with
                    | Some h => upd_handles (set_bannerDelayTimer None) (clearTimer h w)
                    | None => w
                    end)) = [].
Proof.
  intros H. destruct (bannerDelayTimer (handles w)) as [h|].
  - cbn [timers upd_handles clearTimer set_timers].
    induction (timers w) as [|x l IH]; [reflexivity|].
    cbn [kickoffs List.filter] in H. cbn [drop_timer]. fold (kickoffs l) in H.
    destruct (is_kickoff x) eqn:K.
    + inversion H as [|? ? [Hx _] Hl]; subst. injection Hx as <-.
      rewrite Nat.eqb_refl. exact (IH Hl).
    + destruct (Nat.eqb (t_handle x) h); [exact (IH H)|].
      cbn [kickoffs List.filter]. rewrite K. exact (IH H).
  - destruct (kickoffs (timers w)) as [|x l]; [reflexivity|].
    inversion H as [|? ? [Hx _] _]. discriminate.
Qed.

Lemma arms_no_kickoff_nil (w w' : World) :
  arms_no_kickoff w w' -> kickoffs (timers w) = [] -> kickoffs (timers w') = [].
Proof.
  intros [_ A] E. rewrite E in A. destruct (kickoffs (timers w')); [reflexivity|].
  simpl in A. lia.
Qed.

Lemma kickoffs_rearm (h : nat) (p : Z) (l : list Timer) :
  kickoffs (rearm h p l) = rearm h p (kickoffs l).
Proof.
  induction l as [|x l IH]; [reflexivity|].
  cbn [rearm map kickoffs List.filter]. fold (rearm h p l). fold (kickoffs l).
  fold (kickoffs (rearm h p l)).
  assert (E : is_kickoff (if Nat.eqb (t_handle x) h
                          then {| t_handle := t_handle x; t_due := t_due x + p;
                                  t_every := t_every x; t_run := t_run x |}
                          else x) = is_kickoff x)
    by (destruct (Nat.eqb (t_handle x) h); reflexivity).
  rewrite E. destruct (is_kickoff x); cbn [rearm map]; rewrite IH; reflexivity.
Qed.

Lemma rearm_kickoff_inv (h : nat) (p : Z) (w : World) :
  kickoff_inv w -> kickoff_inv (set_timers (rearm h p (timers w)) w).
Proof.
  intros (H & N & Q). unfold kickoff_inv.
  cbn [timers handles shelf set_timers]. rewrite kickoffs_rearm.
  split; [|split].
  - unfold rearm. apply Forall_fmap. revert H. apply List.Forall_impl.
    intros x Hx. cbn. destruct (Nat.eqb (t_handle x) h); exact Hx.
  - unfold rearm. rewrite length_map. exact N.
  - intros L. rewrite (Q L). reflexivity.
Qed.

Lemma kickoffs_elem (x : Timer) (l : list Timer) :
  x ∈ l -> is_kickoff x = true -> x ∈ kickoffs l.
Proof.
  intros Hx K. apply list_elem_of_In. apply List.filter_In. split; [|exact K].
  apply list_elem_of_In, Hx.
Qed.

Lemma held_drop_own (d : option nat) (h : nat) (l : list Timer) :
  Forall (fun x => d = Some (t_handle x) /\ t_every x = None) (kickoffs l) ->
  d = Some h -> kickoffs (drop_timer h l) = [].
Proof.
  intros H ->. induction l as [|x l IH]; [reflexivity|].
  cbn [kickoffs List.filter] in H. cbn [drop_timer]. fold (kickoffs l) in H.
  destruct (is_kickoff x) eqn:K.
  - inversion H as [|? ? [Hx _] Hl]; subst. injection Hx as <-.
    rewrite Nat.eqb_refl. exact (IH Hl).
  - destruct (Nat.eqb (t_handle x) h); [exact (IH H)|].
    cbn [kickoffs List.filter]. rewrite K. exact (IH H).
Qed.

Lemma kickoff_banner_arms (call : nat) (w : World) :
  arms_no_kickoff w (kickoff_banner call w).
Proof.
  unfold kickoff_banner.
  set (w1 := if negb (bannerVisible (banner w)) && loading (shelf w)
             then startServerWakeBanner false (lit "Unable to load books") w else w).
  assert (A : arms_no_kickoff w w1).
  { subst w1. destruct (negb (bannerVisible (banner w)) && loading (shelf w)).
    - apply startServerWakeBanner_arms.
    - apply arms_no_kickoff_refl. reflexivity. }
  clearbody w1. eapply arms_no_kickoff_trans; [exact A|].
  apply arms_no_kickoff_refl. reflexivity.
Qed.

Lemma fire_kickoff_inv (w : World) (x : Timer) :
  kickoff_inv w -> x ∈ timers w ->
  kickoff_inv (run_callback (t_run x)
                 (set_timers (match t_every x with
                              | Some p => rearm (t_handle x) p (timers w)
                              | None => drop_timer (t_handle x) (timers w)
                              end) w)).
Proof.
  intros I Hx. pose proof I as (H & N & Q).
  destruct (is_kickoff x) eqn:K.
  - pose proof (kickoffs_elem x _ Hx K) as Hk.
    destruct (proj1 (Forall_forall _ _) H x Hk) as [D E]. rewrite E.
    apply kickoff_inv_none.
    unfold is_kickoff in K. destruct (t_run x) as [call| | |]; try discriminate.
    cbn [run_callback].
    apply (arms_no_kickoff_nil _ _ (kickoff_banner_arms call _)).
    cbn [timers set_timers]. exact (held_drop_own _ _ _ H D).
  - set (v := set_timers _ w).
    assert (Iv : kickoff_inv v).
    { subst v. destruct (t_every x) as [p|]; [apply rearm_kickoff_inv, I|].
      revert I. apply kickoff_inv_keep; try reflexivity.
      apply (arms_no_kickoff_drop w _ (Some (t_handle x)) []); [|constructor].
      simpl. symmetry. apply app_nil_r. }
    clearbody v. unfold is_kickoff in K.
    destruct (t_run x) as [call| |g|]; try discriminate; cbn [run_callback].
    + revert Iv. apply kickoff_inv_side; [apply countdown_tick_side | apply countdown_tick_arms].
    + revert Iv. apply kickoff_inv_side; [apply grace_tick_side | apply grace_tick_arms].
    + revert Iv. apply kickoff_inv_side; [apply hideBanner_side | apply hideBanner_arms].
Qed.

(** A load is started while none is in flight: its timeout is the only one. *)
Lemma fetchBooks_kickoff (al : bool) (w : World) :
  loading (shelf w) = false ->
  kickoff_inv w -> kickoff_inv (fetchBooks false true al TopLevel w).
Proof.
  intros L (_ & _ & Q). specialize (Q L).
  unfold kickoff_inv.
  assert (E : timers (fetchBooks false true al TopLevel w)
              = timers w ++ [{| t_handle := nextHandle w; t_due := now w + 1200;
                                t_every := None; t_run := KickoffBanner (nextCall w) |}]
              /\ bannerDelayTimer (handles (fetchBooks false true al TopLevel w))
                 = Some (nextHandle w)
              /\ loading (shelf (fetchBooks false true al TopLevel w)) = true)
    by (repeat split).
  destruct E as (-> & -> & ->).
  unfold kickoffs at 1 2 3. rewrite List.filter_app. fold (kickoffs (timers w)). rewrite Q.
  cbn. split; [repeat constructor|]. split; [lia | discriminate].
Qed.

Lemma fetchBooks_try_arms (data : list Item) (w : World) :
  arms_no_kickoff w (fetchBooks_try data w)
  /\ bannerDelayTimer (handles (fetchBooks_try data w)) = bannerDelayTimer (handles w).
Proof.
  unfold fetchBooks_try. cbv zeta. set (v := setMessage _ _).
  destruct (hideBanner_side v) as (_ & _ & D). rewrite D. split; [|reflexivity].
  eapply arms_no_kickoff_trans; [|apply hideBanner_arms].
  apply arms_no_kickoff_refl. reflexivity.
Qed.

(** After the [try] or the [catch], an armed kickoff timeout is still the
    one held in the handle. *)
Lemma fetchBooks_catch_held (c : FetchCall) (has : bool) (m : ustring) (w : World) :
  Forall (fun x => bannerDelayTimer (handles w) = Some (t_handle x) /\ t_every x = None)
         (kickoffs (timers w)) ->
  let w' := fetchBooks_catch c has m w in
  Forall (fun x => bannerDelayTimer (handles w') = Some (t_handle x) /\ t_every x = None)
         (kickoffs (timers w')).
Proof.
  intros H. unfold fetchBooks_catch.
  set (w0 := if fc_silent c then w else setMessage m w).
  assert (H0 : Forall (fun x => bannerDelayTimer (handles w0) = Some (t_handle x)
                                /\ t_every x = None) (kickoffs (timers w0)))
    by (subst w0; destruct (fc_silent c); exact H).
  clearbody w0.
  destruct (fc_triggerBannerOnFailure c && negb (bannerVisible (banner w0))); [|exact H0].
  pose proof (clear_delay_kickoffs w0 H0) as E2.
  revert E2.
  set (w2 := match bannerDelayTimer (handles w0) with
             | Some h => upd_handles (set_bannerDelayTimer None) (clearTimer h w0)
             | None => w0
             end).
  intros E2. clearbody w2. cbv zeta.
  match goal with
  | |- context [startServerWakeBanner ?i ?f w2] =>
      rewrite (arms_no_kickoff_nil _ _ (startServerWakeBanner_arms i f w2) E2)
  end.
  constructor.
Qed.

Lemma fetchBooks_resume_kickoffs (c : FetchCall) (o : Outcome (list Item)) (w : World) :
  Forall (fun x => bannerDelayTimer (handles w) = Some (t_handle x) /\ t_every x = None)
         (kickoffs (timers w)) ->
  kickoffs (timers (fetchBooks_resume c o w)) = [].
Proof.
  intros H. rewrite fetchBooks_resume_parts.
  set (w1 := match settle_books o with
             | inl (has_response, message) => fetchBooks_catch c has_response message w
             | inr data => fetchBooks_try data w
             end).
  assert (H1 : Forall (fun x => bannerDelayTimer (handles w1) = Some (t_handle x)
                                /\ t_every x = None) (kickoffs (timers w1))).
  { subst w1. destruct (settle_books o) as [[has m]|data].
    - apply fetchBooks_catch_held, H.
    - destruct (fetchBooks_try_arms data w) as ([A _] & D). rewrite D. apply A, H. }
  clearbody w1.
  assert (E2 : kickoffs (timers (fetchBooks_finally c w1)) = []).
  { unfold fetchBooks_finally. pose proof (clear_delay_kickoffs w1 H1) as E.
    revert E. generalize (match bannerDelayTimer (handles w1) with
                          | Some h => upd_handles (set_bannerDelayTimer None) (clearTimer h w1)
                          | None => w1
                          end).
    intros w2 E. destruct (fc_silent c); exact E. }
  revert E2. generalize (fetchBooks_finally c w1). intros w2 E2.
  unfold fetchBooks_return. destruct (fc_caller c) as [|g]; [exact E2|].
  apply (arms_no_kickoff_nil _ _ (after_retry_arms g _)). exact E2.
Qed.

Lemma act_kickoff_inv (w w' : World) (a : Action) :
  load_inv w -> kickoff_inv w -> act a w = Some w' -> kickoff_inv w'.
Proof.
  intros LI I Ha. destruct a; simpl in Ha.
  - destruct (lifecycle w) eqn:Lc; try discriminate. injection Ha as <-.
    apply fetchBooks_kickoff; [apply LI; exact Lc | exact I].
  - destruct (lifecycle w) eqn:Lc; try discriminate. injection Ha as <-.
    destruct (clearBannerTimers_side (set_lifecycle Unmounted w)) as (S & _ & D).
    revert I. apply kickoff_inv_keep; [rewrite S; reflexivity | exact D|].
    eapply arms_no_kickoff_trans; [|apply clearBannerTimers_arms].
    apply arms_no_kickoff_refl. reflexivity.
  - unfold usable in Ha. destruct (lifecycle w); try discriminate.
    destruct (loading (shelf w)) eqn:L; [discriminate|]. injection Ha as <-.
    apply fetchBooks_kickoff; assumption.
  - destruct (usable w); [|discriminate]. injection Ha as <-.
    destruct (saveBook_same w) as (_ & Hh & T & L & _).
    revert I. apply kickoff_inv_keep; [exact L | rewrite Hh; reflexivity|].
    apply arms_no_kickoff_refl, T.
  - destruct (_ && _); [|discriminate]. injection Ha as <-.
    revert I. apply kickoff_inv_keep; try reflexivity. apply arms_no_kickoff_refl. reflexivity.
  - destruct (_ && _); [|discriminate]. injection Ha as <-.
    revert I. apply kickoff_inv_keep; try reflexivity. apply arms_no_kickoff_refl. reflexivity.
  - destruct (_ && _); [|discriminate]. injection Ha as <-.
    revert I. apply kickoff_inv_keep; try reflexivity. apply arms_no_kickoff_refl. reflexivity.
  - destruct (usable w); [|discriminate]. injection Ha as <-.
    revert I. apply kickoff_inv_keep; try reflexivity. apply arms_no_kickoff_refl. reflexivity.
  - destruct (take_request call (pending w)) as [[r rest]|]; [|discriminate].
    destruct r as [c| |]; try discriminate. injection Ha as <-.
    apply kickoff_inv_none, fetchBooks_resume_kickoffs. apply I.
  - destruct (take_request call (pending w)) as [[r rest]|]; [|discriminate].
    destruct r as [|ie tg nm|]; try discriminate. injection Ha as <-.
    destruct (saveBook_resume_same ie o (set_pending rest w))
      as (_ & Hh & T & _ & _ & L & _).
    revert I. apply kickoff_inv_keep; [exact L | rewrite Hh; reflexivity|].
    apply arms_no_kickoff_refl, T.
  - destruct (take_request call (pending w)) as [[r rest]|]; [|discriminate].
    destruct r as [| |id]; try discriminate. injection Ha as <-.
    destruct (removeBook_resume_same id o (set_pending rest w))
      as (_ & Hh & T & _ & _ & L & _).
    revert I. apply kickoff_inv_keep; [exact L | rewrite Hh; reflexivity|].
    apply arms_no_kickoff_refl, T.
Qed.

Lemma reachable_kickoff_inv (w : World) : reachable w -> load_inv w /\ kickoff_inv w.
Proof.
  apply (reachable_invariant (fun w => load_inv w /\ kickoff_inv w)).
  - split; [exact init_load_inv | apply kickoff_inv_none; reflexivity].
  - apply (step_invariant (fun u => load_inv u /\ kickoff_inv u)).
    + intros t u [A B]. split.
      * revert A. apply load_inv_grow; try reflexivity. left. split; reflexivity.
      * revert B. apply kickoff_inv_keep; try reflexivity.
        apply arms_no_kickoff_refl. reflexivity.
    + intros u x [A B] Hx _. split.
      * apply run_callback_load. revert A.
        apply load_inv_grow; try reflexivity. left. split; reflexivity.
      * apply fire_kickoff_inv; assumption.
    + intros u a u' [A B] Ha. split.
      * exact (act_load_inv u u' a A Ha).
      * exact (act_kickoff_inv u u' a A B Ha).
Qed.

(** ** What holds in every reachable state *)

Lemma step_at_inv (w w' : World) (t : Z) (a : Action) :
  step w (At t a) = Some w' -> act a (set_now t w) = Some w'.
Proof. simpl. destruct (_ && _); [exact id | discriminate]. Qed.

(** X9. While the banner is hidden it is idle: the phase is idle, no countdown and
    no message are displayed, the countdown, grace and final handles are
    [null] and neither interval is armed. This holds in every state the
    component can reach. *)
Theorem hidden_banner_is_idle (w : World) :
  reachable w -> bannerVisible (banner w) = false ->
  bannerPhase (banner w) = Idle
  /\ bannerCountdown (banner w) = None
  /\ bannerMessage (banner w) = []
  /\ handles_cleared w
  /\ quiet (timers w).
Proof.
  intros R V. destruct (reachable_banner_inv w R) as (H & _ & Hh & _).
  destruct (Hh V) as ((_ & P & C & M) & Hc).
  split; [exact P|]. split; [exact C|]. split; [exact M|]. split; [exact Hc|].
  destruct Hc as (Cd & G & _). exact (held_none _ _ H Cd G).
Qed.

Lemma hidden_banner_is_idle_witness :
  let w := after init shown_then_hidden in
  reachable w /\ bannerVisible (banner w) = false /\ bannerPhase (banner w) = Idle.
Proof.
  cbv zeta. split; [exists shown_then_hidden; run_it|]. split; [run_it|].
  apply (hidden_banner_is_idle (after init shown_then_hidden)).
  - exists shown_then_hidden. run_it.
  - run_it.
Defined.

(** X10. At most one of the two intervals of the banner is armed at any time, and
    only while the banner is visible; the armed interval is the one whose
    handle the component holds in the variable of its kind, the other variable
    being [null]. So [clearBannerTimers] always reaches the interval that is
    armed. *)
Theorem one_interval_armed (w : World) :
  reachable w ->
  (List.length (intervals (timers w)) <= 1)%nat
  /\ (forall x, x ∈ timers w -> is_interval x = true -> bannerVisible (banner w) = true)
  /\ (forall x, x ∈ timers w -> t_run x = CountdownTick ->
        countdownTimer (handles w) = Some (t_handle x) /\ graceTimer (handles w) = None)
  /\ (forall x g, x ∈ timers w -> t_run x = GraceTick g ->
        graceTimer (handles w) = Some (t_handle x) /\ countdownTimer (handles w) = None).
Proof.
  intros R. destruct (reachable_banner_inv w R) as (H & L & Hh & _).
  assert (Hx : forall x, x ∈ timers w -> held (handles w) x)
    by (apply Forall_forall, H).
  split; [exact L|]. split; [|split].
  - intros x Hin Hi. destruct (bannerVisible (banner w)) eqn:V; [reflexivity|].
    destruct (Hh eq_refl) as (_ & C & G & _). specialize (Hx x Hin).
    unfold held in Hx. unfold is_interval in Hi.
    destruct (t_run x); try discriminate; destruct Hx; congruence.
  - intros x Hin Hr. specialize (Hx x Hin). unfold held in Hx. rewrite Hr in Hx. exact Hx.
  - intros x g Hin Hr. specialize (Hx x Hin). unfold held in Hx. rewrite Hr in Hx. exact Hx.
Qed.

Lemma one_interval_armed_witness :
  reachable kicked_off
  /\ intervals (timers kicked_off) = [countdown_timer 2 2200]
  /\ (List.length (intervals (timers kicked_off)) <= 1)%nat.
Proof.
  split; [exists kickoff_run; run_it|]. split; [run_it|].
  apply (one_interval_armed kicked_off). exists kickoff_run. run_it.
Defined.

(** X11. The countdown the banner displays is always a number from 1 to 25. *)
Theorem countdown_between_1_and_25 (w : World) (k : Z) :
  reachable w -> bannerCountdown (banner w) = Some k -> 1 <= k <= 25.
Proof.
  intros R E. destruct (reachable_banner_inv w R) as (_ & _ & _ & C).
  unfold countdown_in_range in C. rewrite E in C. exact C.
Qed.

Lemma countdown_between_1_and_25_witness :
  let w := after init (take 4 slow_first_retry) in
  reachable w /\ bannerCountdown (banner w) = Some 23 /\ 1 <= 23 <= 25.
Proof.
  cbv zeta. split; [exists (take 4 slow_first_retry); run_it|]. split; [run_it|].
  apply (countdown_between_1_and_25 (after init (take 4 slow_first_retry)) 23).
  - exists (take 4 slow_first_retry). run_it.
  - run_it.
Defined.

(** X12. Teardown and the success of a [fetchBooks] call stop the ticking in every
    reachable state: afterwards the three handles are [null] and neither the
    countdown nor the grace interval is armed (what can stay armed is a one-
    shot: the kickoff timeout, or a hide timer whose handle was overwritten). *)
Theorem teardown_and_success_stop_ticks (w w' : World) (t : Z) :
  reachable w ->
  step w (At t Unmount) = Some w'
  \/ (exists call o, ~ fetch_failed o /\ step w (At t (BooksAnswer call o)) = Some w') ->
  handles_cleared w' /\ quiet (timers w').
Proof.
  intros R S.
  assert (R' : reachable w')
    by (destruct S as [S | (call & o & _ & S)]; exact (reachable_step _ _ _ R S)).
  assert (Hc : handles_cleared w').
  { destruct S as [S | (call & o & Ok & S)].
    - apply step_at_inv in S. simpl in S.
      destruct (lifecycle w); try discriminate. injection S as <-.
      apply clearBannerTimers_view.
    - apply (answer_success w w' t call o S Ok). }
  split; [exact Hc|].
  destruct (reachable_banner_inv w' R') as (H & _). destruct Hc as (C & G & _).
  exact (held_none _ _ H C G).
Qed.

Lemma teardown_and_success_stop_ticks_witness :
  let w := after init teardown_in_countdown in
  let w' := after w [At 2500 Unmount] in
  reachable w /\ step w (At 2500 Unmount) = Some w'
  /\ List.length (intervals (timers w)) = 1%nat
  /\ quiet (timers w').
Proof.
  cbv zeta. split; [exists teardown_in_countdown; run_it|]. split; [run_it|].
  split; [run_it|].
  apply (teardown_and_success_stop_ticks (after init teardown_in_countdown) _ 2500).
  - exists teardown_in_countdown. run_it.
  - left. run_it.
Defined.

(** X13. At most one load (a [fetchBooks] call that is not silent) is in flight at
    any time, and [loading] is true exactly while one is; the refresh button
    cannot start a second one. *)
Theorem one_load_in_flight (w : World) :
  reachable w ->
  (loads_in_flight w <= 1)%nat
  /\ (loading (shelf w) = true <-> loads_in_flight w = 1%nat)
  /\ (loading (shelf w) = true -> forall t, step w (At t ClickRefresh) = None).
Proof.
  intros R. destruct (reachable_load_inv w R) as (K & F & _).
  split; [|split].
  - rewrite K. destruct (loading (shelf w)); lia.
  - rewrite K. destruct (loading (shelf w)); split; (congruence || lia).
  - intros L t. simpl. destruct (_ && _); [|reflexivity].
    unfold usable. cbn [lifecycle shelf set_now]. rewrite L.
    destruct (lifecycle w); reflexivity.
Qed.

Lemma one_load_in_flight_witness :
  reachable kicked_off
  /\ List.length (pending kicked_off) = 2%nat
  /\ (loads_in_flight kicked_off <= 1)%nat.
Proof.
  split; [exists kickoff_run; run_it|]. split; [run_it|].
  apply (one_load_in_flight kicked_off). exists kickoff_run. run_it.
Defined.

Lemma fetchBooks_resume_delay (c : FetchCall) (o : Outcome (list Item)) (w : World) :
  bannerDelayTimer (handles (fetchBooks_resume c o w)) = None.
Proof.
  rewrite fetchBooks_resume_parts.
  generalize (match settle_books o with
              | inl (has_response, message) => fetchBooks_catch c has_response message w
              | inr data => fetchBooks_try data w
              end).
  intros w1.
  assert (E : bannerDelayTimer (handles (fetchBooks_finally c w1)) = None).
  { unfold fetchBooks_finally.
    destruct (bannerDelayTimer (handles w1)) eqn:D; destruct (fc_silent c);
      try reflexivity; exact D. }
  revert E. generalize (fetchBooks_finally c w1). intros w2 E.
  unfold fetchBooks_return. destruct (fc_caller c) as [|g]; [exact E|].
  destruct (after_retry_side g (upd_handles (set_bannerFetchInFlight false) w2))
    as (_ & _ & D).
  rewrite D. exact E.
Qed.

(** X14. The 1200 ms kickoff timeout of [fetchBooks]: at most one is armed, it is a
    one-shot held in [bannerDelayTimer], and it is armed only while [loading]
    is true, so the [loading.value] test of its callback always succeeds. The
    completion of any [fetchBooks] call, a silent retry included, cancels it. *)
Theorem kickoff_only_while_loading (w : World) :
  reachable w ->
  (List.length (kickoffs (timers w)) <= 1)%nat
  /\ (forall x call, x ∈ timers w -> t_run x = KickoffBanner call ->
        loading (shelf w) = true
        /\ bannerDelayTimer (handles w) = Some (t_handle x)
        /\ t_every x = None)
  /\ (forall t call o w', step w (At t (BooksAnswer call o)) = Some w' ->
        kickoffs (timers w') = [] /\ bannerDelayTimer (handles w') = None).
Proof.
  intros R. destruct (reachable_kickoff_inv w R) as (_ & H & N & Q).
  split; [exact N|]. split.
  - intros x call Hin Hr.
    assert (K : is_kickoff x = true) by (unfold is_kickoff; rewrite Hr; reflexivity).
    pose proof (kickoffs_elem x _ Hin K) as Hk.
    destruct (proj1 (Forall_forall _ _) H x Hk) as [D E].
    split; [|split; assumption].
    destruct (loading (shelf w)) eqn:L; [reflexivity|].
    rewrite (Q eq_refl) in Hk. apply elem_of_nil in Hk. destruct Hk.
  - intros t call o w' S.
    destruct (step_answer_inv _ _ _ _ _ S) as (_ & _ & c & rest & _ & ->).
    split; [|apply fetchBooks_resume_delay].
    apply fetchBooks_resume_kickoffs. exact H.
Qed.

Lemma kickoff_only_while_loading_witness :
  let w := after init [At 0 Mount] in
  reachable w /\ loading (shelf w) = true
  /\ (List.length (kickoffs (timers w)) <= 1)%nat.
Proof.
  cbv zeta. split; [exists [At 0 Mount]; run_it|]. split; [run_it|].
  apply (kickoff_only_while_loading (after init [At 0 Mount])).
  exists [At 0 Mount]. run_it.
Defined.

(** ** What a completed [fetchBooks] call does to the shelf *)

Lemma fetchBooks_resume_shelf_success (c : FetchCall) (st : Z) (data : list Item)
    (w : World) :
  ok st = true ->
  shelf (fetchBooks_resume c (Responded st (inr data)) w)
  = (if fc_silent c then id else set_loading false)
      (set_statusMessage (lit "Reading list refreshed. Ready for more stories!")
         (set_colorMap (assignColors_loop data (nextColorIndex w) (colorMap (shelf w)))
            (set_books data (shelf w)))).
Proof.
  intros Hok. rewrite fetchBooks_resume_parts.
  assert (E : settle_books (Responded st (inr data)) = inr data)
    by (unfold settle_books; rewrite Hok; reflexivity).
  rewrite E.
  assert (E1 : shelf (fetchBooks_try data w)
               = set_statusMessage (lit "Reading list refreshed. Ready for more stories!")
                   (set_colorMap (assignColors_loop data (nextColorIndex w)
                                    (colorMap (shelf w)))
                      (set_books data (shelf w)))).
  { unfold fetchBooks_try. cbv zeta.
    match goal with |- context [hideBanner ?x] => destruct (hideBanner_side x) as (-> & _) end.
    reflexivity. }
  revert E1. generalize (fetchBooks_try data w). intros w1 E1.
  assert (E2 : shelf (fetchBooks_finally c w1)
               = (if fc_silent c then id else set_loading false) (shelf w1)).
  { unfold fetchBooks_finally.
    destruct (bannerDelayTimer (handles w1)); destruct (fc_silent c); reflexivity. }
  revert E2. generalize (fetchBooks_finally c w1). intros w2 E2.
  assert (E3 : shelf (fetchBooks_return c w2) = shelf w2).
  { unfold fetchBooks_return. destruct (fc_caller c) as [|g]; [reflexivity|].
    destruct (after_retry_side g (upd_handles (set_bannerFetchInFlight false) w2))
      as (-> & _). reflexivity. }
  rewrite E3, E2, E1. reflexivity.
Qed.

(** X15. A [fetchBooks] call that succeeds, silent or not, replaces the list by the
    answer, gives every book of it a colour while keeping the colours there
    were (entries of books that are gone stay in the map), shows the refreshed
    message and hides the banner. A silent call leaves [loading] as it is, any
    other call resets it. The form is not touched, so an edit in progress
    survives the refresh. *)
Theorem fetch_success_refreshes_shelf (c : FetchCall) (st : Z) (data : list Item)
    (w : World) :
  ok st = true ->
  let w' := fetchBooks_resume c (Responded st (inr data)) w in
  books (shelf w') = data
  /\ (forall b, b ∈ data -> is_Some (colorMap (shelf w') !! item_id b))
  /\ (forall id g, colorMap (shelf w) !! id = Some g -> colorMap (shelf w') !! id = Some g)
  /\ statusMessage (shelf w') = lit "Reading list refreshed. Ready for more stories!"
  /\ loading (shelf w') = (if fc_silent c then loading (shelf w) else false)
  /\ formName (shelf w') = formName (shelf w)
  /\ editingId (shelf w') = editingId (shelf w)
  /\ hidden w'.
Proof.
  intros Hok w'. subst w'.
  pose proof (fetchBooks_resume_shelf_success c st data w Hok) as E.
  assert (Hs : settle_books (Responded st (inr data)) = inr data)
    by (unfold settle_books; rewrite Hok; reflexivity).
  destruct (fetchBooks_resume_success c _ data w Hs) as (Hh & _).
  revert E Hh. generalize (fetchBooks_resume c (Responded st (inr data)) w).
  intros w' E Hh. rewrite E.
  generalize (nextColorIndex w). intros i.
  destruct (shelf w) as [bk cm fn ed sm ld].
  cbn [colorMap books formName editingId statusMessage loading].
  assert (Hc : forall b, b ∈ data -> is_Some (assignColors_loop data i cm !! item_id b))
    by (intros b; apply assignColors_loop_covers).
  assert (Hk : forall id g, cm !! id = Some g -> assignColors_loop data i cm !! id = Some g)
    by (intros id g; apply assignColors_loop_keeps).
  destruct (fc_silent c);
    cbn [id set_loading set_statusMessage set_colorMap set_books
         colorMap books formName editingId statusMessage loading];
    (split; [reflexivity|]); (split; [exact Hc|]); (split; [exact Hk|]);
    do 4 (split; [reflexivity|]); exact Hh.
Qed.

Lemma fetch_success_refreshes_shelf_witness :
  ok 200 = true
  /\ books (shelf (fetchBooks_resume (retry_call None) (Responded 200 (inr [dune; emma]))
                     kicked_off)) = [dune; emma].
Proof.
  split; [reflexivity|].
  apply (fetch_success_refreshes_shelf (retry_call None) 200 [dune; emma] kicked_off).
  reflexivity.
Defined.



(** ** An edit answered after the form has moved on *)

Lemma take_request_fresh (n : nat) (r : Request) (l : list (nat * Request)) :
  Forall (fun p : nat * Request => (fst p < n)%nat) l ->
  take_request n (l ++ [(n, r)]) = Some (r, l).
Proof.
  induction 1 as [|[i q] l Hi _ IH]; simpl.
  - rewrite Nat.eqb_refl. reflexivity.
  - simpl in Hi. destruct (Nat.eqb_spec i n); [lia|]. rewrite IH. reflexivity.
Qed.

Lemma findIndex_none (l : list Item) : findIndex None l = None.
Proof.
  induction l as [|b l IH]; [reflexivity|]. simpl.
  destruct (decide (Some (item_id b) = None)); [discriminate|]. rewrite IH. reflexivity.
Qed.

Lemma findIndex_elem (b : Item) (l : list Item) :
  b ∈ l ->
  exists i b', findIndex (Some (item_id b)) l = Some i
               /\ l !! i = Some b' /\ item_id b' = item_id b.
Proof.
  induction l as [|x l IH]; intros H; [apply elem_of_nil in H; destruct H|].
  simpl. destruct (decide (Some (item_id x) = Some (item_id b))) as [E|N].
  - exists O, x. split; [reflexivity|]. split; [reflexivity | congruence].
  - apply elem_of_cons in H as [->|H]; [congruence|].
    destruct (IH H) as (i & b' & -> & Hl & Hid).
    exists (S i), b'. split; [reflexivity|]. split; assumption.
Qed.

Lemma saveBook_resume_edited (st : Z) (data : Item) (v : World) :
  ok st = true ->
  let v' := saveBook_resume true (Responded st (inr data)) v in
  books (shelf v')
  = match findIndex (editingId (shelf v)) (books (shelf v)) with
    | Some i => <[i := data]> (books (shelf v))
    | None => books (shelf v)
    end
  /\ statusMessage (shelf v') = lit "Book note updated. Turn the next page!"
  /\ editingId (shelf v') = None
  /\ pending v' = pending v.
Proof.
  intros Hok. cbv zeta. unfold saveBook_resume. rewrite Hok. cbn [negb].
  destruct (findIndex (editingId (shelf v)) (books (shelf v))); repeat split.
Qed.

Lemma step_save_answer_inv (w w' : World) (t : Z) (call : nat) (o : Outcome Item)
    (ie : bool) (tg : option Z) (nm : ustring) (rest : list (nat * Request)) :
  take_request call (pending w) = Some (ReqSave ie tg nm, rest) ->
  step w (At t (SaveAnswer call o)) = Some w' ->
  saveBook_resume ie o (set_pending rest (set_now t w)) = w'.
Proof.
  intros T S. apply step_at_inv in S. cbn [act] in S.
  change (pending (set_now t w)) with (pending w) in S. rewrite T in S.
  congruence.
Qed.

(** X17. The answer to a PATCH is applied to the book that is being edited when the
    answer arrives, not to the book the request was sent for: [saveBook] looks
    [editingId] up again after its [await], and the form stays usable in
    between. If the edit has been cancelled meanwhile, the list is left as it
    was, yet the status says the note was updated; if another book has been
    put in the form meanwhile, that book's entry is replaced by the answer. *)
Theorem patch_answer_follows_the_form (w w1 : World) (t1 : Z) (st : Z) (data : Item) :
  reachable w ->
  is_editing (editingId (shelf w)) = true ->
  whitespace_only (formName (shelf w)) = false ->
  ok st = true ->
  step w (At t1 SubmitForm) = Some w1 ->
  pending w1
  = pending w ++ [(nextCall w, ReqSave true (editingId (shelf w))
                                  (trim (formName (shelf w))))]
  /\ (forall (t2 t3 : Z) (w2 w3 : World),
        step w1 (At t2 ClickCancelEdit) = Some w2 ->
        step w2 (At t3 (SaveAnswer (nextCall w) (Responded st (inr data)))) = Some w3 ->
        books (shelf w3) = books (shelf w)
        /\ statusMessage (shelf w3) = lit "Book note updated. Turn the next page!"
        /\ pending w3 = pending w)
  /\ (forall (t2 t3 : Z) (b : Item) (w2 w3 : World),
        step w1 (At t2 (ClickEdit b)) = Some w2 ->
        step w2 (At t3 (SaveAnswer (nextCall w) (Responded st (inr data)))) = Some w3 ->
        exists i b', findIndex (Some (item_id b)) (books (shelf w)) = Some i
                     /\ books (shelf w) !! i = Some b'
                     /\ item_id b' = item_id b
                     /\ books (shelf w3) = <[i := data]> (books (shelf w))
                     /\ editingId (shelf w3) = None).
Proof.
  intros R Ed Nb Hok S1.
  destruct (reachable_load_inv w R) as (_ & F & _).
  apply step_at_inv in S1. cbn [act] in S1.
  destruct (usable (set_now t1 w)); [|discriminate]. injection S1 as E1.
  assert (T : truthy_string (trim (formName (shelf w))) = true).
  { destruct (trim (formName (shelf w))) eqn:E; [|reflexivity].
    apply trim_blank_iff in E. congruence. }
  assert (P1 : pending w1
               = pending w ++ [(nextCall w, ReqSave true (editingId (shelf w))
                                               (trim (formName (shelf w))))]
               /\ books (shelf w1) = books (shelf w)).
  { rewrite <- E1. unfold saveBook. cbn [shelf set_now]. rewrite T, Ed.
    split; reflexivity. }
  clear E1. destruct P1 as (P1 & B1).
  assert (Take : take_request (nextCall w) (pending w1)
                 = Some (ReqSave true (editingId (shelf w)) (trim (formName (shelf w))),
                         pending w))
    by (rewrite P1; apply take_request_fresh, F).
  split; [exact P1|]. split.
  - intros t2 t3 w2 w3 S2 S3.
    apply step_at_inv in S2. cbn [act] in S2.
    destruct (_ && _); [|discriminate]. injection S2 as E2.
    assert (F2 : pending w2 = pending w1 /\ editingId (shelf w2) = None
                 /\ books (shelf w2) = books (shelf w1))
      by (rewrite <- E2; repeat split).
    clear E2. destruct F2 as (P2 & Ed2 & B2).
    rewrite <- P2 in Take.
    pose proof (step_save_answer_inv _ _ _ _ _ _ _ _ _ Take S3) as E3.
    set (v := set_pending (pending w) (set_now t3 w2)) in E3.
    assert (Fv : editingId (shelf v) = None /\ books (shelf v) = books (shelf w)
                 /\ pending v = pending w)
      by (subst v; cbn [shelf pending set_pending set_now]; rewrite Ed2, B2, B1;
          repeat split).
    clearbody v. destruct Fv as (Edv & Bv & Pv).
    destruct (saveBook_resume_edited st data v Hok) as (Bk & Sm & _ & Pd).
    rewrite E3 in Bk, Sm, Pd. rewrite Edv, findIndex_none in Bk.
    rewrite Bk, Sm, Pd. repeat split; assumption.
  - intros t2 t3 b w2 w3 S2 S3.
    apply step_at_inv in S2. cbn [act] in S2.
    destruct (usable (set_now t2 w1)); [|discriminate].
    cbn [andb] in S2.
    change (books (shelf (set_now t2 w1))) with (books (shelf w1)) in S2.
    destruct (bool_decide (b ∈ books (shelf w1))) eqn:Hb; [|discriminate].
    apply bool_decide_eq_true in Hb. rewrite B1 in Hb. injection S2 as E2.
    assert (F2 : pending w2 = pending w1 /\ editingId (shelf w2) = Some (item_id b)
                 /\ books (shelf w2) = books (shelf w1))
      by (rewrite <- E2; repeat split).
    clear E2. destruct F2 as (P2 & Ed2 & B2).
    rewrite <- P2 in Take.
    pose proof (step_save_answer_inv _ _ _ _ _ _ _ _ _ Take S3) as E3.
    set (v := set_pending (pending w) (set_now t3 w2)) in E3.
    assert (Fv : editingId (shelf v) = Some (item_id b)
                 /\ books (shelf v) = books (shelf w))
      by (subst v; cbn [shelf pending set_pending set_now]; rewrite Ed2, B2, B1;
          repeat split).
    clearbody v. destruct Fv as (Edv & Bv).
    destruct (saveBook_resume_edited st data v Hok) as (Bk & _ & Ee & _).
    rewrite E3 in Bk, Ee. rewrite Edv, Bv in Bk.
    destruct (findIndex_elem b _ Hb) as (i & b' & Fi & Li & Hid).
    rewrite Fi in Bk.
    exists i, b'. split; [exact Fi|]. split; [exact Li|]. split; [exact Hid|].
    split; assumption.
Qed.

Lemma patch_answer_follows_the_form_witness :
  let w := after init edit_run in
  let w1 := after w [At 2000 SubmitForm] in
  reachable w
  /\ is_editing (editingId (shelf w)) = true
  /\ whitespace_only (formName (shelf w)) = false
  /\ ok 200 = true
  /\ step w (At 2000 SubmitForm) = Some w1
  /\ pending w1
     = pending w ++ [(nextCall w, ReqSave true (editingId (shelf w))
                                     (trim (formName (shelf w))))].
Proof.
  cbv zeta. split; [exists edit_run; run_it|]. do 4 (split; [run_it|]).
  apply (patch_answer_follows_the_form (after init edit_run)
           (after (after init edit_run) [At 2000 SubmitForm]) 2000 200 dune).
  - exists edit_run. run_it.
  - run_it.
  - run_it.
  - run_it.
  - run_it.
Defined.

(** ** The theorems on the colours and the form applied to concrete data *)

Lemma gradientFromIndex_distinct_witness :
  0 <= 4 < 5 /\ 5 - 4 < 30000 /\ gradientFromIndex 4 <> gradientFromIndex 5.
Proof.
  split; [lia|]. split; [lia|].
  apply (gradientFromIndex_distinct 4 5); lia.
Defined.

Lemma saveBook_sends_trimmed_title_witness :
  whitespace_only (formName (shelf padded_form)) = false
  /\ pending (saveBook padded_form)
     = [(0%nat, ReqSave false None (lit "War and Peace"))].
Proof.
  split; [reflexivity|].
  refine (eq_trans (proj1 (saveBook_sends_trimmed_title padded_form eq_refl)) _).
  reflexivity.
Defined.

Lemma create_then_remove_restores_witness :
  let book := {| item_id := 7; item_name := lit "Persuasion" |} in
  let w1 := saveBook_resume false (Responded 201 (inr book)) loaded_shelf in
  let w2 := removeBook_resume 7 (Responded 204 (inl [])) w1 in
  ok 201 = true /\ (ok 204 = true \/ 204 = 204)
  /\ books (shelf loaded_shelf) = [dune; emma]
  /\ colorMap (shelf loaded_shelf) !! 7 = None
  /\ books (shelf w2) = books (shelf loaded_shelf)
  /\ colorMap (shelf w2) = colorMap (shelf loaded_shelf).
Proof.
  cbv zeta. split; [reflexivity|]. split; [right; reflexivity|].
  split; [run_it|]. split; [run_it|].
  assert (Eb : map item_id (books (shelf loaded_shelf)) = [1; 2]) by run_it.
  assert (Hn : 7 ∉ map item_id (books (shelf loaded_shelf))).
  { rewrite Eb. intros H. apply elem_of_cons in H as [H|H]; [discriminate|].
    apply elem_of_cons in H as [H|H]; [discriminate|]. apply elem_of_nil in H. exact H. }
  assert (Hc : colorMap (shelf loaded_shelf) !! 7 = None) by run_it.
  destruct (create_then_remove_restores loaded_shelf
              {| item_id := 7; item_name := lit "Persuasion" |} 201 204 (inl [])
              eq_refl (or_intror eq_refl) Hn Hc) as (_ & _ & B & C & _).
  split; assumption.
Defined.

Lemma gradient_shared_after_delete_witness :
  let book := {| item_id := 3; item_name := lit "Persuasion" |} in
  let w1 := removeBook_resume 1 (Responded 204 (inl [])) loaded_shelf in
  let w2 := saveBook_resume false (Responded 201 (inr book)) w1 in
  books (shelf w2) = [emma; book]
  /\ colorMap (shelf loaded_shelf) !! 2 = Some (gradientFromIndex 1)
  /\ colorMap (shelf w2) !! 2 = Some (gradientFromIndex (nextColorIndex loaded_shelf - 1))
  /\ colorMap (shelf w2) !! 3 = Some (gradientFromIndex (nextColorIndex loaded_shelf - 1)).
Proof.
  cbv zeta. split; [run_it|]. split; [run_it|].
  apply (gradient_shared_after_delete loaded_shelf 1 2
           {| item_id := 3; item_name := lit "Persuasion" |} 204 201 (inl [])).
  - right. reflexivity.
  - reflexivity.
  - exists (gradientFromIndex 0). run_it.
  - run_it.
  - discriminate.
  - discriminate.
Defined.

Lemma edit_of_id_zero_posts_witness :
  let zero := {| item_id := 0; item_name := lit "Emma" |} in
  let w2 := saveBook (startEdit zero loaded_shelf) in
  item_id zero = 0 /\ whitespace_only (item_name zero) = false /\ ok 201 = true
  /\ pending w2 = pending loaded_shelf
                  ++ [(nextCall loaded_shelf, ReqSave false None (trim (item_name zero)))].
Proof.
  cbv zeta. split; [reflexivity|]. split; [reflexivity|]. split; [reflexivity|].
  destruct (edit_of_id_zero_posts {| item_id := 0; item_name := lit "Emma" |}
              loaded_shelf 201 emma eq_refl eq_refl eq_refl) as (_ & _ & P & _).
  exact P.
Defined.

Lemma removed_book_leaves_edit_mode_witness :
  let w := after init edit_run in
  let w' := removeBook_resume 1 (Responded 204 (inl [])) w in
  (ok 204 = true \/ 204 = 204)
  /\ editingId (shelf w) = Some 1
  /\ editingId (shelf w') <> Some 1.
Proof.
  cbv zeta. split; [right; reflexivity|]. split; [run_it|].
  apply (removed_book_leaves_edit_mode (after init edit_run) 1 204 (inl [])).
  right. reflexivity.
Defined.
